(** * SMS-to-transaction extraction and deduplication pipeline

    A shallow embedding of the scanner ([lib/sms/scanner.ts]), the
    extraction engine ([lib/sms/parser.ts]), the transaction creator and
    duplicate checker ([lib/sms/processor/*]) and the save service
    ([lib/sms/service.ts]), followed by the properties of the
    specification that concern them.

    Conventions.
    - A JavaScript string is a [string] whose characters are its UTF-16
      code units, for text in Latin-1 (code units below 256);
      [toLowerCase] and [trim] are those of ECMAScript on that range: the
      capitals are A-Z and U+00C0-U+00DE but the sign U+00D7, the white
      space is U+0009-U+000D, the space and the no-break space U+00A0.
    - A JavaScript number is a binary64 [float]; rule priorities and the
      loop counters, which are integers in every run, are in [Z].
    - [async] functions are run to completion one after the other (the
      code awaits every call), so a promise is its outcome: a normal
      completion or a thrown value, in the monad [M] below.
    - What the JavaScript runtime, the libraries and the modules outside
      this development provide (regular expressions, [parseFloat], the
      random source of [uuid], the device bridge, the rule store, ...) is a
      field of the class [Host]. *)

From Stdlib Require Import String Ascii List ZArith Lia Bool Floats Permutation.
Import ListNotations.
Local Open Scope string_scope.
Local Open Scope Z_scope.

Set Implicit Arguments.

(** ** Strings, as the methods of [String.prototype] the code calls *)

Module Str.

(** The lower case of a code unit below 256: A-Z, and the Latin-1
    capitals U+00C0-U+00D6 and U+00D8-U+00DE, are 32 below their small
    letters. *)
Definition lowerChar (c : ascii) : ascii :=
  let n := nat_of_ascii c in
  if ((65 <=? n)%nat && (n <=? 90)%nat)
     || ((192 <=? n)%nat && (n <=? 214)%nat)
     || ((216 <=? n)%nat && (n <=? 222)%nat)
  then ascii_of_nat (n + 32) else c.

Fixpoint toLowerCase (s : string) : string :=
  match s with
  | EmptyString => EmptyString
  | String c s' => String (lowerChar c) (toLowerCase s')
  end.

(** [s.startsWith(p)] *)
Definition startsWith (s p : string) : bool := String.prefix p s.

(** [s.includes(sub)] *)
Fixpoint includes (s sub : string) : bool :=
  startsWith s sub ||
  match s with
  | EmptyString => false
  | String _ s' => includes s' sub
  end.

(** The white space and line terminators [trim] removes, below 256: tab,
    line feed, vertical tab, form feed, carriage return, space and the
    no-break space U+00A0. *)
Definition isSpace (c : ascii) : bool :=
  let n := nat_of_ascii c in
  ((9 <=? n)%nat && (n <=? 13)%nat) || (n =? 32)%nat || (n =? 160)%nat.

Fixpoint trimStart (s : string) : string :=
  match s with
  | String c s' => if isSpace c then trimStart s' else s
  | EmptyString => EmptyString
  end.

Fixpoint trimEnd (s : string) : string :=
  match s with
  | EmptyString => EmptyString
  | String c s' =>
      match trimEnd s' with
      | EmptyString => if isSpace c then EmptyString else String c EmptyString
      | t => String c t
      end
  end.

(** [s.trim()] *)
Definition trim (s : string) : string := trimEnd (trimStart s).

Definition isEmpty (s : string) : bool :=
  match s with EmptyString => true | _ => false end.

(** A string is truthy when it is not empty. *)
Definition truthy (s : string) : bool := negb (isEmpty s).

(** [s.lastIndexOf(c)], -1 when [c] does not occur. *)
Fixpoint lastIndexOfFrom (c : ascii) (s : string) (i : Z) (found : Z) : Z :=
  match s with
  | EmptyString => found
  | String d s' => lastIndexOfFrom c s' (i + 1) (if Ascii.eqb c d then i else found)
  end.

Definition lastIndexOf (s : string) (c : ascii) : Z := lastIndexOfFrom c s 0 (-1).

(** [s.slice(a, b)] and [s.slice(a)] for indices within [0 .. length]. *)
Definition slice (s : string) (a b : Z) : string :=
  String.substring (Z.to_nat a) (Z.to_nat (b - a)) s.

Definition sliceFrom (s : string) (a : Z) : string :=
  String.substring (Z.to_nat a) (String.length s - Z.to_nat a) s.

(** [s.replace(/,/g, '')] *)
Fixpoint removeCommas (s : string) : string :=
  match s with
  | EmptyString => EmptyString
  | String c s' =>
      if Ascii.eqb c "," then removeCommas s' else String c (removeCommas s')
  end.

(** The values a [for (const ch of s)] loop goes through. *)
Fixpoint chars (s : string) : list string :=
  match s with
  | EmptyString => []
  | String c s' => String c EmptyString :: chars s'
  end.

(** [a || b] on strings. *)
Definition orElse (a b : string) : string := if truthy a then a else b.

End Str.

(** ** The data model *)

Inductive TransactionType := expense | income.

Definition TransactionType_eqb (a b : TransactionType) : bool :=
  match a, b with
  | expense, expense | income, income => true
  | _, _ => false
  end.

(** A field of type [string | string[]]. *)
Inductive StringOrArray :=
| Single (s : string)
| Array (l : list string).

(** [Array.isArray(x) ? x : [x]] *)
Definition toArray (x : StringOrArray) : list string :=
  match x with
  | Single s => [s]
  | Array l => l
  end.

(** Truthiness of an optional [string | string[]]: [undefined] and the empty
    string are falsy, every array is truthy. *)
Definition truthyField (x : option StringOrArray) : bool :=
  match x with
  | None => false
  | Some (Single s) => Str.truthy s
  | Some (Array _) => true
  end.

Record MerchantExtraction := {
  startText : option string;
  endText : option string;
  startIndex : option Z
}.

(** [SmsParserRule], with the fields the pipeline reads or copies. *)
Record SmsParserRule := {
  name : string;
  enabled : bool;
  paymentBank : string;
  priority : Z;
  transactionType : TransactionType;
  senderMatch : StringOrArray;
  amountRegex : StringOrArray;
  merchantExtractions : option (list MerchantExtraction);
  merchantCommonPatterns : option StringOrArray;
  skipCondition : option StringOrArray;
  merchantCondition : option StringOrArray;
  successCount : option Z;
  lastError : option string
}.

(** [{ ...rule, successCount: (rule.successCount || 0) + 1, lastError: undefined }] *)
Definition withSuccess (r : SmsParserRule) : SmsParserRule :=
  {| name := name r; enabled := enabled r; paymentBank := paymentBank r;
     priority := priority r; transactionType := transactionType r;
     senderMatch := senderMatch r; amountRegex := amountRegex r;
     merchantExtractions := merchantExtractions r;
     merchantCommonPatterns := merchantCommonPatterns r;
     skipCondition := skipCondition r; merchantCondition := merchantCondition r;
     successCount := Some (match successCount r with Some n => n | None => 0 end + 1);
     lastError := None |}.

(** [{ ...rule, lastError: String(error) }] *)
Definition withError (r : SmsParserRule) (e : string) : SmsParserRule :=
  {| name := name r; enabled := enabled r; paymentBank := paymentBank r;
     priority := priority r; transactionType := transactionType r;
     senderMatch := senderMatch r; amountRegex := amountRegex r;
     merchantExtractions := merchantExtractions r;
     merchantCommonPatterns := merchantCommonPatterns r;
     skipCondition := skipCondition r; merchantCondition := merchantCondition r;
     successCount := successCount r;
     lastError := Some e |}.

(** [ParseResult] of the extraction engine. *)
Record ParseResult := {
  amount : option float;
  merchantName : string;
  usedRule : option SmsParserRule;
  resultType : option TransactionType
}.

Definition unknownMerchant : string := "Unknown Merchant".

(** [{ amount: null, merchantName: "Unknown Merchant" }] *)
Definition noMatch : ParseResult :=
  {| amount := None; merchantName := unknownMerchant;
     usedRule := None; resultType := None |}.

(** Truthiness of [amount: number | null]: [null], [0], [-0] and [NaN] are
    falsy. *)
Definition truthyAmount (a : option float) : bool :=
  match a with
  | None => false
  | Some f => negb (PrimFloat.is_zero f || PrimFloat.is_nan f)
  end.

(** [SmsMessage] of the scanner. *)
Record SmsMessage := {
  address : string;
  body : string;
  date : string
}.

(** [ProcessedSmsMessage & { id?: string }] *)
Record ProcessedSmsMessage := {
  smsBody : string;
  smsDate : string;
  smsAmount : float;
  smsMerchantName : string;
  smsSender : option string;
  smsId : option string
}.

Record Transaction := {
  id : string;
  txAmount : float;
  txDate : string;
  txMerchantName : string;
  category : string;
  notes : option string;
  paymentMethod : string;
  source : string;
  txType : TransactionType
}.

(** What [getPreviousTransactionData] resolves to. *)
Record EnrichedData := {
  enrichedCategory : option string;
  enrichedNotes : option string
}.

(** An element of the array the bridge's JSON decodes to: [null], or a
    value whose [address], [body] and [date] properties are read;
    [rawDate] is the time value of [new Date(msg.date)], [None] for an
    invalid date. *)
Record RawSms := {
  rawAddress : option string;
  rawBody : option string;
  rawDate : option Z
}.

(** What [JSON.parse] returns, as far as the loader looks into it. *)
Inductive Json :=
| JsonArray (items : list (option RawSms))
| JsonOther.

(** ** Completions, and the monad of the awaited calls *)

Inductive Completion (A : Type) :=
| Normal (a : A)
| Thrown (e : string).
Arguments Thrown {A} e.

(** The rule of a result that was returned. *)
Definition usedRule_of (c : Completion ParseResult) : option SmsParserRule :=
  match c with
  | Normal pr => usedRule pr
  | Thrown _ => None
  end.

(** A computation over a state [S] that returns or throws. *)
Definition M (S A : Type) : Type := S -> Completion A * S.

Definition ret {S A : Type} (a : A) : M S A := fun s => (Normal a, s).

Definition throw {S A : Type} (e : string) : M S A := fun s => (Thrown e, s).

Definition bind {S A B : Type} (m : M S A) (k : A -> M S B) : M S B :=
  fun s =>
    match m s with
    | (Normal a, s') => k a s'
    | (Thrown e, s') => (Thrown e, s')
    end.

(** [try { m } catch (e) { h(e) }]: the state reached when [m] threw is the
    one the handler starts from. *)
Definition tryCatch {S A : Type} (m : M S A) (h : string -> M S A) : M S A :=
  fun s =>
    match m s with
    | (Normal a, s') => (Normal a, s')
    | (Thrown e, s') => h e s'
    end.

Definition gets {S A : Type} (f : S -> A) : M S A := fun s => (Normal (f s), s).

Definition modify {S : Type} (f : S -> S) : M S unit := fun s => (Normal tt, f s).

Declare Scope monad_scope.
Delimit Scope monad_scope with monad.
Notation "x <- m ;; k" := (bind m (fun x => k))
  (at level 61, m at next level, right associativity) : monad_scope.
Notation "m ;;; k" := (bind m (fun _ => k))
  (at level 61, right associativity) : monad_scope.
Local Open Scope monad_scope.

(** [for (const x of xs) { body(x) }] *)
Fixpoint forOf {S A : Type} (xs : list A) (body : A -> M S unit) : M S unit :=
  match xs with
  | [] => ret tt
  | x :: xs' => body x ;;; forOf xs' body
  end.

(** ** The world outside the pipeline *)

Inductive ToastKind := ToastPlain | ToastError.

Inductive Event :=
| ReadSMS (fromDate toDate : Z)
| GetSmsParserRules
| UpdateSmsParserRule (r : SmsParserRule)
| Emit (total processed success skipped : Z)
| Toast (kind : ToastKind) (title : string)
| AddTransaction (t : Transaction)
| Broadcast.

(** The state the awaited calls act on: how many bytes have been drawn from
    the random source, the records of the [transactions] object store in
    the order [getAll] returns them, which is the order of their keys, and
    the calls made to the outside so far, latest first. *)
Record World := {
  drawn : nat;
  transactionsDb : list Transaction;
  trace : list Event
}.

(** The place of a new record in a store whose key path is [id]: before
    the first record with a greater key. Keys that are strings compare by
    their code units. *)
Fixpoint insertByKey (t : Transaction) (db : list Transaction) : list Transaction :=
  match db with
  | [] => [t]
  | x :: xs =>
      if String.ltb (id t) (id x) then t :: x :: xs else x :: insertByKey t xs
  end.

Definition logEvent (e : Event) : M World unit :=
  modify (fun w => {| drawn := drawn w; transactionsDb := transactionsDb w;
                      trace := e :: trace w |}).

(** What the runtime and the modules around the pipeline provide. An
    [option] result is [None] when the call throws or rejects. *)
Class Host := {
  (** [new RegExp(pattern, flags).exec(text)]: [None] when the constructor
      throws a [SyntaxError], [Some None] when there is no match, and the
      match array otherwise (index 0 is the whole match, a group that did
      not take part is [None]). *)
  RegExp_exec : string -> string -> string -> option (option (list (option string)));
  parseFloat : string -> float;
  Number_toString : float -> string;
  (** [tryMerchantExtractions] of [lib/merchant-extract]. *)
  tryMerchantExtractions : string -> list MerchantExtraction -> Completion string;
  (** [getPreviousTransactionData] of [lib/transaction-enricher], which
      reads the stored transactions. *)
  getPreviousTransactionData : string -> list Transaction -> option EnrichedData;
  (** Whether [updateSmsParserRule] succeeds for a rule. *)
  updateSmsParserRule_ok : SmsParserRule -> bool;
  (** The stream of bytes of the random source behind [uuid]. *)
  randomByte : nat -> Z;
  (** [window.Android?.readSMS], when the bridge is there. *)
  Android_readSMS : option (Z -> Z -> option string);
  JSON_parse : string -> option Json;
  (** [new Date()], in milliseconds since the epoch. *)
  Date_now : Z;
  (** [d.setDate(d.getDate() - n)] in the local time zone. *)
  Date_daysBefore : Z -> Z -> Z;
  (** The text of [toISOString] for a valid time value. *)
  Date_isoText : Z -> string;
  (** What [getSmsParserRules] resolves to ([Some None]: nothing). *)
  getSmsParserRules_result : option (option (list SmsParserRule));
  (** Whether [initDB] and [getAll] succeed. *)
  idb_ok : bool;
  (** Whether the listeners of [dbEvents.emit] return normally. *)
  emit_ok : Z -> Z -> Z -> Z -> bool;
  (** Whether [dbEvents.broadcast] returns normally, given the transaction
      it is passed, if any. *)
  broadcast_ok : option Transaction -> bool
}.

(** ** The extraction engine ([lib/sms/parser.ts]) *)

Section Engine.

Context {host : Host}.

(** [regex.test(text)]; [None] when the constructor throws. *)
Definition RegExp_test (pattern flags text : string) : option bool :=
  match RegExp_exec pattern flags text with
  | None => None
  | Some None => Some false
  | Some (Some _) => Some true
  end.

(** [match && match[1]] after [text.match(new RegExp(pattern, 'i'))]:
    the first group when it is a non-empty string. [None] when the
    constructor throws. *)
Definition firstGroup (pattern text : string) : option (option string) :=
  match RegExp_exec pattern "i" text with
  | None => None
  | Some None => Some None
  | Some (Some arr) =>
      match nth_error arr 1 with
      | Some (Some g) => if Str.truthy g then Some (Some g) else Some None
      | _ => Some None
      end
  end.

(** [!pattern || pattern.trim() === ''] *)
Definition blank (pattern : string) : bool :=
  Str.isEmpty pattern || Str.isEmpty (Str.trim pattern).

(** The [/pattern/flags] branch of a skip condition: taken when the
    condition starts with a slash and has another one after index 1; an
    invalid expression is logged and does not match. *)
Definition skipRegexMatches (text pattern : string) : bool :=
  if Str.startsWith pattern "/" && (Str.lastIndexOf pattern "/" >? 1) then
    let regexStr := Str.slice pattern 1 (Str.lastIndexOf pattern "/") in
    let flags := Str.sliceFrom pattern (Str.lastIndexOf pattern "/" + 1) in
    match RegExp_test regexStr (Str.orElse flags "i") text with
    | Some b => b
    | None => false
    end
  else false.

(** One skip pattern against the message text: blank patterns are passed
    over, then the literal test, then the regular expression. *)
Definition skipPatternMatches (text pattern : string) : bool :=
  if blank pattern then false
  else Str.includes (Str.toLowerCase text) (Str.toLowerCase pattern)
       || skipRegexMatches text pattern.

(** The loop over the skip conditions of one rule. *)
Definition ruleSkips (text : string) (rule : SmsParserRule) : bool :=
  if truthyField (skipCondition rule) then
    match skipCondition rule with
    | Some c => existsb (skipPatternMatches text) (toArray c)
    | None => false
    end
  else false.

(** The first loop of [tryRules]: the skip conditions of all the rules of
    the group, enabled or not. *)
Definition globalSkip (text : string) (rules : list SmsParserRule) : bool :=
  existsb (ruleSkips text) rules.

(** One sender pattern: literal first, then as a regular expression. *)
Definition senderPatternMatches (sender pattern : string) : bool :=
  if blank pattern then false
  else if Str.includes (Str.toLowerCase sender) (Str.toLowerCase pattern) then true
  else match RegExp_test pattern "i" sender with
       | Some b => b
       | None => false
       end.

Definition senderMatches (sender : string) (rule : SmsParserRule) : bool :=
  existsb (senderPatternMatches sender) (toArray (senderMatch rule)).

(** The loop over the amount patterns; [acc] is the variable [amount]. *)
Fixpoint extractAmount (text : string) (patterns : list string) (acc : option float)
  : option float :=
  match patterns with
  | [] => acc
  | pattern :: rest =>
      match firstGroup pattern text with
      | Some (Some g) =>
          let a := PrimFloat.abs (parseFloat (Str.removeCommas g)) in
          if negb (PrimFloat.is_nan a) then Some a
          else extractAmount text rest (Some a)
      | _ => extractAmount text rest acc
      end
  end.

(** The loops over [merchantCondition] and [merchantCommonPatterns]: the
    trimmed first group of the first pattern that has one replaces the
    name. *)
Fixpoint firstTrimmedGroup (subject : string) (patterns : list string) (current : string)
  : string :=
  match patterns with
  | [] => current
  | pattern :: rest =>
      match firstGroup pattern subject with
      | Some (Some g) => Str.trim g
      | _ => firstTrimmedGroup subject rest current
      end
  end.

(** [for (const pattern of rule.merchantCommonPatterns)]: an array gives
    its elements, a string its characters. *)
Definition iterate (x : StringOrArray) : list string :=
  match x with
  | Single s => Str.chars s
  | Array l => l
  end.

(** The merchant name of a rule that has found an amount; it throws when
    [tryMerchantExtractions] does. *)
Definition extractMerchant (text : string) (rule : SmsParserRule) : Completion string :=
  let extracted :=
    match merchantExtractions rule with
    | Some (e :: es) =>
        match tryMerchantExtractions text (e :: es) with
        | Normal m => Normal (Str.orElse m unknownMerchant)
        | Thrown err => Thrown err
        end
    | _ => Normal unknownMerchant
    end in
  match extracted with
  | Thrown err => Thrown err
  | Normal m0 =>
      let m1 :=
        if negb (Str.truthy m0) || String.eqb m0 unknownMerchant then
          if truthyField (merchantCondition rule) then
            match merchantCondition rule with
            | Some c => firstTrimmedGroup text (toArray c) m0
            | None => m0
            end
          else m0
        else m0 in
      Normal (if Str.truthy m1 && truthyField (merchantCommonPatterns rule) then
              match merchantCommonPatterns rule with
              | Some c => firstTrimmedGroup m1 (iterate c) m1
              | None => m1
              end
            else m1)
  end.

(** [await updateSmsParserRule(r)] inside its own [try]/[catch]. *)
Definition updateSmsParserRule (r : SmsParserRule) : M World unit :=
  logEvent (UpdateSmsParserRule r) ;;;
  if updateSmsParserRule_ok r then ret tt else throw "updateSmsParserRule".

Definition tryUpdate (r : SmsParserRule) : M World unit :=
  tryCatch (updateSmsParserRule r) (fun _ => ret tt).

(** The second loop of [tryRules]. *)
Fixpoint tryEach (text sender : string) (rules : list SmsParserRule)
  : M World ParseResult :=
  match rules with
  | [] => ret noMatch
  | rule :: rest =>
      if negb (enabled rule) then tryEach text sender rest
      else if negb (senderMatches sender rule) then tryEach text sender rest
      else if ruleSkips text rule then tryEach text sender rest
      else
        let amount := extractAmount text (toArray (amountRegex rule)) None in
        if negb (truthyAmount amount) then tryEach text sender rest
        else
          match extractMerchant text rule with
          | Normal merchant =>
              tryUpdate (withSuccess rule) ;;;
              ret {| amount := amount; merchantName := merchant;
                     usedRule := Some rule; resultType := None |}
          | Thrown error =>
              tryUpdate (withError rule error) ;;;
              tryEach text sender rest
          end
  end.

Definition tryRules (text sender : string) (rules : list SmsParserRule)
  : M World ParseResult :=
  if globalSkip text rules then ret noMatch
  else tryEach text sender rules.

Definition ofType (t : TransactionType) (rule : SmsParserRule) : bool :=
  TransactionType_eqb (transactionType rule) t.

Definition withType (r : ParseResult) (t : TransactionType) : ParseResult :=
  {| amount := amount r; merchantName := merchantName r;
     usedRule := usedRule r; resultType := Some t |}.

Definition extractExpenseFromText (text sender : string) (rules : list SmsParserRule)
  : M World ParseResult :=
  let expenseRules := filter (ofType expense) rules in
  let incomeRules := filter (ofType income) rules in
  expenseResult <- tryRules text sender expenseRules ;;
  if truthyAmount (amount expenseResult) then ret (withType expenseResult expense)
  else
    incomeResult <- tryRules text sender incomeRules ;;
    if truthyAmount (amount incomeResult) then ret (withType incomeResult income)
    else ret noMatch.

End Engine.

(** ** The transaction creator and the duplicate checker
    ([lib/sms/processor/transaction-creator.ts], [duplicate-checker.ts]) *)

Module Hex.

Definition digit (n : Z) : ascii :=
  match n with
  | 0 => "0" | 1 => "1" | 2 => "2" | 3 => "3" | 4 => "4" | 5 => "5"
  | 6 => "6" | 7 => "7" | 8 => "8" | 9 => "9" | 10 => "a" | 11 => "b"
  | 12 => "c" | 13 => "d" | 14 => "e" | _ => "f"
  end%char.

(** [b.toString(16).padStart(2, '0')] for a byte. *)
Definition ofByte (b : Z) : string :=
  String (digit (Z.shiftr (Z.land b 255) 4)) (String (digit (Z.land b 15)) EmptyString).

Definition ofBytes (bs : list Z) : string :=
  fold_right (fun b acc => ofByte b ++ acc) EmptyString bs.

End Hex.

Section Processor.

Context {host : Host}.

(** The next [n] bytes of the random source. *)
Definition drawBytes (n : nat) : M World (list Z) :=
  fun w =>
    (Normal (map (fun i => Z.land (randomByte (drawn w + i)) 255) (seq 0 n)),
     {| drawn := drawn w + n; transactionsDb := transactionsDb w; trace := trace w |}).

(** [uuidv4()] of the [uuid] package: sixteen random bytes, the version
    and variant bits set, printed as 8-4-4-4-12 hexadecimal digits. *)
Definition uuidStamp (bs : list Z) : list Z :=
  map (fun '(i, b) =>
         if (i =? 6)%nat then Z.lor (Z.land b 15) 64
         else if (i =? 8)%nat then Z.lor (Z.land b 63) 128
         else b)
      (combine (seq 0 (List.length bs)) bs).

Definition uuidText (bs : list Z) : string :=
  Hex.ofBytes (firstn 4 bs) ++ "-" ++
  Hex.ofBytes (firstn 2 (skipn 4 bs)) ++ "-" ++
  Hex.ofBytes (firstn 2 (skipn 6 bs)) ++ "-" ++
  Hex.ofBytes (firstn 2 (skipn 8 bs)) ++ "-" ++
  Hex.ofBytes (skipn 10 bs).

Definition uuidv4 : M World string :=
  bs <- drawBytes 16 ;;
  ret (uuidText (uuidStamp bs)).

Definition orEmpty (s : option string) : string :=
  match s with Some x => x | None => EmptyString end.

(** The string the function builds from its fields and then leaves
    unused. *)
Definition idString (fields : ProcessedSmsMessage) : string :=
  smsDate fields ++ "_" ++ Number_toString (smsAmount fields) ++ "_" ++
  smsMerchantName fields ++ "_" ++ orEmpty (smsSender fields) ++ "_" ++
  smsBody fields.

(** [generateDeterministicTransactionId] of [transaction-creator.ts], the
    one the scanner imports. *)
Definition generateDeterministicTransactionId (fields : ProcessedSmsMessage)
  : M World string :=
  tryCatch
    (let _idString := idString fields in
     let _namespaceUuid := "6ba7b810-9dad-11d1-80b4-00c04fd430c8" in
     uuidv4)
    (fun _ => uuidv4).

Definition previousTransactionData (merchant : string) : M World EnrichedData :=
  fun w =>
    match getPreviousTransactionData merchant (transactionsDb w) with
    | Some d => (Normal d, w)
    | None => (Thrown "getPreviousTransactionData", w)
    end.

Definition createTransactionFromSms (smsData : ProcessedSmsMessage)
    (bankName : string) (type : TransactionType) : M World Transaction :=
  tryCatch
    (id <- generateDeterministicTransactionId smsData ;;
     enrichedData <- previousTransactionData (smsMerchantName smsData) ;;
     ret {| id := id;
            txAmount := smsAmount smsData;
            txDate := smsDate smsData;
            txMerchantName := smsMerchantName smsData;
            category := Str.orElse (orEmpty (enrichedCategory enrichedData)) "other";
            notes := enrichedNotes enrichedData;
            paymentMethod := bankName;
            source := "sms";
            txType := type |})
    (fun e => throw e).

(** [getTransactions] of [lib/db]: an error of the store gives the empty
    list. *)
Definition getTransactions : M World (list Transaction) :=
  tryCatch
    (if idb_ok then gets transactionsDb else throw "initDB")
    (fun _ => ret []).

Definition hasId (i : string) (ts : list Transaction) : bool :=
  existsb (fun t => String.eqb (id t) i) ts.

Definition isTransactionDuplicate (smsData : ProcessedSmsMessage) : M World bool :=
  tryCatch
    (transactions <- getTransactions ;;
     if Str.truthy (orEmpty (smsId smsData)) then
       ret (hasId (orEmpty (smsId smsData)) transactions)
     else
       deterministicId <- generateDeterministicTransactionId smsData ;;
       ret (hasId deterministicId transactions))
    (fun _ => ret false).

End Processor.

(** ** The older processor ([lib/sms-transaction-processor.ts]), which the
    CSV import uses *)

Section LegacyProcessor.

(** [window.crypto.subtle.digest('SHA-256', new TextEncoder().encode(s))];
    [None] when it rejects. *)
Variable subtle_digest_SHA256 : string -> option (list Z).
Context {host : Host}.

Definition legacyIdData (fields : ProcessedSmsMessage) : string :=
  smsDate fields ++ "|" ++ Number_toString (smsAmount fields) ++ "|" ++
  smsMerchantName fields ++ "|" ++ orEmpty (smsSender fields) ++ "|" ++
  smsBody fields.

Definition legacyGenerateDeterministicTransactionId (fields : ProcessedSmsMessage)
  : M World string :=
  match subtle_digest_SHA256 (legacyIdData fields) with
  | Some hashBuffer => ret (Hex.ofBytes hashBuffer)
  | None => throw "digest"
  end.

End LegacyProcessor.

(** ** The scanner ([lib/sms/scanner.ts]) and the service ([lib/sms/service.ts]) *)

(** The variables of the loop of [scanSms]. *)
Record ScanState := {
  transactions : list Transaction;
  processedCount : Z;
  skippedCount : Z
}.

(** A run of the loop: its variables, and the world. *)
Record Frame := {
  locals : ScanState;
  world : World
}.

Definition liftW {A : Type} (m : M World A) : M Frame A :=
  fun f =>
    let (r, w) := m (world f) in
    (r, {| locals := locals f; world := w |}).

Definition modifyLocals (g : ScanState -> ScanState) : M Frame unit :=
  modify (fun f => {| locals := g (locals f); world := world f |}).

(** [skippedCount++] *)
Definition countSkipped (s : ScanState) : ScanState :=
  {| transactions := transactions s; processedCount := processedCount s;
     skippedCount := skippedCount s + 1 |}.

(** [transactions.push(t); processedCount++] *)
Definition accept (t : Transaction) (s : ScanState) : ScanState :=
  {| transactions := transactions s ++ [t]; processedCount := processedCount s + 1;
     skippedCount := skippedCount s |}.

Definition initialScanState : ScanState :=
  {| transactions := []; processedCount := 0; skippedCount := 0 |}.

(** Runs a loop on fresh variables and gives their final values. *)
Definition withLocals (m : M Frame unit) : M World ScanState :=
  fun w =>
    match m {| locals := initialScanState; world := w |} with
    | (Normal _, f) => (Normal (locals f), world f)
    | (Thrown e, f) => (Thrown e, world f)
    end.

Section Scanner.

Context {host : Host}.

Definition toast (kind : ToastKind) (title : string) : M World unit :=
  logEvent (Toast kind title).

(** The largest time value of a valid [Date]. *)
Definition maxTimeValue : Z := 8640000000000000.

(** [new Date(msg.date).toISOString()], which throws on an invalid date. *)
Definition toISOString (date : option Z) : M World string :=
  match date with
  | Some t =>
      if (- maxTimeValue <=? t) && (t <=? maxTimeValue) then ret (Date_isoText t)
      else throw "RangeError: Invalid time value"
  | None => throw "RangeError: Invalid time value"
  end.

(** The callback of [map] in the loader. *)
Definition toSmsMessage (msg : option RawSms) : M World SmsMessage :=
  match msg with
  | None => throw "TypeError: Cannot read properties of null"
  | Some raw =>
      iso <- toISOString (rawDate raw) ;;
      ret {| address := orEmpty (rawAddress raw);
             body := orEmpty (rawBody raw);
             date := iso |}
  end.

Fixpoint mapM {A B : Type} (f : A -> M World B) (xs : list A) : M World (list B) :=
  match xs with
  | [] => ret []
  | x :: xs' => y <- f x ;; ys <- mapM f xs' ;; ret (y :: ys)
  end.

(** [xs.slice(0, limit)] for an integer [limit]. *)
Definition sliceTo {A : Type} (xs : list A) (limit : Z) : list A :=
  if limit <? 0 then firstn (Z.to_nat (Z.max (Z.of_nat (List.length xs) + limit) 0)) xs
  else firstn (Z.to_nat limit) xs.

(** [await window.Android.readSMS(fromDate, toDate)] *)
Definition readSMS (bridge : Z -> Z -> option string) (fromDate toDate : Z)
  : M World string :=
  logEvent (ReadSMS fromDate toDate) ;;;
  match bridge fromDate toDate with
  | Some smsJson => ret smsJson
  | None => throw "readSMS"
  end.

Definition parseJson (text : string) : M World Json :=
  match JSON_parse text with
  | Some v => ret v
  | None => throw "SyntaxError"
  end.

Definition loadSmsFromDevice (limit : Z) : M World (list SmsMessage) :=
  tryCatch
    (match Android_readSMS with
     | None => ret []
     | Some bridge =>
         let fromDate := Date_daysBefore 30 Date_now in
         let toDate := Date_now in
         smsJson <- readSMS bridge fromDate toDate ;;
         messages <- parseJson smsJson ;;
         match messages with
         | JsonOther => ret []
         | JsonArray items => mapM toSmsMessage (sliceTo items limit)
         end
     end)
    (fun _ => ret []).

(** The default value of [limit]. *)
Definition defaultLimit : Z := 100.

Definition getSmsParserRules : M World (option (list SmsParserRule)) :=
  logEvent GetSmsParserRules ;;;
  match getSmsParserRules_result with
  | Some rules => ret rules
  | None => throw "getSmsParserRules"
  end.

(** [dbEvents.emit(DatabaseEvent.TRANSACTION_IMPORTED, {...})] *)
Definition emitProgress (total : Z) : M Frame unit :=
  s <- gets locals ;;
  let processed := processedCount s + skippedCount s in
  liftW (logEvent (Emit total processed (processedCount s) (skippedCount s))) ;;;
  if emit_ok total processed (processedCount s) (skippedCount s) then ret tt
  else throw "listener".

Definition bankOf (r : ParseResult) : string :=
  match usedRule r with
  | Some rule => Str.orElse (paymentBank rule) "Other Bank"
  | None => "Other Bank"
  end.

(** The body of the [try] block of the loop, for one message. *)
Definition processMessageBody (rules : list SmsParserRule) (total : Z)
    (message : SmsMessage) : M Frame unit :=
  result <- liftW (extractExpenseFromText (body message) (address message) rules) ;;
  match amount result, resultType result with
  | Some amount, Some type =>
      if negb (truthyAmount (Some amount)) then modifyLocals countSkipped
      else
        let smsData :=
          {| smsBody := body message; smsDate := date message;
             smsAmount := amount; smsMerchantName := merchantName result;
             smsSender := Some (address message); smsId := None |} in
        transaction <- liftW (createTransactionFromSms smsData (bankOf result) type) ;;
        duplicate <- liftW (isTransactionDuplicate
          {| smsBody := body message; smsDate := date message;
             smsAmount := amount; smsMerchantName := merchantName result;
             smsSender := Some (address message);
             smsId := Some (id transaction) |}) ;;
        if duplicate then modifyLocals countSkipped
        else
          modifyLocals (accept transaction) ;;;
          emitProgress total
  | _, _ => modifyLocals countSkipped
  end.

(** One turn of the loop: the [try] block and its [catch]. *)
Definition processMessage (rules : list SmsParserRule) (total : Z)
    (message : SmsMessage) : M Frame unit :=
  tryCatch (processMessageBody rules total message)
           (fun _ => modifyLocals countSkipped).

(** The loop over the messages. *)
Definition scanMessages (rules : list SmsParserRule) (messages : list SmsMessage)
  : M Frame unit :=
  forOf messages (processMessage rules (Z.of_nat (List.length messages))).

Definition isNil {A : Type} (l : list A) : bool :=
  match l with [] => true | _ => false end.

(** [scanSms(fromDate?, toDate?)] *)
Definition scanSms (fromDate toDate : option Z) : M World (list Transaction) :=
  tryCatch
    (messages <- loadSmsFromDevice defaultLimit ;;
     if isNil messages then
       toast ToastError "No SMS messages found" ;;; ret []
     else
       rules <- getSmsParserRules ;;
       match rules with
       | None | Some [] =>
           toast ToastError "No SMS parser rules found" ;;; ret []
       | Some rules =>
           final <- withLocals (scanMessages rules messages) ;;
           (if isNil (transactions final)
            then toast ToastError "No new transactions found"
            else toast ToastPlain "SMS Scan Complete") ;;;
           ret (transactions final)
       end)
    (fun _ => toast ToastError "Error scanning SMS" ;;; ret []).

(** [dbEvents.broadcast(events, payload)] *)
Definition broadcast (payload : option Transaction) : M World unit :=
  logEvent Broadcast ;;;
  if broadcast_ok payload then ret tt else throw "listener".

(** [db.add('transactions', t)] on a store keyed by [id], which rejects a
    key it already holds, and the broadcast that follows it. *)
Definition addTransaction (t : Transaction) : M World unit :=
  tryCatch
    (logEvent (AddTransaction t) ;;;
     db <- gets transactionsDb ;;
     if negb idb_ok then throw "initDB"
     else if hasId (id t) db then throw "ConstraintError"
     else
       modify (fun w => {| drawn := drawn w;
                           transactionsDb := insertByKey t (transactionsDb w);
                           trace := trace w |}) ;;;
       broadcast (Some t))
    (fun e => throw e).

(** [SmsService.scanAndSaveTransactions] *)
Definition scanAndSaveTransactions (fromDate toDate : option Z)
  : M World (list Transaction) :=
  tryCatch
    (transactions <- scanSms fromDate toDate ;;
     forOf transactions addTransaction ;;;
     (if isNil transactions then ret tt else broadcast None) ;;;
     ret transactions)
    (fun e => throw e).

End Scanner.

(** ** The older processor, continued: its duplicate check and its
    transaction creator ([lib/sms-transaction-processor.ts]) *)

(** The transaction the older creator returns. *)
Record LegacyTransaction := {
  legacyId : string;
  legacyMerchantName : string;
  legacyAmount : float;
  legacyCurrency : string;
  legacyDate : string;
  legacyCategory : string;
  legacyNotes : string;
  legacyPaymentMethod : string;
  legacyType : TransactionType;
  legacySender : option string;
  legacySource : string
}.

Section LegacyService.

Variable subtle_digest_SHA256 : string -> option (list Z).
Context {host : Host}.

(** The five fields the older functions hand to the generator. *)
Definition legacyFields (date : string) (smsData : ProcessedSmsMessage)
  : ProcessedSmsMessage :=
  {| smsBody := smsBody smsData; smsDate := date; smsAmount := smsAmount smsData;
     smsMerchantName := smsMerchantName smsData; smsSender := smsSender smsData;
     smsId := None |}.

(** [isTransactionDuplicate] of the older processor: always by the
    identifier computed from the fields. *)
Definition legacyIsTransactionDuplicate (smsData : ProcessedSmsMessage) : M World bool :=
  tryCatch
    (transactions <- getTransactions ;;
     deterministicId <- legacyGenerateDeterministicTransactionId subtle_digest_SHA256
                          (legacyFields (smsDate smsData) smsData) ;;
     ret (hasId deterministicId transactions))
    (fun _ => ret false).

(** [createTransactionFromSms] of the older processor. *)
Definition legacyCreateTransactionFromSms (smsData : ProcessedSmsMessage)
    (bankName : string) (type : TransactionType) : M World LegacyTransaction :=
  let currentDate := Str.orElse (smsDate smsData) (Date_isoText Date_now) in
  previousData <- previousTransactionData (smsMerchantName smsData) ;;
  let category := Str.orElse (orEmpty (enrichedCategory previousData)) "other" in
  let notes := orEmpty (enrichedNotes previousData) in
  let finalAmount := smsAmount smsData in
  id <- legacyGenerateDeterministicTransactionId subtle_digest_SHA256
          (legacyFields currentDate smsData) ;;
  ret {| legacyId := id;
         legacyMerchantName := smsMerchantName smsData;
         legacyAmount := finalAmount;
         legacyCurrency := "INR";
         legacyDate := currentDate;
         legacyCategory := category;
         legacyNotes := notes;
         legacyPaymentMethod := bankName;
         legacyType := type;
         legacySender := smsSender smsData;
         legacySource := "sms" |}.

End LegacyService.

(** ** The rule tester ([lib/sms/processor/rule-tester.ts]) *)

(** [SmsParserRule] together with its merchant fields of the older format,
    which only the rule tester reads. *)
Record TestedRule := {
  base : SmsParserRule;
  merchantStartText : option string;
  merchantEndText : option string;
  merchantStartIndex : option Z
}.

(** [RuleTestResult]; [createdTransaction] is its field [expense]. *)
Record RuleTestResult := {
  createdTransaction : Transaction;
  matchedRule : TestedRule;
  testedType : TransactionType
}.

(** [Array.prototype.sort] is stable; with the comparator
    [(b.priority || 0) - (a.priority || 0)] it gives the rules by descending
    priority, rules of equal priority in their order in the array. *)
Fixpoint insertByPriority (r : TestedRule) (sorted : list TestedRule) : list TestedRule :=
  match sorted with
  | [] => [r]
  | x :: xs =>
      if priority (base x) <=? priority (base r) then r :: x :: xs
      else x :: insertByPriority r xs
  end.

Definition sortByPriority (rules : list TestedRule) : list TestedRule :=
  fold_right insertByPriority [] rules.

(** [a + b] on the time values of two dates, which are integers of at most
    8.64e15 in absolute value: the sum is exact up to 2^53, and beyond it
    is rounded to the nearest double, a multiple of 2, the one that is a
    multiple of 4 when the sum is odd. *)
Definition addTimes (a b : Z) : Z :=
  let s := a + b in
  if Z.abs s <=? 2 ^ 53 then s
  else if Z.even s then s
  else if (s + 1) mod 4 =? 0 then s + 1
  else s - 1.

Section RuleTester.

(** [extractMerchantName] of [lib/merchant-extract]. *)
Variable extractMerchantName :
  string -> option string -> option string -> Z -> Completion string.

(** What [getSmsParserRules] resolves to, with the older merchant fields
    ([None]: it rejects; [Some None]: nothing). *)
Variable storedRules : option (option (list TestedRule)).

Context {host : Host}.

Definition truthyText (s : option string) : bool := Str.truthy (orEmpty s).

(** [rule.merchantStartIndex || 1] *)
Definition startIndexOrOne (i : option Z) : Z :=
  match i with
  | Some n => if n =? 0 then 1 else n
  | None => 1
  end.

(** The merchant name, as the tester finds it. *)
Definition testerMerchant (text : string) (r : TestedRule) : Completion string :=
  let extracted :=
    if truthyText (merchantStartText r) || truthyText (merchantEndText r) then
      match extractMerchantName text (merchantStartText r) (merchantEndText r)
              (startIndexOrOne (merchantStartIndex r)) with
      | Normal m => Normal (Str.orElse m unknownMerchant)
      | Thrown err => Thrown err
      end
    else Normal unknownMerchant in
  match extracted with
  | Thrown err => Thrown err
  | Normal m0 =>
      let m1 :=
        if negb (Str.truthy m0) || String.eqb m0 unknownMerchant then
          if truthyField (merchantCondition (base r)) then
            match merchantCondition (base r) with
            | Some c => firstTrimmedGroup text (toArray c) m0
            | None => m0
            end
          else m0
        else m0 in
      Normal (if Str.truthy m1 && truthyField (merchantCommonPatterns (base r)) then
                match merchantCommonPatterns (base r) with
                | Some c => firstTrimmedGroup m1 (toArray c) m1
                | None => m1
                end
              else m1)
  end.

(** The time value of the transaction: now, or the middle of the range
    when both ends are given ([new Date(x)] drops the half millisecond). *)
Definition testerDate (fromDate toDate : option Z) : Z :=
  match fromDate, toDate with
  | Some a, Some b => Z.quot (addTimes a b) 2
  | _, _ => Date_now
  end.

(** The body of the [try] block of the tester's loop, for one rule. *)
Definition testRuleBody (smsText sender : string) (fromDate toDate : option Z)
    (type : TransactionType) (r : TestedRule) : M World (option RuleTestResult) :=
  if negb (senderMatches sender (base r)) then ret None
  else if ruleSkips smsText (base r) then ret None
  else
    match extractAmount smsText (toArray (amountRegex (base r))) None with
    | Some amount =>
        if negb (truthyAmount (Some amount)) then ret None
        else
          match testerMerchant smsText r with
          | Thrown err => throw err
          | Normal merchantName =>
              iso <- toISOString (Some (testerDate fromDate toDate)) ;;
              transaction <- createTransactionFromSms
                {| smsBody := smsText; smsDate := iso; smsAmount := amount;
                   smsMerchantName := merchantName; smsSender := Some sender;
                   smsId := None |}
                (paymentBank (base r)) type ;;
              ret (Some {| createdTransaction := transaction; matchedRule := r;
                           testedType := type |})
          end
    | None => ret None
    end.

(** The tester's [tryRules]. *)
Fixpoint testerTryRules (smsText sender : string) (rules : list TestedRule)
    (fromDate toDate : option Z) (type : TransactionType)
  : M World (option RuleTestResult) :=
  match rules with
  | [] => ret None
  | r :: rest =>
      if negb (enabled (base r)) then
        testerTryRules smsText sender rest fromDate toDate type
      else
        found <- tryCatch (testRuleBody smsText sender fromDate toDate type r)
                          (fun _ => ret None) ;;
        match found with
        | Some result => ret (Some result)
        | None => testerTryRules smsText sender rest fromDate toDate type
        end
  end.

Definition getTestedRules : M World (list TestedRule) :=
  logEvent GetSmsParserRules ;;;
  match storedRules with
  | Some (Some rules) => ret rules
  | Some None => throw "TypeError: Cannot read properties of null"
  | None => throw "getSmsParserRules"
  end.

Definition ofTestedType (t : TransactionType) (r : TestedRule) : bool :=
  ofType t (base r).

(** [testSmsWithRules] *)
Definition testSmsWithRules (smsText sender : string) (fromDate toDate : option Z)
    (customRules : option (list TestedRule)) : M World (option RuleTestResult) :=
  tryCatch
    (rules <- match customRules with
              | Some rules => ret rules
              | None => getTestedRules
              end ;;
     let expenseRules := filter (ofTestedType expense) rules in
     let incomeRules := filter (ofTestedType income) rules in
     let sortedExpenseRules := sortByPriority expenseRules in
     let sortedIncomeRules := sortByPriority incomeRules in
     expenseResult <- testerTryRules smsText sender sortedExpenseRules
                        fromDate toDate expense ;;
     match expenseResult with
     | Some result => ret (Some result)
     | None =>
         incomeResult <- testerTryRules smsText sender sortedIncomeRules
                           fromDate toDate income ;;
         match incomeResult with
         | Some result => ret (Some result)
         | None => ret None
         end
     end)
    (fun _ => ret None).

(** A rule that would give the tester a result, the store being [db]. *)
Definition testerPasses (db : list Transaction) (smsText sender : string)
    (fromDate toDate : option Z) (r : TestedRule) : Prop :=
  enabled (base r) = true /\
  senderMatches sender (base r) = true /\
  ruleSkips smsText (base r) = false /\
  truthyAmount (extractAmount smsText (toArray (amountRegex (base r))) None) = true /\
  (- maxTimeValue <=? testerDate fromDate toDate)
  && (testerDate fromDate toDate <=? maxTimeValue) = true /\
  exists m, testerMerchant smsText r = Normal m
            /\ getPreviousTransactionData m db <> None.

End RuleTester.

(** ** A host to run the pipeline on

    A small, explicit host: a regular-expression engine for the three
    shapes of pattern the examples use, a decimal [parseFloat], a counter
    as random source, a bridge that hands out one fixed payload. *)

Module Sample.

(** The amount pattern of the examples: the literal [Rs.] followed by a
    non-empty run of digits, commas, dots and minus signs, which is the
    first group. *)
Definition amountPattern : string := "Rs\.([-0-9,.]+)".

(** A pattern with an unterminated group, which [new RegExp] rejects. *)
Definition invalidPattern : string := "([0-9]+".

Definition inClass (c : ascii) : bool :=
  let n := nat_of_ascii c in
  ((48 <=? n)%nat && (n <=? 57)%nat) || (n =? 44)%nat || (n =? 45)%nat || (n =? 46)%nat.

Fixpoint takeClass (s : string) : string :=
  match s with
  | String c s' => if inClass c then String c (takeClass s') else EmptyString
  | EmptyString => EmptyString
  end.

Fixpoint drop (n : nat) (s : string) : string :=
  match n, s with
  | S n', String _ s' => drop n' s'
  | _, _ => s
  end.

(** Leftmost match of [Rs\.([-0-9,.]+)], ignoring case. *)
Fixpoint execAmount (text : string) : option (list (option string)) :=
  let here :=
    if Str.startsWith (Str.toLowerCase text) "rs." then
      let g := takeClass (drop 3 text) in
      if Str.truthy g then Some [Some (String.substring 0 3 text ++ g); Some g] else None
    else None in
  match here with
  | Some m => Some m
  | None =>
      match text with
      | EmptyString => None
      | String _ text' => execAmount text'
      end
  end.

(** Leftmost occurrence of a literal, ignoring case. *)
Fixpoint execLiteral (lit text : string) : option (list (option string)) :=
  if Str.startsWith (Str.toLowerCase text) (Str.toLowerCase lit) then
    Some [Some (String.substring 0 (String.length lit) text)]
  else
    match text with
    | EmptyString => None
    | String _ text' => execLiteral lit text'
    end.

Definition exec (pattern flags text : string)
  : option (option (list (option string))) :=
  if String.eqb pattern invalidPattern then None
  else if String.eqb pattern amountPattern then Some (execAmount text)
  else Some (execLiteral pattern text).

Definition isDigit (c : ascii) : bool :=
  let n := nat_of_ascii c in (48 <=? n)%nat && (n <=? 57)%nat.

(** Reads digits into [acc]; gives the number read, how many digits, and
    the rest. *)
Fixpoint digits (s : string) (acc : Z) (count : nat) : Z * nat * string :=
  match s with
  | String c s' =>
      if isDigit c then digits s' (10 * acc + Z.of_nat (nat_of_ascii c - 48)) (S count)
      else (acc, count, s)
  | EmptyString => (acc, count, s)
  end.

Definition toFloat (n : Z) : float := PrimFloat.of_uint63 (Uint63.of_Z n).

(** [parseFloat] on short decimal numerals: an optional sign, digits, and
    an optional fraction; [NaN] when there is no digit. *)
Definition parse (s : string) : float :=
  let s := Str.trimStart s in
  let '(negative, s) :=
    match s with
    | String "-"%char s' => (true, s')
    | String "+"%char s' => (false, s')
    | _ => (false, s)
    end in
  let '(whole, nWhole, rest) := digits s 0 0%nat in
  let '(all, nFrac) :=
    match rest with
    | String "."%char rest' =>
        let '(all, nAll, _) := digits rest' whole nWhole in (all, (nAll - nWhole)%nat)
    | _ => (whole, 0%nat)
    end in
  if (nWhole + nFrac =? 0)%nat then PrimFloat.nan
  else
    let magnitude := PrimFloat.div (toFloat all) (toFloat (10 ^ Z.of_nat nFrac)) in
    if negative then PrimFloat.opp magnitude else magnitude.

(** The text of the bridge's payload; [JSON.parse] gives [payload] for
    it. *)
Definition payloadText : string := "[...]".

(** 2024-01-31T00:00:00Z, and thirty days of milliseconds. *)
Definition now : Z := 1706659200000.
Definition day : Z := 86400000.

Definition sampleHost (rules : list SmsParserRule) (payload : Json) : Host :=
  {| RegExp_exec := exec;
     parseFloat := parse;
     Number_toString := fun _ => "0";  (* no example prints a number *)
     tryMerchantExtractions := fun _ _ => Normal EmptyString;
     getPreviousTransactionData := fun _ _ =>
       Some {| enrichedCategory := None; enrichedNotes := None |};
     updateSmsParserRule_ok := fun _ => true;
     randomByte := fun i => Z.of_nat i;
     Android_readSMS := Some (fun _ _ => Some payloadText);
     JSON_parse := fun s => if String.eqb s payloadText then Some payload else None;
     Date_now := now;
     Date_daysBefore := fun n t => t - n * day;
     Date_isoText := fun _ => "2024-01-15T10:00:00.000Z";  (* the date of [raw] *)
     getSmsParserRules_result := Some (Some rules);
     idb_ok := true;
     emit_ok := fun _ _ _ _ => true;
     broadcast_ok := fun _ => true |}.

(** The same host, but [getPreviousTransactionData] rejects. *)
Definition throwingHost (rules : list SmsParserRule) (payload : Json) : Host :=
  let base := sampleHost rules payload in
  {| RegExp_exec := @RegExp_exec base;
     parseFloat := @parseFloat base;
     Number_toString := @Number_toString base;
     tryMerchantExtractions := @tryMerchantExtractions base;
     getPreviousTransactionData := fun _ _ => None;
     updateSmsParserRule_ok := @updateSmsParserRule_ok base;
     randomByte := @randomByte base;
     Android_readSMS := @Android_readSMS base;
     JSON_parse := @JSON_parse base;
     Date_now := @Date_now base;
     Date_daysBefore := @Date_daysBefore base;
     Date_isoText := @Date_isoText base;
     getSmsParserRules_result := @getSmsParserRules_result base;
     idb_ok := @idb_ok base;
     emit_ok := @emit_ok base;
     broadcast_ok := @broadcast_ok base |}.

(** The same host, but the database cannot be opened. *)
Definition offlineHost (rules : list SmsParserRule) (payload : Json) : Host :=
  let base := sampleHost rules payload in
  {| RegExp_exec := @RegExp_exec base;
     parseFloat := @parseFloat base;
     Number_toString := @Number_toString base;
     tryMerchantExtractions := @tryMerchantExtractions base;
     getPreviousTransactionData := @getPreviousTransactionData base;
     updateSmsParserRule_ok := @updateSmsParserRule_ok base;
     randomByte := @randomByte base;
     Android_readSMS := @Android_readSMS base;
     JSON_parse := @JSON_parse base;
     Date_now := @Date_now base;
     Date_daysBefore := @Date_daysBefore base;
     Date_isoText := @Date_isoText base;
     getSmsParserRules_result := @getSmsParserRules_result base;
     idb_ok := false;
     emit_ok := @emit_ok base;
     broadcast_ok := @broadcast_ok base |}.

Definition rule (name : string) (priority : Z) (type : TransactionType)
    (enabled : bool) (amountRegex : string) (skip : option StringOrArray)
  : SmsParserRule :=
  {| name := name; enabled := enabled; paymentBank := "HDFC Bank";
     priority := priority; transactionType := type;
     senderMatch := Single "HDFC"; amountRegex := Single amountRegex;
     merchantExtractions := None; merchantCommonPatterns := None;
     skipCondition := skip; merchantCondition := None;
     successCount := None; lastError := None |}.

Definition sender : string := "VM-HDFCBK".
Definition text : string := "Paid Rs.-500.00 at SHOP".

Definition message : SmsMessage :=
  {| address := sender; body := text; date := "2024-01-15T10:00:00.000Z" |}.

Definition raw : RawSms :=
  {| rawAddress := Some sender; rawBody := Some text; rawDate := Some 1705312800000 |}.

(** Rules of the examples. *)
Definition lowPriority : SmsParserRule := rule "R2" 5 expense true amountPattern None.
Definition highPriority : SmsParserRule := rule "R1" 10 expense true amountPattern None.
Definition incomeRule : SmsParserRule := rule "I" 10 income true amountPattern None.
Definition expenseRule : SmsParserRule := rule "E" 1 expense true amountPattern None.
Definition disabledRule : SmsParserRule := rule "D" 1 expense false amountPattern None.
Definition invalidRule : SmsParserRule := rule "bad" 2 expense true invalidPattern None.
Definition blankSkipRule : SmsParserRule :=
  rule "S" 1 expense true amountPattern (Some (Array [" "])).
Definition skipRule : SmsParserRule :=
  rule "K" 1 expense false amountPattern (Some (Single "shop")).

(** The no-break space U+00A0, and the letters U+00C9 and U+00E9 (E with
    an acute accent, capital and small). *)
Definition nbsp : string := String (ascii_of_nat 160) EmptyString.
Definition capitalEAcute : string := String (ascii_of_nat 201) EmptyString.
Definition smallEAcute : string := String (ascii_of_nat 233) EmptyString.

(** A rule whose only skip condition is a no-break space, and one whose
    skip condition is a word with a capital of Latin-1. *)
Definition nbspSkipRule : SmsParserRule :=
  rule "N" 1 expense true amountPattern (Some (Single nbsp)).
Definition accentSkipRule : SmsParserRule :=
  rule "A" 1 expense true amountPattern (Some (Single ("CAF" ++ capitalEAcute))).

(** A rule whose sender patterns are blank. *)
Definition blankSenderRule : SmsParserRule :=
  {| name := "B"; enabled := true; paymentBank := "HDFC Bank";
     priority := 9; transactionType := expense;
     senderMatch := Array [""; "  "]; amountRegex := Single amountPattern;
     merchantExtractions := None; merchantCommonPatterns := None;
     skipCondition := None; merchantCondition := None;
     successCount := None; lastError := None |}.

(** The fields of the transaction of [message]. *)
Definition fields : ProcessedSmsMessage :=
  {| smsBody := text; smsDate := "2024-01-15T10:00:00.000Z";
     smsAmount := 500%float; smsMerchantName := unknownMerchant;
     smsSender := Some sender; smsId := None |}.

(** The fields of another message: another date, amount, merchant,
    sender and body. *)
Definition otherFields : ProcessedSmsMessage :=
  {| smsBody := "Credited Rs.75.50"; smsDate := "Pending";
     smsAmount := 75.5%float; smsMerchantName := "ACME";
     smsSender := None; smsId := None |}.

Definition emptyWorld : World :=
  {| drawn := 0; transactionsDb := []; trace := [] |}.

(** A store that already holds a transaction under the identifier the
    random source gives next. *)
Definition stored : Transaction :=
  {| id := "00010203-0405-4607-8809-0a0b0c0d0e0f"; txAmount := 500%float;
     txDate := "2024-01-15T10:00:00.000Z"; txMerchantName := unknownMerchant;
     category := "other"; notes := None; paymentMethod := "HDFC Bank";
     source := "sms"; txType := expense |}.

(** A transaction whose key comes before that of [stored]. *)
Definition earlier : Transaction :=
  {| id := "00000000-0000-4000-8000-000000000000"; txAmount := 120%float;
     txDate := "2024-01-14T09:00:00.000Z"; txMerchantName := unknownMerchant;
     category := "other"; notes := None; paymentMethod := "HDFC Bank";
     source := "sms"; txType := expense |}.

Definition stockedFrame : Frame :=
  {| locals := initialScanState;
     world := {| drawn := 0; transactionsDb := [stored]; trace := [] |} |}.

(** The two expense rules of the examples as the tester sees them, and an
    [extractMerchantName] that finds nothing. *)
Definition tested (r : SmsParserRule) : TestedRule :=
  {| base := r; merchantStartText := None; merchantEndText := None;
     merchantStartIndex := None |}.

Definition noMerchantName (_ : string) (_ _ : option string) (_ : Z) : Completion string :=
  Normal EmptyString.

(** A message without address and body, and a payload whose third
    element is [null]. *)
Definition bareRaw : RawSms :=
  {| rawAddress := None; rawBody := None; rawDate := Some 1705312800000 |}.

Definition mixedPayload : Json := JsonArray [Some raw; Some bareRaw; None].

(** A payload of 101 messages. *)
Definition longPayload : Json := JsonArray (repeat (Some raw) 101).

Definition emptyFrame : Frame :=
  {| locals := initialScanState; world := emptyWorld |}.

End Sample.

(** ** The vocabulary of the properties *)

(** Two worlds that differ by calls made to the outside only. *)
Definition sameStore (w w' : World) : Prop :=
  drawn w' = drawn w /\ transactionsDb w' = transactionsDb w.

(** The world after more calls to the outside, latest first. *)
Definition addCalls (calls : list Event) (w : World) : World :=
  {| drawn := drawn w; transactionsDb := transactionsDb w;
     trace := (calls ++ trace w)%list |}.

Section Vocabulary.

Context {host : Host}.

(** What a rule has to pass to be the one [tryEach] returns. *)
Definition ruleApplies (text sender : string) (rule : SmsParserRule) (m : string) : Prop :=
  enabled rule = true /\
  senderMatches sender rule = true /\
  ruleSkips text rule = false /\
  truthyAmount (extractAmount text (toArray (amountRegex rule)) None) = true /\
  extractMerchant text rule = Normal m.

Definition resultOf (text : string) (rule : SmsParserRule) (m : string) : ParseResult :=
  {| amount := extractAmount text (toArray (amountRegex rule)) None;
     merchantName := m; usedRule := Some rule; resultType := None |}.

(** A pattern that gives the loop no number: it does not compile, does not
    match, has no non-empty first group, or its group does not parse. *)
Definition givesNoNumber (text pattern : string) : Prop :=
  forall g, firstGroup pattern text = Some (Some g) ->
            PrimFloat.is_nan (PrimFloat.abs (parseFloat (Str.removeCommas g))) = true.

(** The stored transactions as [getTransactions] returns them. *)
Definition visibleTransactions (w : World) : list Transaction :=
  if idb_ok then transactionsDb w else [].

(** The rules a result of [getSmsParserRules] holds. *)
Definition rulesOf (stored : option (list SmsParserRule)) : list SmsParserRule :=
  match stored with
  | Some rules => rules
  | None => []
  end.

(** The one call the loader makes to the bridge. *)
Definition bridgeCall : Event := ReadSMS (Date_daysBefore 30 Date_now) Date_now.

(** The bytes [uuidv4] draws next, and the identifier they give. *)
Definition nextBytes (w : World) : list Z :=
  map (fun i => Z.land (randomByte (drawn w + i)) 255) (seq 0 16).

Definition nextUuid (w : World) : string := uuidText (uuidStamp (nextBytes w)).

Definition afterDraw (w : World) : World :=
  {| drawn := drawn w + 16; transactionsDb := transactionsDb w; trace := trace w |}.


(** What the body of the loop does with one message: it skips it, or
    accepts the transaction created for it, whose identifier is then not
    among the stored ones; it may throw before the count, or after the
    transaction was accepted. The store is never written. *)
Inductive BodyOutcome (f : Frame) : Completion unit -> Frame -> Prop :=
| BodySkipped (w : World) :
    transactionsDb w = transactionsDb (world f) ->
    BodyOutcome f (Normal tt) {| locals := countSkipped (locals f); world := w |}
| BodyThrewBefore (e : string) (w : World) :
    transactionsDb w = transactionsDb (world f) ->
    BodyOutcome f (Thrown e) {| locals := locals f; world := w |}
| BodyAccepted (t : Transaction) (w : World) (c : Completion unit) :
    transactionsDb w = transactionsDb (world f) ->
    hasId (id t) (visibleTransactions (world f)) = false ->
    txType t = expense \/ txType t = income ->
    BodyOutcome f c {| locals := accept t (locals f); world := w |}.

End Vocabulary.

(** ** The vocabulary of the further properties *)

Section FurtherVocabulary.

Context {host : Host}.

(** A write to the rule store that records an error on a rule of the
    list. *)
Definition errorUpdate (rules : list SmsParserRule) (e : Event) : Prop :=
  exists r err, In r rules /\ e = UpdateSmsParserRule (withError r err).

(** A rule that could be the one [tryEach] returns, for some merchant
    name. *)
Definition applies (text sender : string) (rule : SmsParserRule) : Prop :=
  exists m, ruleApplies text sender rule m.

(** The rule the second loop of [tryRules] comes to first among those
    that apply: no rule listed before it in the group applies. *)
Definition firstApplicable (text sender : string) (group : list SmsParserRule)
    (rule : SmsParserRule) : Prop :=
  exists pre post,
    group = (pre ++ rule :: post)%list
    /\ Forall (fun r' => ~ applies text sender r') pre.

(** A group that gives no result: a skip condition of one of its rules
    matches, or none of its rules applies. *)
Definition groupSilent (text sender : string) (group : list SmsParserRule) : Prop :=
  globalSkip text group = true \/ Forall (fun r' => ~ applies text sender r') group.


(** A rule none of whose amount patterns is a valid regular expression. *)
Definition invalidAmountPatterns (text : string) (rule : SmsParserRule) : Prop :=
  forall p, In p (toArray (amountRegex rule)) -> RegExp_exec p "i" text = None.

(** What the scan guarantees of a transaction it accepts for a message. *)
Definition createdFor (rules : list SmsParserRule) (message : SmsMessage)
    (t : Transaction) : Prop :=
  source t = "sms" /\ txDate t = date message /\
  PrimFloat.ltb 0 (txAmount t) = true /\
  Str.truthy (id t) = true /\ Str.truthy (category t) = true /\
  exists rule,
    In rule rules /\ enabled rule = true /\
    senderMatches (address message) rule = true /\
    txType t = transactionType rule /\
    paymentMethod t = Str.orElse (paymentBank rule) "Other Bank".

(** One turn of the loop, seen from outside: the message is skipped, or a
    transaction created for it is accepted, and then counted as skipped as
    well only if a progress listener threw. The store is not written. *)
Inductive TurnOutcome (rules : list SmsParserRule) (message : SmsMessage)
    (f : Frame) : Frame -> Prop :=
| TurnSkipped (w : World) :
    transactionsDb w = transactionsDb (world f) ->
    TurnOutcome rules message f {| locals := countSkipped (locals f); world := w |}
| TurnAccepted (t : Transaction) (w : World) :
    transactionsDb w = transactionsDb (world f) ->
    createdFor rules message t ->
    hasId (id t) (visibleTransactions (world f)) = false ->
    TurnOutcome rules message f {| locals := accept t (locals f); world := w |}
| TurnAcceptedThenSkipped (t : Transaction) (w : World) (a b c d : Z) :
    transactionsDb w = transactionsDb (world f) ->
    createdFor rules message t ->
    hasId (id t) (visibleTransactions (world f)) = false ->
    emit_ok a b c d = false ->
    TurnOutcome rules message f
      {| locals := countSkipped (accept t (locals f)); world := w |}.

(** What the scan guarantees of every transaction it returns. *)
Definition wellFormed (w : World) (t : Transaction) : Prop :=
  source t = "sms" /\ PrimFloat.ltb 0 (txAmount t) = true /\
  Str.truthy (id t) = true /\ Str.truthy (category t) = true /\
  Str.truthy (paymentMethod t) = true /\
  hasId (id t) (visibleTransactions w) = false.

(** An element of the payload the loader can turn into a message. *)
Definition readable (msg : option RawSms) : bool :=
  match msg with
  | Some raw =>
      match rawDate raw with
      | Some t => (- maxTimeValue <=? t) && (t <=? maxTimeValue)
      | None => false
      end
  | None => false
  end.

(** The message the loader makes of a readable element. *)
Definition messageOf (msg : option RawSms) : SmsMessage :=
  match msg with
  | Some raw =>
      {| address := orEmpty (rawAddress raw); body := orEmpty (rawBody raw);
         date := match rawDate raw with
                 | Some t => Date_isoText t
                 | None => EmptyString
                 end |}
  | None => {| address := EmptyString; body := EmptyString; date := EmptyString |}
  end.

End FurtherVocabulary.

(** A store whose records are in the order of their keys. *)
Fixpoint keyOrdered (db : list Transaction) : Prop :=
  match db with
  | x :: rest =>
      match rest with
      | y :: _ => String.ltb (id x) (id y) = true
      | [] => True
      end /\ keyOrdered rest
  | [] => True
  end.

(** A list of rules in descending order of priority. *)
Fixpoint descending (rules : list TestedRule) : Prop :=
  match rules with
  | [] => True
  | x :: xs =>
      Forall (fun y => priority (base y) <= priority (base x)) xs /\ descending xs
  end.

(** The rules the tester tries: the custom rules, else the stored ones. *)
Definition testerRules (storedRules : option (option (list TestedRule)))
    (customRules : option (list TestedRule)) : option (list TestedRule) :=
  match customRules with
  | Some rules => Some rules
  | None =>
      match storedRules with
      | Some (Some rules) => Some rules
      | _ => None
      end
  end.

(** The rules of a given priority. *)
Definition hasPriority (p : Z) (r : TestedRule) : bool := priority (base r) =? p.

(** A byte, as an element of a [Uint8Array]. *)
Definition isByte (b : Z) : Prop := 0 <= b < 256.

(** Reading a hexadecimal digit, and the byte two of them spell. *)
Definition hexValue (c : ascii) : Z :=
  let n := Z.of_nat (nat_of_ascii c) in
  if (48 <=? n) && (n <=? 57) then n - 48
  else if (97 <=? n) && (n <=? 102) then n - 87
  else 0.

Definition byteOfHex (s : string) : Z :=
  match s with
  | String h (String l _) => 16 * hexValue h + hexValue l
  | _ => 0
  end.

(** A digest for the examples: the length of the data and its first
    character, which is no hash but is a function of the data. *)
Definition sampleDigest (data : string) : option (list Z) :=
  Some [Z.of_nat (String.length data) mod 256;
        match data with
        | String c _ => Z.of_nat (nat_of_ascii c)
        | EmptyString => 0
        end].

(** * Properties *)

(** ** The monad *)

Lemma bind_normal {S A B : Type} (m : M S A) (k : A -> M S B) (s s' : S) (a : A) :
  m s = (Normal a, s') -> bind m k s = k a s'.
Proof. intros H. unfold bind. rewrite H. reflexivity. Qed.

Lemma bind_thrown {S A B : Type} (m : M S A) (k : A -> M S B) (s s' : S) (e : string) :
  m s = (Thrown e, s') -> bind m k s = (Thrown e, s').
Proof. intros H. unfold bind. rewrite H. reflexivity. Qed.

Lemma tryCatch_normal {S A : Type} (m : M S A) (h : string -> M S A) (s s' : S) (a : A) :
  m s = (Normal a, s') -> tryCatch m h s = (Normal a, s').
Proof. intros H. unfold tryCatch. rewrite H. reflexivity. Qed.

Lemma tryCatch_thrown {S A : Type} (m : M S A) (h : string -> M S A) (s s' : S) (e : string) :
  m s = (Thrown e, s') -> tryCatch m h s = h e s'.
Proof. intros H. unfold tryCatch. rewrite H. reflexivity. Qed.

Lemma liftW_normal {A : Type} (m : M World A) (f : Frame) (a : A) (w : World) :
  m (world f) = (Normal a, w) ->
  liftW m f = (Normal a, {| locals := locals f; world := w |}).
Proof. intros H. unfold liftW. rewrite H. reflexivity. Qed.

Lemma liftW_thrown {A : Type} (m : M World A) (f : Frame) (e : string) (w : World) :
  m (world f) = (Thrown e, w) ->
  liftW m f = (@Thrown A e, {| locals := locals f; world := w |}).
Proof. intros H. unfold liftW. rewrite H. reflexivity. Qed.

Lemma sameStore_refl (w : World) : sameStore w w.
Proof. split; reflexivity. Qed.

Lemma sameStore_trans (w1 w2 w3 : World) :
  sameStore w1 w2 -> sameStore w2 w3 -> sameStore w1 w3.
Proof. intros [H1 H2] [H3 H4]. split; congruence. Qed.

#[local] Hint Resolve sameStore_refl : core.

(** ** The extraction engine *)

Section EngineFacts.

Context {host : Host}.

Lemma tryUpdate_returns (r : SmsParserRule) (w : World) :
  exists w', tryUpdate r w = (Normal tt, w') /\ sameStore w w'
             /\ trace w' = UpdateSmsParserRule r :: trace w.
Proof.
  unfold tryUpdate, tryCatch, updateSmsParserRule, bind, logEvent, modify, ret, throw.
  destruct (updateSmsParserRule_ok r); eexists; repeat split.
Qed.


(** The second loop always returns: either no match, or the result of a
    rule of the list that applies. *)
Lemma tryEach_returns (text sender : string) (rules : list SmsParserRule) (w : World) :
  exists pr w',
    tryEach text sender rules w = (Normal pr, w') /\ sameStore w w' /\
    (pr = noMatch \/
     exists rule m, In rule rules /\ ruleApplies text sender rule m
                    /\ pr = resultOf text rule m).
Proof.
  revert w. induction rules as [|rule rest IH]; intros w; simpl.
  - exists noMatch, w. auto.
  - assert (Hrest : forall w0, sameStore w w0 -> exists pr w',
               tryEach text sender rest w0 = (Normal pr, w') /\ sameStore w w' /\
               (pr = noMatch \/
                exists r m, In r (rule :: rest) /\ ruleApplies text sender r m
                            /\ pr = resultOf text r m)).
    { intros w0 H0.
      destruct (IH w0) as (pr & w' & E & Hs & Hcase).
      exists pr, w'. split; [exact E|]. split; [eapply sameStore_trans; eauto|].
      destruct Hcase as [Hn | (r & m & Hin & Ha & Hp)]; [left; exact Hn|].
      right. exists r, m. simpl. auto. }
    destruct (enabled rule) eqn:Een; [simpl|apply Hrest; auto].
    destruct (senderMatches sender rule) eqn:Esm; [simpl|apply Hrest; auto].
    destruct (ruleSkips text rule) eqn:Esk; [apply Hrest; auto|].
    destruct (truthyAmount (extractAmount text (toArray (amountRegex rule)) None)) eqn:Eam;
      [simpl|apply Hrest; auto].
    destruct (extractMerchant text rule) as [m|err] eqn:Emer.
    + destruct (tryUpdate_returns (withSuccess rule) w) as (w1 & E1 & Hs1 & _).
      rewrite (bind_normal _ _ _ E1). unfold ret.
      eexists _, w1. split; [reflexivity|]. split; [exact Hs1|].
      right. exists rule, m. unfold ruleApplies, resultOf. simpl. auto 10.
    + destruct (tryUpdate_returns (withError rule err) w) as (w1 & E1 & Hs1 & _).
      rewrite (bind_normal _ _ _ E1). apply Hrest. exact Hs1.
Qed.

Lemma tryRules_skipped (text sender : string) (rules : list SmsParserRule) (w : World) :
  globalSkip text rules = true -> tryRules text sender rules w = (Normal noMatch, w).
Proof. intros H. unfold tryRules. rewrite H. reflexivity. Qed.

Lemma tryRules_returns (text sender : string) (rules : list SmsParserRule) (w : World) :
  exists pr w',
    tryRules text sender rules w = (Normal pr, w') /\ sameStore w w' /\
    (pr = noMatch \/
     exists rule m, In rule rules /\ globalSkip text rules = false
                    /\ ruleApplies text sender rule m /\ pr = resultOf text rule m).
Proof.
  unfold tryRules. destruct (globalSkip text rules) eqn:Eg.
  - exists noMatch, w. auto.
  - destruct (tryEach_returns text sender rules w)
      as (pr & w' & E & Hs & [Hn | (r & m & Hin & Ha & Hp)]).
    + exists pr, w'. auto.
    + exists pr, w'. split; [exact E|]. split; [exact Hs|].
      right. exists r, m. auto.
Qed.

Lemma ofType_filter (t : TransactionType) (rules : list SmsParserRule) (r : SmsParserRule) :
  In r (filter (ofType t) rules) -> In r rules /\ transactionType r = t.
Proof.
  intros H. apply filter_In in H. destruct H as [Hin Ht]. split; auto.
  unfold ofType in Ht. destruct (transactionType r), t; simpl in Ht; congruence.
Qed.

(** The engine always returns: no match, or the result of a rule of the
    list that applies, tagged with the type of that rule. *)
Lemma extractExpenseFromText_returns (text sender : string)
    (rules : list SmsParserRule) (w : World) :
  exists pr w',
    extractExpenseFromText text sender rules w = (Normal pr, w') /\ sameStore w w' /\
    (pr = noMatch \/
     exists rule m,
       In rule rules /\
       globalSkip text (filter (ofType (transactionType rule)) rules) = false /\
       ruleApplies text sender rule m /\
       pr = withType (resultOf text rule m) (transactionType rule)).
Proof.
  unfold extractExpenseFromText.
  destruct (tryRules_returns text sender (filter (ofType expense) rules) w)
    as (pe & w1 & E1 & Hs1 & Hc1).
  rewrite (bind_normal _ _ _ E1).
  destruct (truthyAmount (amount pe)) eqn:Ete.
  - exists (withType pe expense), w1. split; [reflexivity|]. split; [exact Hs1|].
    destruct Hc1 as [Hn | (r & m & Hin & Hg & Ha & Hp)].
    + subst pe. discriminate.
    + right. apply ofType_filter in Hin. destruct Hin as [Hin Ht].
      exists r, m. rewrite Ht. subst pe. auto.
  - destruct (tryRules_returns text sender (filter (ofType income) rules) w1)
      as (pi & w2 & E2 & Hs2 & Hc2).
    rewrite (bind_normal _ _ _ E2).
    destruct (truthyAmount (amount pi)) eqn:Eti.
    + exists (withType pi income), w2. split; [reflexivity|].
      split; [eapply sameStore_trans; eauto|].
      destruct Hc2 as [Hn | (r & m & Hin & Hg & Ha & Hp)].
      * subst pi. discriminate.
      * right. apply ofType_filter in Hin. destruct Hin as [Hin Ht].
        exists r, m. rewrite Ht. subst pi. auto.
    + exists noMatch, w2. split; [reflexivity|].
      split; [eapply sameStore_trans; eauto|]. auto.
Qed.

Lemma applies_or_not (text sender : string) (rule : SmsParserRule) :
  (exists m, ruleApplies text sender rule m) \/ ~ applies text sender rule.
Proof.
  unfold applies, ruleApplies.
  destruct (enabled rule); [|right; intros (m & H & _); discriminate].
  destruct (senderMatches sender rule); [|right; intros (m & _ & H & _); discriminate].
  destruct (ruleSkips text rule); [right; intros (m & _ & _ & H & _); discriminate|].
  destruct (truthyAmount (extractAmount text (toArray (amountRegex rule)) None));
    [|right; intros (m & _ & _ & _ & H & _); discriminate].
  destruct (extractMerchant text rule) as [m|err];
    [left; exists m; auto 10|right; intros (m & _ & _ & _ & _ & H); discriminate].
Qed.

(** A rule that applies, at the head of the list, is returned, and its
    success is the one write. *)
Lemma tryEach_head_wins (text sender : string) (rule : SmsParserRule)
    (rest : list SmsParserRule) (m : string) (w : World) :
  ruleApplies text sender rule m ->
  exists w',
    tryEach text sender (rule :: rest) w = (Normal (resultOf text rule m), w')
    /\ sameStore w w'
    /\ trace w' = UpdateSmsParserRule (withSuccess rule) :: trace w.
Proof.
  intros (H1 & H2 & H3 & H4 & H5). simpl.
  rewrite H1, H2, H3, H4, H5. simpl.
  destruct (tryUpdate_returns (withSuccess rule) w) as (w1 & E1 & Hs1 & Ht1).
  rewrite (bind_normal _ _ _ E1). exists w1. split; [reflexivity|]. split; assumption.
Qed.

(** A rule that does not apply is passed over. *)
Lemma tryEach_passes (text sender : string) (rule : SmsParserRule)
    (rest : list SmsParserRule) (w : World) :
  ~ applies text sender rule ->
  exists w1, sameStore w w1
             /\ tryEach text sender (rule :: rest) w = tryEach text sender rest w1.
Proof.
  intros Hno. simpl.
  destruct (enabled rule) eqn:Een; [simpl|exists w; auto].
  destruct (senderMatches sender rule) eqn:Esm; [simpl|exists w; auto].
  destruct (ruleSkips text rule) eqn:Esk; [exists w; auto|].
  destruct (truthyAmount (extractAmount text (toArray (amountRegex rule)) None)) eqn:Eam;
    [simpl|exists w; auto].
  destruct (extractMerchant text rule) as [m|err] eqn:Emer.
  - exfalso. apply Hno. exists m. unfold ruleApplies. auto 10.
  - destruct (tryUpdate_returns (withError rule err) w) as (w1 & E1 & Hs1 & _).
    rewrite (bind_normal _ _ _ E1). exists w1. auto.
Qed.


(** What the second loop returns: the result of the first rule that
    applies, or no match when none does. *)
Lemma tryEach_spec (text sender : string) (rules : list SmsParserRule) (w : World) :
  exists pr w',
    tryEach text sender rules w = (Normal pr, w') /\ sameStore w w' /\
    ((pr = noMatch /\ Forall (fun r' => ~ applies text sender r') rules)
     \/ exists rule m,
          firstApplicable text sender rules rule
          /\ ruleApplies text sender rule m /\ pr = resultOf text rule m).
Proof.
  revert w. induction rules as [|r rest IH]; intros w.
  - exists noMatch, w. split; [reflexivity|]. split; [auto|].
    left. split; [reflexivity|constructor].
  - destruct (applies_or_not text sender r) as [(m & Ha) | Hno].
    + destruct (tryEach_head_wins rest w Ha) as (w' & E & Hs & _).
      exists (resultOf text r m), w'. split; [exact E|]. split; [exact Hs|].
      right. exists r, m. split; [|auto].
      exists [], rest. split; [reflexivity|constructor].
    + destruct (tryEach_passes rest w Hno) as (w1 & Hs1 & E1).
      destruct (IH w1) as (pr & w' & E & Hs & Hcase).
      exists pr, w'. rewrite E1. split; [exact E|].
      split; [eapply sameStore_trans; eauto|].
      destruct Hcase as [[Hn Hall] | (rule & m & (pre & post & Hl & Hpre) & Ha & Hp)].
      * left. split; [exact Hn|constructor; assumption].
      * right. exists rule, m. split; [|auto].
        exists (r :: pre), post. rewrite Hl. split; [reflexivity|constructor; assumption].
Qed.

(** What [tryRules] returns for a group: no match when the group is silent,
    else the result of the first rule of the group that applies. *)
Lemma tryRules_spec (text sender : string) (group : list SmsParserRule) (w : World) :
  exists pr w',
    tryRules text sender group w = (Normal pr, w') /\ sameStore w w' /\
    ((pr = noMatch /\ groupSilent text sender group)
     \/ exists rule m,
          globalSkip text group = false
          /\ firstApplicable text sender group rule
          /\ ruleApplies text sender rule m /\ pr = resultOf text rule m).
Proof.
  unfold tryRules, groupSilent. destruct (globalSkip text group) eqn:Eg.
  - exists noMatch, w. split; [reflexivity|]. split; [auto|]. left. auto.
  - destruct (tryEach_spec text sender group w)
      as (pr & w' & E & Hs & [[Hn Hall] | (rule & m & Hf & Ha & Hp)]).
    + exists pr, w'. split; [exact E|]. split; [exact Hs|]. left. auto.
    + exists pr, w'. split; [exact E|]. split; [exact Hs|]. right. exists rule, m. auto.
Qed.

Lemma firstApplicable_In (text sender : string) (group : list SmsParserRule)
    (rule : SmsParserRule) :
  firstApplicable text sender group rule -> In rule group.
Proof.
  intros (pre & post & Hl & _). rewrite Hl. apply in_or_app. right. left. reflexivity.
Qed.

Lemma ruleApplies_truthy (text sender : string) (rule : SmsParserRule) (m : string) :
  ruleApplies text sender rule m -> truthyAmount (amount (resultOf text rule m)) = true.
Proof. intros (_ & _ & _ & H & _). exact H. Qed.





End EngineFacts.

(** ** Group precedence, skip conditions, rule order and amounts *)

Section EngineClaims.

Context {host : Host}.

(** C9, as the code has it. Expense-group precedence holds when no skip
    condition of an expense rule matches: when the expense group produces
    an amount, the engine returns that result with type [expense], whatever
    the income rules are, and the income group has not been run; a result
    of type [income] is returned only when the expense group produced no
    amount; a message to which an expense rule applies, no skip condition
    of the expense group matching, resolves to the first expense rule, in
    the order of the list, that applies, even when an income rule applies
    as well; but when a skip condition of any expense rule, enabled or not,
    matches the message, the expense group is silent and the message
    resolves to the first income rule that applies, even when an enabled
    expense rule applies as well. *)
Theorem expense_group_takes_precedence (text sender : string)
    (rules : list SmsParserRule) (w : World) :
  (forall pe w1,
      tryRules text sender (filter (ofType expense) rules) w = (Normal pe, w1) ->
      truthyAmount (amount pe) = true ->
      extractExpenseFromText text sender rules w = (Normal (withType pe expense), w1))
  /\
  (forall pr w',
      extractExpenseFromText text sender rules w = (Normal pr, w') ->
      resultType pr = Some income ->
      exists pe w1,
        tryRules text sender (filter (ofType expense) rules) w = (Normal pe, w1)
        /\ truthyAmount (amount pe) = false)
  /\
  (forall e me,
      In e rules -> transactionType e = expense -> ruleApplies text sender e me ->
      globalSkip text (filter (ofType expense) rules) = false ->
      exists u mu w',
        firstApplicable text sender (filter (ofType expense) rules) u
        /\ ruleApplies text sender u mu
        /\ transactionType u = expense
        /\ extractExpenseFromText text sender rules w
           = (Normal (withType (resultOf text u mu) expense), w'))
  /\
  (forall i mi,
      In i rules -> transactionType i = income -> ruleApplies text sender i mi ->
      globalSkip text (filter (ofType expense) rules) = true ->
      globalSkip text (filter (ofType income) rules) = false ->
      exists u mu w',
        firstApplicable text sender (filter (ofType income) rules) u
        /\ ruleApplies text sender u mu
        /\ transactionType u = income
        /\ extractExpenseFromText text sender rules w
           = (Normal (withType (resultOf text u mu) income), w')).
Proof.
  assert (Hgroup : forall t r mr w0,
             In r rules -> transactionType r = t -> ruleApplies text sender r mr ->
             globalSkip text (filter (ofType t) rules) = false ->
             exists u mu w1,
               firstApplicable text sender (filter (ofType t) rules) u
               /\ ruleApplies text sender u mu
               /\ transactionType u = t
               /\ tryRules text sender (filter (ofType t) rules) w0
                  = (Normal (resultOf text u mu), w1)).
  { intros t r mr w0 Hin Ht Ha Hg.
    assert (Hinf : In r (filter (ofType t) rules)).
    { apply filter_In. split; [exact Hin|]. unfold ofType. rewrite Ht.
      destruct t; reflexivity. }
    destruct (tryRules_spec text sender (filter (ofType t) rules) w0)
      as (pr & w1 & E & _ & [[_ Hsil] | (u & mu & _ & Hfu & Hau & Hp)]).
    - exfalso. destruct Hsil as [Hsk | Hnone]; [congruence|].
      rewrite Forall_forall in Hnone. apply (Hnone r Hinf). exists mr. exact Ha.
    - exists u, mu, w1. split; [exact Hfu|]. split; [exact Hau|]. subst pr.
      split; [|exact E].
      pose proof (firstApplicable_In Hfu) as Hu. apply ofType_filter in Hu. apply Hu. }
  split; [|split; [|split]].
  - intros pe w1 E Ht. unfold extractExpenseFromText.
    rewrite (bind_normal _ _ _ E). rewrite Ht. reflexivity.
  - intros pr w' E Hty. unfold extractExpenseFromText in E.
    destruct (tryRules_returns text sender (filter (ofType expense) rules) w)
      as (pe & w1 & E1 & _).
    rewrite (bind_normal _ _ _ E1) in E.
    exists pe, w1. split; [exact E1|].
    destruct (truthyAmount (amount pe)); [|reflexivity].
    unfold ret in E. inversion E; subst. discriminate.
  - intros e me Hin Hte Hae Hg.
    destruct (Hgroup expense e me w Hin Hte Hae Hg) as (u & mu & w1 & Hfu & Hau & Htu & E).
    exists u, mu, w1. split; [exact Hfu|]. split; [exact Hau|]. split; [exact Htu|].
    unfold extractExpenseFromText. rewrite (bind_normal _ _ _ E).
    rewrite (ruleApplies_truthy Hau). reflexivity.
  - intros i mi Hin Hti Hai Hge Hgi.
    destruct (Hgroup income i mi w Hin Hti Hai Hgi) as (u & mu & w1 & Hfu & Hau & Htu & E).
    exists u, mu, w1. split; [exact Hfu|]. split; [exact Hau|]. split; [exact Htu|].
    unfold extractExpenseFromText.
    rewrite (bind_normal _ _ _ (@tryRules_skipped _ text sender _ w Hge)).
    change (truthyAmount (amount noMatch)) with false. cbv iota.
    rewrite (bind_normal _ _ _ E). rewrite (ruleApplies_truthy Hau). reflexivity.
Qed.

(** A rule of the group with a pattern that matches sets off the first
    loop. *)
Lemma globalSkip_of_pattern (text : string) (rules : list SmsParserRule)
    (rule : SmsParserRule) (c : StringOrArray) (pattern : string) :
  In rule rules -> skipCondition rule = Some c -> In pattern (toArray c) ->
  skipPatternMatches text pattern = true ->
  globalSkip text rules = true.
Proof.
  intros Hin Hc Hp Hm. unfold globalSkip. apply existsb_exists.
  exists rule. split; [exact Hin|]. unfold ruleSkips. rewrite Hc.
  assert (Ht : truthyField (Some c) = true).
  { destruct c as [s|l]; [|reflexivity]. simpl in Hp. destruct Hp as [Hp|[]]. subst s.
    unfold skipPatternMatches, blank in Hm. simpl.
    destruct pattern; [discriminate|reflexivity]. }
  rewrite Ht. apply existsb_exists. exists pattern. auto.
Qed.

(** C5, as the code has it. A message whose body contains, ignoring case,
    a skip condition of a rule that is not blank (empty or white space
    only), or matches one written [/pattern/flags], never produces a
    transaction through that rule; the first loop of [tryRules] returns no
    match for the whole group of that rule, enabled or not, whatever else
    matches, and the engine's result is never a rule of that group. *)
Theorem skip_condition_blocks_group (text sender : string)
    (rules : list SmsParserRule) (rule : SmsParserRule) (c : StringOrArray)
    (pattern : string) (w : World) :
  In rule rules -> skipCondition rule = Some c -> In pattern (toArray c) ->
  blank pattern = false ->
  Str.includes (Str.toLowerCase text) (Str.toLowerCase pattern) = true
  \/ skipRegexMatches text pattern = true ->
  tryRules text sender (filter (ofType (transactionType rule)) rules) w = (Normal noMatch, w)
  /\ exists pr w',
       extractExpenseFromText text sender rules w = (Normal pr, w')
       /\ usedRule pr <> Some rule
       /\ forall u, usedRule pr = Some u -> transactionType u <> transactionType rule.
Proof.
  intros Hin Hc Hp Hb Hm.
  assert (Hs : skipPatternMatches text pattern = true).
  { unfold skipPatternMatches. rewrite Hb. apply orb_true_iff. exact Hm. }
  assert (Hg : globalSkip text (filter (ofType (transactionType rule)) rules) = true).
  { apply globalSkip_of_pattern with (rule := rule) (c := c) (pattern := pattern); auto.
    apply filter_In. split; [exact Hin|]. unfold ofType.
    destruct (transactionType rule); reflexivity. }
  split; [apply tryRules_skipped; exact Hg|].
  destruct (extractExpenseFromText_returns text sender rules w)
    as (pr & w' & E & _ & Hcase).
  exists pr, w'. split; [exact E|].
  assert (Hgroup : forall u, usedRule pr = Some u ->
                             transactionType u <> transactionType rule).
  { intros u Hu Heq.
    destruct Hcase as [Hn | (r & m & _ & Hg' & _ & Hpr)].
    - subst pr. discriminate.
    - subst pr. simpl in Hu. inversion Hu; subst u. rewrite Heq in Hg'. congruence. }
  split; [|exact Hgroup].
  intros Hu. apply (Hgroup rule Hu). reflexivity.
Qed.

End EngineClaims.

Lemma expense_group_takes_precedence_witness :
  (exists u mu w',
     @firstApplicable (Sample.sampleHost [] JsonOther) Sample.text Sample.sender
       (filter (ofType expense)
          [Sample.incomeRule; Sample.disabledRule; Sample.expenseRule; Sample.lowPriority]) u
     /\ @ruleApplies (Sample.sampleHost [] JsonOther) Sample.text Sample.sender u mu
     /\ transactionType u = expense
     /\ @extractExpenseFromText (Sample.sampleHost [] JsonOther) Sample.text Sample.sender
          [Sample.incomeRule; Sample.disabledRule; Sample.expenseRule; Sample.lowPriority]
          Sample.emptyWorld
        = (Normal (withType (@resultOf (Sample.sampleHost [] JsonOther) Sample.text u mu)
                     expense), w'))
  /\
  (exists u mu w',
     @firstApplicable (Sample.sampleHost [] JsonOther) Sample.text Sample.sender
       (filter (ofType income) [Sample.expenseRule; Sample.skipRule; Sample.incomeRule]) u
     /\ @ruleApplies (Sample.sampleHost [] JsonOther) Sample.text Sample.sender u mu
     /\ transactionType u = income
     /\ @extractExpenseFromText (Sample.sampleHost [] JsonOther) Sample.text Sample.sender
          [Sample.expenseRule; Sample.skipRule; Sample.incomeRule] Sample.emptyWorld
        = (Normal (withType (@resultOf (Sample.sampleHost [] JsonOther) Sample.text u mu)
                     income), w')).
Proof.
  split.
  - destruct (@expense_group_takes_precedence (Sample.sampleHost [] JsonOther)
                Sample.text Sample.sender
                [Sample.incomeRule; Sample.disabledRule; Sample.expenseRule;
                 Sample.lowPriority]
                Sample.emptyWorld) as (_ & _ & H & _).
    apply (H Sample.lowPriority unknownMerchant).
    + simpl. auto.
    + reflexivity.
    + repeat split; vm_compute; reflexivity.
    + vm_compute. reflexivity.
  - destruct (@expense_group_takes_precedence (Sample.sampleHost [] JsonOther)
                Sample.text Sample.sender
                [Sample.expenseRule; Sample.skipRule; Sample.incomeRule]
                Sample.emptyWorld) as (_ & _ & _ & H).
    apply (H Sample.incomeRule unknownMerchant).
    + simpl. auto.
    + reflexivity.
    + repeat split; vm_compute; reflexivity.
    + vm_compute. reflexivity.
    + vm_compute. reflexivity.
Defined.

(** C9, as the claim has it, fails when a skip condition of an expense rule
    matches: an enabled expense rule and an enabled income rule both apply
    to the message, a third rule of the expense group, disabled, has the
    skip condition ["shop"], which the message contains, and the engine
    returns the result of the income rule, with type [income]. *)
Lemma disabled_skip_condition_gives_income :
  @ruleApplies (Sample.sampleHost [] JsonOther) Sample.text Sample.sender
    Sample.expenseRule unknownMerchant
  /\ @ruleApplies (Sample.sampleHost [] JsonOther) Sample.text Sample.sender
       Sample.incomeRule unknownMerchant
  /\ transactionType Sample.expenseRule = expense
  /\ transactionType Sample.incomeRule = income
  /\ enabled Sample.skipRule = false
  /\ fst (@extractExpenseFromText (Sample.sampleHost [] JsonOther) Sample.text
            Sample.sender [Sample.expenseRule; Sample.skipRule; Sample.incomeRule]
            Sample.emptyWorld)
     = Normal {| amount := Some 500%float; merchantName := unknownMerchant;
                 usedRule := Some Sample.incomeRule; resultType := Some income |}.
Proof. repeat split; vm_compute; reflexivity. Qed.

Lemma skip_condition_blocks_group_witness :
  @tryRules (Sample.sampleHost [] JsonOther) Sample.text Sample.sender
    (filter (ofType (transactionType Sample.skipRule)) [Sample.skipRule; Sample.expenseRule])
    Sample.emptyWorld = (Normal noMatch, Sample.emptyWorld)
  /\ exists pr w',
       @extractExpenseFromText (Sample.sampleHost [] JsonOther) Sample.text Sample.sender
         [Sample.skipRule; Sample.expenseRule] Sample.emptyWorld = (Normal pr, w')
       /\ usedRule pr <> Some Sample.skipRule
       /\ forall u, usedRule pr = Some u ->
                    transactionType u <> transactionType Sample.skipRule.
Proof.
  apply (@skip_condition_blocks_group (Sample.sampleHost [] JsonOther)
           Sample.text Sample.sender [Sample.skipRule; Sample.expenseRule]
           Sample.skipRule (Single "shop") "shop" Sample.emptyWorld).
  - simpl. auto.
  - reflexivity.
  - simpl. auto.
  - vm_compute. reflexivity.
  - left. vm_compute. reflexivity.
Defined.

(** C5, as the claim has it, fails on a skip condition of white space: the
    body contains the condition [" "], and the rule that declares it still
    produces the transaction, because blank conditions are passed over. *)
Lemma blank_skip_condition_is_passed_over :
  skipCondition Sample.blankSkipRule = Some (Array [" "])
  /\ Str.includes (Str.toLowerCase Sample.text) (Str.toLowerCase " ") = true
  /\ fst (@extractExpenseFromText (Sample.sampleHost [] JsonOther) Sample.text
            Sample.sender [Sample.blankSkipRule] Sample.emptyWorld)
     = Normal {| amount := Some 500%float; merchantName := unknownMerchant;
                 usedRule := Some Sample.blankSkipRule; resultType := Some expense |}.
Proof. repeat split; vm_compute; reflexivity. Qed.

(** The white space of [trim] and the capitals of [toLowerCase] are those
    of the code units below 256, not of ASCII only: a skip condition that
    is a no-break space is blank and is passed over, although the body
    contains a no-break space; a skip condition with the capital U+00C9
    matches a body with the small letter U+00E9, and blocks its rule. *)
Lemma latin1_skip_conditions :
  @blank Sample.nbsp = true
  /\ fst (@extractExpenseFromText (Sample.sampleHost [] JsonOther)
            ("Paid" ++ Sample.nbsp ++ "Rs.-500.00 at SHOP") Sample.sender
            [Sample.nbspSkipRule] Sample.emptyWorld)
     = Normal {| amount := Some 500%float; merchantName := unknownMerchant;
                 usedRule := Some Sample.nbspSkipRule; resultType := Some expense |}
  /\ fst (@extractExpenseFromText (Sample.sampleHost [] JsonOther)
            ("Paid Rs.-500.00 at caf" ++ Sample.smallEAcute) Sample.sender
            [Sample.accentSkipRule] Sample.emptyWorld)
     = Normal noMatch.
Proof. repeat split; vm_compute; reflexivity. Qed.

Section RuleOrder.

Context {host : Host}.

(** The rule at the head of a group that applies is the one returned: the
    loops follow the order of the list and never read [priority]. *)
Lemma tryRules_head_wins (text sender : string) (rule : SmsParserRule)
    (rest : list SmsParserRule) (m : string) (w : World) :
  globalSkip text (rule :: rest) = false -> ruleApplies text sender rule m ->
  exists w', tryRules text sender (rule :: rest) w = (Normal (resultOf text rule m), w').
Proof.
  intros Hg (H1 & H2 & H3 & H4 & H5). unfold tryRules. rewrite Hg. simpl.
  rewrite H1, H2, H3, H4, H5. simpl.
  destruct (tryUpdate_returns (withSuccess rule) w) as (w1 & E1 & _).
  rewrite (bind_normal _ _ _ E1). exists w1. reflexivity.
Qed.

End RuleOrder.

(** C3, on the code. Two enabled expense rules match the message, each
    alone being the rule used; listed with the rule of priority 5 before
    the rule of priority 10, the engine uses the rule of priority 5. *)
Lemma lower_priority_rule_listed_first_is_used :
  priority Sample.lowPriority = 5 /\ priority Sample.highPriority = 10
  /\ enabled Sample.lowPriority = true /\ enabled Sample.highPriority = true
  /\ usedRule_of (fst (@extractExpenseFromText (Sample.sampleHost [] JsonOther)
       Sample.text Sample.sender [Sample.highPriority] Sample.emptyWorld))
     = Some Sample.highPriority
  /\ usedRule_of (fst (@extractExpenseFromText (Sample.sampleHost [] JsonOther)
       Sample.text Sample.sender [Sample.lowPriority] Sample.emptyWorld))
     = Some Sample.lowPriority
  /\ usedRule_of (fst (@extractExpenseFromText (Sample.sampleHost [] JsonOther)
       Sample.text Sample.sender [Sample.lowPriority; Sample.highPriority]
       Sample.emptyWorld))
     = Some Sample.lowPriority.
Proof. repeat split; vm_compute; reflexivity. Qed.

(** ** Amounts *)

Lemma abs_positive (x : float) :
  PrimFloat.is_nan (PrimFloat.abs x) = false ->
  PrimFloat.is_zero (PrimFloat.abs x) = false ->
  PrimFloat.ltb 0 (PrimFloat.abs x) = true.
Proof.
  unfold PrimFloat.is_nan, PrimFloat.is_zero.
  rewrite !eqb_spec, ltb_spec, abs_spec.
  change (Prim2SF 0) with (S754_zero false).
  change (Prim2SF zero) with (S754_zero false).
  destruct (Prim2SF x) as [s|s| |s m e]; simpl; try discriminate; auto.
Qed.

Section Amounts.

Context {host : Host}.


Lemma extractAmount_first (text : string) (patterns : list string)
    (acc : option float) (a : float) :
  extractAmount text patterns acc = Some a -> PrimFloat.is_nan a = false ->
  acc = Some a \/
  exists pre pattern post g,
    patterns = (pre ++ pattern :: post)%list /\ Forall (givesNoNumber text) pre /\
    firstGroup pattern text = Some (Some g) /\
    a = PrimFloat.abs (parseFloat (Str.removeCommas g)).
Proof.
  revert acc. induction patterns as [|p rest IH]; intros acc E Hnan; simpl in E.
  - left. exact E.
  - destruct (firstGroup p text) as [[g|]|] eqn:Eg.
    + destruct (PrimFloat.is_nan (PrimFloat.abs (parseFloat (Str.removeCommas g)))) eqn:En;
        simpl in E.
      * destruct (IH _ E Hnan) as [Hacc | (pre & q & post & g' & Hp & Hf & Hq & Ha)].
        -- inversion Hacc; subst a. congruence.
        -- right. exists (p :: pre), q, post, g'. rewrite Hp.
           repeat split; auto. constructor; [|exact Hf].
           intros g0 Hg0. rewrite Eg in Hg0. inversion Hg0; subst g0. exact En.
      * right. exists [], p, rest, g. inversion E. repeat split; auto.
    + destruct (IH _ E Hnan) as [Hacc | (pre & q & post & g' & Hp & Hf & Hq & Ha)];
        [left; exact Hacc|].
      right. exists (p :: pre), q, post, g'. rewrite Hp.
      repeat split; auto. constructor; [|exact Hf].
      intros g0 Hg0. rewrite Eg in Hg0. discriminate.
    + destruct (IH _ E Hnan) as [Hacc | (pre & q & post & g' & Hp & Hf & Hq & Ha)];
        [left; exact Hacc|].
      right. exists (p :: pre), q, post, g'. rewrite Hp.
      repeat split; auto. constructor; [|exact Hf].
      intros g0 Hg0. rewrite Eg in Hg0. discriminate.
Qed.

Lemma truthyAmount_some (a : float) :
  truthyAmount (Some a) = true ->
  PrimFloat.is_nan a = false /\ PrimFloat.is_zero a = false.
Proof.
  simpl. destruct (PrimFloat.is_zero a), (PrimFloat.is_nan a); simpl; intros H;
    try discriminate; auto.
Qed.



End Amounts.


(** ** Identifiers *)

Section Identifiers.

Context {host : Host}.

Lemma uuidv4_draws (w : World) : uuidv4 w = (Normal (nextUuid w), afterDraw w).
Proof. reflexivity. Qed.

(** The identifier is the next version-4 UUID of the random source: the
    fields play no part in it, and every call moves the source on. *)
Lemma generateDeterministicTransactionId_draws (fields : ProcessedSmsMessage) (w : World) :
  generateDeterministicTransactionId fields w = (Normal (nextUuid w), afterDraw w).
Proof. reflexivity. Qed.

(** The older processor does give equal identifiers to equal fields, in
    whatever state it is called. *)
Lemma legacyGenerateDeterministicTransactionId_deterministic
    (digest : string -> option (list Z)) (fields : ProcessedSmsMessage) (w1 w2 : World) :
  fst (legacyGenerateDeterministicTransactionId digest fields w1)
  = fst (legacyGenerateDeterministicTransactionId digest fields w2).
Proof.
  unfold legacyGenerateDeterministicTransactionId.
  destruct (digest (legacyIdData fields)); reflexivity.
Qed.

Lemma createTransactionFromSms_cases (smsData : ProcessedSmsMessage)
    (bankName : string) (type : TransactionType) (w : World) :
  (exists t, createTransactionFromSms smsData bankName type w = (Normal t, afterDraw w)
             /\ id t = nextUuid w)
  \/ (exists e, createTransactionFromSms smsData bankName type w = (Thrown e, afterDraw w)).
Proof.
  unfold createTransactionFromSms, tryCatch.
  rewrite (bind_normal _ _ _ (generateDeterministicTransactionId_draws smsData w)).
  unfold bind, previousTransactionData. simpl.
  destruct (getPreviousTransactionData (smsMerchantName smsData) (transactionsDb w)).
  - left. eexists. split; reflexivity.
  - right. eexists. reflexivity.
Qed.

Lemma getTransactions_visible (w : World) :
  getTransactions w = (Normal (visibleTransactions w), w).
Proof.
  unfold getTransactions, visibleTransactions, tryCatch. destruct idb_ok; reflexivity.
Qed.

(** With an identifier at hand, the check is a lookup of it among the
    stored transactions. *)
Lemma isTransactionDuplicate_with_id (smsData : ProcessedSmsMessage) (i : string) (w : World) :
  smsId smsData = Some i -> Str.truthy i = true ->
  isTransactionDuplicate smsData w = (Normal (hasId i (visibleTransactions w)), w).
Proof.
  intros Hi Ht. unfold isTransactionDuplicate, tryCatch.
  rewrite (bind_normal _ _ _ (getTransactions_visible w)).
  rewrite Hi. simpl. rewrite Ht. reflexivity.
Qed.

Lemma append_dash_truthy (a b : string) : Str.truthy (a ++ "-" ++ b) = true.
Proof. induction a; reflexivity. Qed.

Lemma nextUuid_truthy (w : World) : Str.truthy (nextUuid w) = true.
Proof. unfold nextUuid, uuidText. apply append_dash_truthy. Qed.

End Identifiers.

(** C1, on the code. Called twice with the same fields, the identity
    generator the scanner uses returns two different identifiers: each is a
    fresh random version-4 UUID. *)
Lemma generateDeterministicTransactionId_same_fields_two_ids :
  fst (@generateDeterministicTransactionId (Sample.sampleHost [] JsonOther)
         Sample.fields Sample.emptyWorld)
  = Normal "00010203-0405-4607-8809-0a0b0c0d0e0f"
  /\ fst (@generateDeterministicTransactionId (Sample.sampleHost [] JsonOther)
            Sample.fields
            (snd (@generateDeterministicTransactionId (Sample.sampleHost [] JsonOther)
                    Sample.fields Sample.emptyWorld)))
     = Normal "10111213-1415-4617-9819-1a1b1c1d1e1f".
Proof. split; vm_compute; reflexivity. Qed.

(** ** The loop of the scan *)

Section Loop.

Context {host : Host}.

Lemma modifyLocals_run (g : ScanState -> ScanState) (f : Frame) :
  modifyLocals g f = (Normal tt, {| locals := g (locals f); world := world f |}).
Proof. reflexivity. Qed.

Lemma emitProgress_run (total : Z) (f : Frame) :
  exists c w, emitProgress total f = (c, {| locals := locals f; world := w |})
              /\ transactionsDb w = transactionsDb (world f).
Proof.
  unfold emitProgress, bind, gets, liftW, logEvent, modify, ret, throw. simpl.
  destruct (emit_ok _ _ _ _); eexists _, _; split; reflexivity.
Qed.

Lemma processMessageBody_outcome (rules : list SmsParserRule) (total : Z)
    (message : SmsMessage) (f : Frame) :
  exists c f', processMessageBody rules total message f = (c, f') /\ BodyOutcome f c f'.
Proof.
  unfold processMessageBody.
  destruct (extractExpenseFromText_returns (body message) (address message) rules (world f))
    as (pr & w1 & E1 & [_ Hdb1] & _).
  rewrite (bind_normal _ _ _ (liftW_normal _ f E1)).
  assert (Hskip : exists c f',
             modifyLocals countSkipped {| locals := locals f; world := w1 |} = (c, f')
             /\ BodyOutcome f c f').
  { eexists _, _. split; [apply modifyLocals_run|]. simpl. apply BodySkipped. exact Hdb1. }
  destruct (amount pr) as [a|]; [|exact Hskip].
  destruct (resultType pr) as [ty|]; [|exact Hskip].
  destruct (truthyAmount (Some a)); [change (negb true) with false; cbv iota|exact Hskip].
  match goal with
  | |- context [createTransactionFromSms ?d ?b ?t] =>
      destruct (createTransactionFromSms_cases d b t w1) as [(t0 & Ec & Hid) | (e & Ec)]
  end.
  - rewrite (bind_normal _ _ _
               (liftW_normal _ {| locals := locals f; world := w1 |} Ec)).
    match goal with
    | |- context [isTransactionDuplicate ?d] =>
        pose proof (@isTransactionDuplicate_with_id host d (id t0) (afterDraw w1)
                      eq_refl) as Ed
    end.
    assert (Htr : Str.truthy (id t0) = true) by (rewrite Hid; apply nextUuid_truthy).
    specialize (Ed Htr).
    rewrite (bind_normal _ _ _
               (liftW_normal _ {| locals := locals f; world := afterDraw w1 |} Ed)).
    destruct (hasId (id t0) (visibleTransactions (afterDraw w1))) eqn:Edup.
    + eexists _, _. split; [apply modifyLocals_run|]. simpl.
      apply BodySkipped. exact Hdb1.
    + rewrite (bind_normal _ _ _ (modifyLocals_run _ _)). simpl.
      destruct (emitProgress_run total
                  {| locals := accept t0 (locals f); world := afterDraw w1 |})
        as (c & w2 & Ee & Hdb2).
      exists c, {| locals := accept t0 (locals f); world := w2 |}.
      split; [exact Ee|]. simpl in Hdb2.
      apply BodyAccepted with (t := t0).
      * congruence.
      * unfold visibleTransactions in *. simpl in Edup. rewrite <- Hdb1. exact Edup.
      * assert (Hty : txType t0 = ty).
        { unfold createTransactionFromSms, tryCatch, bind in Ec. simpl in Ec.
          unfold previousTransactionData in Ec.
          destruct (getPreviousTransactionData _ _); inversion Ec; reflexivity. }
        rewrite Hty. destruct ty; auto.
  - rewrite (bind_thrown _ _ _
               (liftW_thrown _ {| locals := locals f; world := w1 |} Ec)).
    exists (Thrown e), {| locals := locals f; world := afterDraw w1 |}.
    split; [reflexivity|]. apply BodyThrewBefore. simpl. exact Hdb1.
Qed.

(** One turn of the loop never throws. *)
Lemma processMessage_returns (rules : list SmsParserRule) (total : Z)
    (message : SmsMessage) (f : Frame) :
  exists f', processMessage rules total message f = (Normal tt, f')
             /\ transactionsDb (world f') = transactionsDb (world f).
Proof.
  unfold processMessage, tryCatch.
  destruct (processMessageBody_outcome rules total message f) as (c & f1 & E & Ho).
  rewrite E. destruct Ho as [w Hw | e w Hw | t w c Hw _ _].
  - eexists. split; [reflexivity|exact Hw].
  - eexists. split; [apply modifyLocals_run|exact Hw].
  - destruct c as [[]|e].
    + eexists. split; [reflexivity|exact Hw].
    + eexists. split; [apply modifyLocals_run|exact Hw].
Qed.

Lemma forOf_processMessage_returns (rules : list SmsParserRule) (total : Z)
    (messages : list SmsMessage) (f : Frame) :
  exists f', forOf messages (processMessage rules total) f = (Normal tt, f')
             /\ transactionsDb (world f') = transactionsDb (world f).
Proof.
  revert f. induction messages as [|m rest IH]; intros f; simpl.
  - exists f. split; reflexivity.
  - destruct (processMessage_returns rules total m f) as (f1 & E1 & H1).
    rewrite (bind_normal _ _ _ E1).
    destruct (IH f1) as (f2 & E2 & H2). exists f2. split; [exact E2|congruence].
Qed.







End Loop.

(** ** Duplicates *)

Section Duplicates.

Context {host : Host}.


End Duplicates.



(** ** Failures inside the batch *)

Section Failures.

Context {host : Host}.

Lemma scanSms_returns (fromDate toDate : option Z) (w : World) :
  exists ts w', scanSms fromDate toDate w = (Normal ts, w').
Proof.
  unfold scanSms, tryCatch.
  match goal with |- context [match ?m w with _ => _ end] => destruct (m w) as [[ts|e] w1] end.
  - eexists _, _. reflexivity.
  - eexists _, _. reflexivity.
Qed.

Lemma forOf_app {S A : Type} (xs ys : list A) (body : A -> M S unit) (s0 : S) :
  forOf (xs ++ ys) body s0 = bind (forOf xs body) (fun _ => forOf ys body) s0.
Proof.
  revert s0. induction xs as [|x xs IH]; intros s0; simpl; [reflexivity|].
  unfold bind in *. destruct (body x s0) as [[u|e] s1]; [|reflexivity].
  apply IH.
Qed.

(** Every turn of the loop counts its message, once or twice. *)
Lemma forOf_processMessage_counts (rules : list SmsParserRule) (total : Z)
    (messages : list SmsMessage) (f : Frame) :
  exists f',
    forOf messages (processMessage rules total) f = (Normal tt, f')
    /\ transactionsDb (world f') = transactionsDb (world f)
    /\ Z.of_nat (List.length messages)
       <= (processedCount (locals f') + skippedCount (locals f'))
          - (processedCount (locals f) + skippedCount (locals f))
       <= 2 * Z.of_nat (List.length messages).
Proof.
  revert f. induction messages as [|m rest IH]; intros f.
  - exists f. split; [reflexivity|]. split; [reflexivity|]. simpl. lia.
  - assert (Hturn : exists f1,
               processMessage rules total m f = (Normal tt, f1)
               /\ transactionsDb (world f1) = transactionsDb (world f)
               /\ 1 <= (processedCount (locals f1) + skippedCount (locals f1))
                        - (processedCount (locals f) + skippedCount (locals f)) <= 2).
    { unfold processMessage, tryCatch.
      destruct (processMessageBody_outcome rules total m f) as (c & f1 & E & Ho).
      rewrite E. destruct Ho as [w Hw | e w Hw | t w c Hw _ _].
      - eexists. split; [reflexivity|]. split; [exact Hw|]. simpl. lia.
      - eexists. split; [apply modifyLocals_run|]. split; [exact Hw|]. simpl. lia.
      - destruct c as [[]|e].
        + eexists. split; [reflexivity|]. split; [exact Hw|]. simpl. lia.
        + eexists. split; [apply modifyLocals_run|]. split; [exact Hw|]. simpl. lia. }
    destruct Hturn as (f1 & E1 & Hdb1 & Hc1).
    destruct (IH f1) as (f' & E & Hdb & Hc).
    exists f'. simpl forOf. rewrite (bind_normal _ _ _ E1).
    split; [exact E|]. split; [congruence|].
    change (List.length (m :: rest)) with (S (List.length rest)). lia.
Qed.

(** A pattern that is not a valid expression leaves the loop over the
    amount patterns as it was. *)
Lemma extractAmount_invalid_pattern (text : string) (pre : list string) (p : string)
    (post : list string) (acc : option float) :
  RegExp_exec p "i" text = None ->
  extractAmount text (pre ++ p :: post) acc = extractAmount text (pre ++ post) acc.
Proof.
  intros Hp. revert acc. induction pre as [|q pre IH]; intros acc; simpl.
  - unfold firstGroup. rewrite Hp. reflexivity.
  - destruct (firstGroup q text) as [[g|]|]; [|apply IH|apply IH].
    destruct (negb (PrimFloat.is_nan (PrimFloat.abs (parseFloat (Str.removeCommas g)))));
      [reflexivity|apply IH].
Qed.

Lemma extractAmount_all_invalid (text : string) (patterns : list string)
    (acc : option float) :
  (forall p, In p patterns -> RegExp_exec p "i" text = None) ->
  extractAmount text patterns acc = acc.
Proof.
  induction patterns as [|p rest IH]; intros H; simpl; [reflexivity|].
  unfold firstGroup. rewrite (H p (or_introl eq_refl)).
  apply IH. intros q Hq. apply H. right. exact Hq.
Qed.

(** A rule none of whose amount patterns compiles is passed over, with
    no write. *)
Lemma tryEach_skips_invalid (text sender : string) (bad : SmsParserRule)
    (rest : list SmsParserRule) (w : World) :
  invalidAmountPatterns text bad ->
  tryEach text sender (bad :: rest) w = tryEach text sender rest w.
Proof.
  intros Hinv. simpl.
  destruct (enabled bad); [simpl|reflexivity].
  destruct (senderMatches sender bad); [simpl|reflexivity].
  destruct (ruleSkips text bad); [reflexivity|].
  rewrite (extractAmount_all_invalid text (toArray (amountRegex bad)) None Hinv).
  reflexivity.
Qed.

Lemma tryEach_prefix (text sender : string) (pre rs rs' : list SmsParserRule) :
  (forall w, tryEach text sender rs w = tryEach text sender rs' w) ->
  forall w, tryEach text sender (pre ++ rs) w = tryEach text sender (pre ++ rs') w.
Proof.
  intros H. induction pre as [|r pre IH]; intros w; simpl; [apply H|].
  destruct (enabled r); simpl; [|apply IH].
  destruct (senderMatches sender r); simpl; [|apply IH].
  destruct (ruleSkips text r); [apply IH|].
  destruct (truthyAmount (extractAmount text (toArray (amountRegex r)) None)); simpl;
    [|apply IH].
  destruct (extractMerchant text r) as [m|err]; [reflexivity|].
  unfold bind. destruct (tryUpdate (withError r err) w) as [[u|e] w1];
    [apply IH|reflexivity].
Qed.

Lemma tryRules_without_invalid (text sender : string) (t : TransactionType)
    (pre : list SmsParserRule) (bad : SmsParserRule) (post : list SmsParserRule)
    (w : World) :
  invalidAmountPatterns text bad -> ruleSkips text bad = false ->
  tryRules text sender (filter (ofType t) (pre ++ bad :: post)) w
  = tryRules text sender (filter (ofType t) (pre ++ post)) w.
Proof.
  intros Hinv Hsk. rewrite !filter_app. simpl.
  destruct (ofType t bad); [|reflexivity].
  unfold tryRules, globalSkip. rewrite !existsb_app. simpl. rewrite Hsk. simpl.
  destruct (existsb (ruleSkips text) (filter (ofType t) pre)
            || existsb (ruleSkips text) (filter (ofType t) post)); [reflexivity|].
  apply tryEach_prefix. intros w0. apply tryEach_skips_invalid. exact Hinv.
Qed.

(** C6. No error stops the batch. The loop over the messages returns for
    every list of messages and rules, leaves the store as it was, and has
    counted every message, once or twice; when the body of the turn of a
    message throws, wherever the message is in the batch, the message is
    counted as skipped, in the state the body had reached, and the loop
    goes on with the messages after it; the scan returns for every state,
    and once messages and rules are loaded what it returns is the accepted
    list of that loop, so an error inside a message never ends the scan. A
    pattern that is not a valid expression (as ["([0-9]+"], which the
    constructor rejects) leaves the loop over the amount patterns as it was;
    rules none of whose amount patterns is valid are passed over without an
    error and without a write, the first valid rule after them that applies
    is the one used, and the engine returns what it returns without such a
    rule. *)
Theorem scan_survives_errors :
  (forall rules messages f,
      exists f',
        scanMessages rules messages f = (Normal tt, f')
        /\ transactionsDb (world f') = transactionsDb (world f)
        /\ Z.of_nat (List.length messages)
           <= (processedCount (locals f') + skippedCount (locals f'))
              - (processedCount (locals f) + skippedCount (locals f))
           <= 2 * Z.of_nat (List.length messages))
  /\
  (forall rules pre message rest f f1 e f2,
      forOf pre (processMessage rules (Z.of_nat (List.length (pre ++ message :: rest)))) f
      = (Normal tt, f1) ->
      processMessageBody rules (Z.of_nat (List.length (pre ++ message :: rest))) message f1
      = (Thrown e, f2) ->
      scanMessages rules (pre ++ message :: rest) f
      = forOf rest (processMessage rules (Z.of_nat (List.length (pre ++ message :: rest))))
          {| locals := countSkipped (locals f2); world := world f2 |})
  /\
  (forall fromDate toDate w,
      exists ts w', scanSms fromDate toDate w = (Normal ts, w'))
  /\
  (forall fromDate toDate w messages w1 rules,
      loadSmsFromDevice defaultLimit w = (Normal messages, w1) -> messages <> [] ->
      getSmsParserRules_result = Some (Some rules) -> rules <> [] ->
      exists s w2,
        scanMessages rules messages
          {| locals := initialScanState; world := addCalls [GetSmsParserRules] w1 |}
        = (Normal tt, {| locals := s; world := w2 |})
        /\ scanSms fromDate toDate w
           = (Normal (transactions s),
              addCalls [if isNil (transactions s)
                        then Toast ToastError "No new transactions found"
                        else Toast ToastPlain "SMS Scan Complete"] w2))
  /\
  (forall text pre pattern post acc,
      RegExp_exec pattern "i" text = None ->
      extractAmount text (pre ++ pattern :: post) acc
      = extractAmount text (pre ++ post) acc)
  /\
  (forall text sender pre good post m w,
      Forall (invalidAmountPatterns text) pre ->
      globalSkip text (pre ++ good :: post) = false -> ruleApplies text sender good m ->
      exists w',
        tryRules text sender (pre ++ good :: post) w = (Normal (resultOf text good m), w')
        /\ trace w' = UpdateSmsParserRule (withSuccess good) :: trace w)
  /\
  (forall text sender pre bad post w,
      invalidAmountPatterns text bad -> ruleSkips text bad = false ->
      extractExpenseFromText text sender (pre ++ bad :: post) w
      = extractExpenseFromText text sender (pre ++ post) w).
Proof.
  split; [|split; [|split; [|split; [|split; [|split]]]]].
  - intros rules messages f. apply forOf_processMessage_counts.
  - intros rules pre message rest f f1 e f2 Epre E. unfold scanMessages.
    rewrite forOf_app. rewrite (bind_normal _ _ _ Epre). simpl forOf.
    assert (Ep : processMessage rules (Z.of_nat (List.length (pre ++ message :: rest)))
                   message f1
                 = (Normal tt, {| locals := countSkipped (locals f2); world := world f2 |})).
    { unfold processMessage. rewrite (tryCatch_thrown _ _ _ E). apply modifyLocals_run. }
    rewrite (bind_normal _ _ _ Ep). reflexivity.
  - apply scanSms_returns.
  - intros fromDate toDate w messages w1 rules El Hm Hs Hr.
    destruct (forOf_processMessage_counts rules (Z.of_nat (List.length messages)) messages
                {| locals := initialScanState; world := addCalls [GetSmsParserRules] w1 |})
      as ([s w2] & E & _).
    exists s, w2. split; [exact E|].
    assert (Eg : getSmsParserRules w1
                 = (Normal (Some rules), addCalls [GetSmsParserRules] w1)).
    { unfold getSmsParserRules, bind, logEvent, modify. rewrite Hs. reflexivity. }
    assert (Ew : withLocals (scanMessages rules messages) (addCalls [GetSmsParserRules] w1)
                 = (Normal s, w2)).
    { unfold withLocals. unfold scanMessages at 1. rewrite E. reflexivity. }
    unfold scanSms. apply tryCatch_normal. rewrite (bind_normal _ _ _ El).
    destruct messages as [|m0 ms]; [contradiction Hm; reflexivity|].
    change (isNil (m0 :: ms)) with false. cbv iota.
    rewrite (bind_normal _ _ _ Eg).
    destruct rules as [|r0 rs]; [contradiction Hr; reflexivity|].
    rewrite (bind_normal _ _ _ Ew).
    unfold toast, logEvent, modify, bind, ret.
    destruct (isNil (transactions s)); reflexivity.
  - intros text pre pattern post acc Hp. apply extractAmount_invalid_pattern. exact Hp.
  - intros text sender pre good post m w Hpre Hg Ha. unfold tryRules. rewrite Hg.
    clear Hg. induction Hpre as [|bad pre Hbad Hpre IH].
    + destruct (tryEach_head_wins post w Ha) as (w' & E & _ & Ht).
      exists w'. split; assumption.
    + change ((bad :: pre) ++ good :: post)%list with (bad :: (pre ++ good :: post))%list.
      rewrite (tryEach_skips_invalid sender (pre ++ good :: post) w Hbad). exact IH.
  - intros text sender pre bad post w Hinv Hsk.
    unfold extractExpenseFromText, bind.
    rewrite (tryRules_without_invalid sender expense pre post w Hinv Hsk).
    destruct (tryRules text sender (filter (ofType expense) (pre ++ post)) w)
      as [[pe|e] w1]; [|reflexivity].
    destruct (truthyAmount (amount pe)); [reflexivity|].
    rewrite (tryRules_without_invalid sender income pre post w1 Hinv Hsk). reflexivity.
Qed.

End Failures.

Lemma scan_survives_errors_witness :
  (@scanMessages (Sample.throwingHost [] JsonOther) [Sample.expenseRule]
     ([Sample.message] ++ Sample.message :: [Sample.message]) Sample.emptyFrame
   = forOf [Sample.message]
       (@processMessage (Sample.throwingHost [] JsonOther) [Sample.expenseRule]
          (Z.of_nat (List.length ([Sample.message] ++ Sample.message :: [Sample.message]))))
       {| locals := countSkipped
                      (locals (snd (@processMessageBody (Sample.throwingHost [] JsonOther)
                                      [Sample.expenseRule] 3 Sample.message
                                      (snd (@processMessage
                                              (Sample.throwingHost [] JsonOther)
                                              [Sample.expenseRule] 3 Sample.message
                                              Sample.emptyFrame)))));
          world := world (snd (@processMessageBody (Sample.throwingHost [] JsonOther)
                                 [Sample.expenseRule] 3 Sample.message
                                 (snd (@processMessage (Sample.throwingHost [] JsonOther)
                                         [Sample.expenseRule] 3 Sample.message
                                         Sample.emptyFrame)))) |})
  /\ (exists s w2,
        @scanMessages (Sample.sampleHost [Sample.invalidRule; Sample.expenseRule]
                         (JsonArray [Some Sample.raw; Some Sample.bareRaw]))
          [Sample.invalidRule; Sample.expenseRule]
          [Sample.message;
           {| address := EmptyString; body := EmptyString;
              date := "2024-01-15T10:00:00.000Z" |}]
          {| locals := initialScanState;
             world := addCalls [GetSmsParserRules]
                        (addCalls [ReadSMS 1704067200000 1706659200000]
                           Sample.emptyWorld) |}
        = (Normal tt, {| locals := s; world := w2 |})
        /\ @scanSms (Sample.sampleHost [Sample.invalidRule; Sample.expenseRule]
                        (JsonArray [Some Sample.raw; Some Sample.bareRaw]))
             None None Sample.emptyWorld
           = (Normal (transactions s),
              addCalls [if isNil (transactions s)
                        then Toast ToastError "No new transactions found"
                        else Toast ToastPlain "SMS Scan Complete"] w2))
  /\ @extractAmount (Sample.sampleHost [] JsonOther) Sample.text
       ([] ++ Sample.invalidPattern :: [Sample.amountPattern]) None
     = @extractAmount (Sample.sampleHost [] JsonOther) Sample.text
         ([] ++ [Sample.amountPattern]) None
  /\ (exists w',
        @tryRules (Sample.sampleHost [] JsonOther) Sample.text Sample.sender
          ([Sample.invalidRule; Sample.invalidRule] ++ Sample.expenseRule :: [Sample.lowPriority])
          Sample.emptyWorld
        = (Normal (@resultOf (Sample.sampleHost [] JsonOther) Sample.text
                     Sample.expenseRule unknownMerchant), w')
        /\ trace w'
           = UpdateSmsParserRule (withSuccess Sample.expenseRule)
             :: trace Sample.emptyWorld)
  /\ @extractExpenseFromText (Sample.sampleHost [] JsonOther) Sample.text Sample.sender
       ([Sample.incomeRule] ++ Sample.invalidRule :: [Sample.expenseRule]) Sample.emptyWorld
     = @extractExpenseFromText (Sample.sampleHost [] JsonOther) Sample.text Sample.sender
         ([Sample.incomeRule] ++ [Sample.expenseRule]) Sample.emptyWorld.
Proof.
  split; [|split; [|split; [|split]]].
  - destruct (@scan_survives_errors (Sample.throwingHost [] JsonOther)) as (_ & H & _).
    apply (H [Sample.expenseRule] [Sample.message] Sample.message [Sample.message]
             Sample.emptyFrame
             (snd (@processMessage (Sample.throwingHost [] JsonOther)
                     [Sample.expenseRule] 3 Sample.message Sample.emptyFrame))
             "getPreviousTransactionData").
    + vm_compute. reflexivity.
    + vm_compute. reflexivity.
  - destruct (@scan_survives_errors
                (Sample.sampleHost [Sample.invalidRule; Sample.expenseRule]
                   (JsonArray [Some Sample.raw; Some Sample.bareRaw])))
      as (_ & _ & _ & H & _).
    apply (H None None Sample.emptyWorld).
    + vm_compute. reflexivity.
    + discriminate.
    + reflexivity.
    + discriminate.
  - destruct (@scan_survives_errors (Sample.sampleHost [] JsonOther))
      as (_ & _ & _ & _ & H & _).
    apply H. vm_compute. reflexivity.
  - destruct (@scan_survives_errors (Sample.sampleHost [] JsonOther))
      as (_ & _ & _ & _ & _ & H & _).
    apply H.
    + constructor; [|constructor; [|constructor]];
        intros p Hp; simpl in Hp; destruct Hp as [Hp|[]]; subst p; vm_compute; reflexivity.
    + vm_compute. reflexivity.
    + repeat split; vm_compute; reflexivity.
  - destruct (@scan_survives_errors (Sample.sampleHost [] JsonOther))
      as (_ & _ & _ & _ & _ & _ & H).
    apply H.
    + intros p Hp. simpl in Hp. destruct Hp as [Hp|[]]. subst p. vm_compute. reflexivity.
    + vm_compute. reflexivity.
Defined.

(** ** The loader *)

Section Loader.

Context {host : Host}.

Lemma toSmsMessage_run (msg : option RawSms) (w : World) :
  exists r, toSmsMessage msg w = (r, w).
Proof.
  unfold toSmsMessage, toISOString, bind, ret, throw.
  destruct msg as [raw|]; [|eexists; reflexivity].
  destruct (rawDate raw) as [t|]; [|eexists; reflexivity].
  destruct ((- maxTimeValue <=? t) && (t <=? maxTimeValue)); eexists; reflexivity.
Qed.

(** The callback reads no state and makes no call; a list it maps without
    an error keeps its length. *)
Lemma mapM_toSmsMessage_run (xs : list (option RawSms)) (w : World) :
  exists r, mapM toSmsMessage xs w = (r, w)
            /\ forall ys, r = Normal ys -> List.length ys = List.length xs.
Proof.
  induction xs as [|x xs IH]; simpl.
  - exists (Normal []). split; [reflexivity|]. intros ys H. inversion H. reflexivity.
  - destruct (toSmsMessage_run x w) as (r & E). unfold bind at 1. rewrite E.
    destruct r as [y|e].
    + destruct IH as (r' & E' & Hlen). unfold bind at 1. rewrite E'.
      destruct r' as [ys|e].
      * eexists. split; [reflexivity|]. intros zs H. inversion H. simpl.
        rewrite (Hlen ys eq_refl). reflexivity.
      * eexists. split; [reflexivity|]. intros zs H. discriminate.
    + eexists. split; [reflexivity|]. intros zs H. discriminate.
Qed.

Lemma sliceTo_nonneg {A : Type} (xs : list A) (limit : Z) :
  0 <= limit -> sliceTo xs limit = firstn (Z.to_nat limit) xs.
Proof. intros H. unfold sliceTo. destruct (Z.ltb_spec limit 0); [lia|reflexivity]. Qed.

(** What the loader returns when the bridge hands out an array. *)
Lemma loadSmsFromDevice_of_array (limit : Z) (bridge : Z -> Z -> option string)
    (smsJson : string) (items : list (option RawSms)) (w : World) :
  Android_readSMS = Some bridge ->
  bridge (Date_daysBefore 30 Date_now) Date_now = Some smsJson ->
  JSON_parse smsJson = Some (JsonArray items) ->
  loadSmsFromDevice limit w
  = (match fst (mapM toSmsMessage (sliceTo items limit) w) with
     | Normal ms => Normal ms
     | Thrown _ => Normal []
     end, addCalls [bridgeCall] w).
Proof.
  intros Hb Hr Hj. unfold loadSmsFromDevice, tryCatch. rewrite Hb.
  unfold readSMS, parseJson, logEvent, modify, bind, ret, throw. rewrite Hr, Hj.
  destruct (mapM_toSmsMessage_run (sliceTo items limit) w) as (r & E & _).
  fold (addCalls [bridgeCall] w).
  destruct (mapM_toSmsMessage_run (sliceTo items limit) (addCalls [bridgeCall] w))
    as (r' & E' & _).
  unfold addCalls, bridgeCall in E'. simpl app in E'. unfold addCalls, bridgeCall. simpl app.
  rewrite E'. rewrite E. simpl.
  assert (Hsame : r' = r).
  { clear - E E'. revert r r' E E'.
    generalize (sliceTo items limit). intros xs.
    induction xs as [|x xs IH]; intros r r' E E'; simpl in *.
    - unfold ret in *. congruence.
    - unfold bind in E, E'.
      unfold toSmsMessage at 1, toISOString, bind, ret, throw in E.
      unfold toSmsMessage at 1, toISOString, bind, ret, throw in E'.
      destruct x as [raw|]; [|congruence].
      destruct (rawDate raw) as [t|]; [|congruence].
      destruct ((- maxTimeValue <=? t) && (t <=? maxTimeValue)); [|congruence].
      destruct (mapM_toSmsMessage_run xs w) as (q & Eq & _).
      destruct (mapM_toSmsMessage_run xs
                  {| drawn := drawn w; transactionsDb := transactionsDb w;
                     trace := ReadSMS (Date_daysBefore 30 Date_now) Date_now :: trace w |})
        as (q' & Eq' & _).
      rewrite Eq in E. rewrite Eq' in E'.
      specialize (IH q q' Eq Eq'). subst q'.
      destruct q; unfold ret in *; congruence. }
  subst r'. destruct r; reflexivity.
Qed.

(** The loader always returns; it calls the bridge at most once, for the
    thirty days before now, and gives no more messages than its limit. *)
Lemma loadSmsFromDevice_cases (limit : Z) (w : World) :
  exists msgs calls,
    loadSmsFromDevice limit w = (Normal msgs, addCalls calls w)
    /\ ((calls = [] /\ msgs = []) \/ calls = [bridgeCall])
    /\ (0 <= limit -> (List.length msgs <= Z.to_nat limit)%nat).
Proof.
  destruct Android_readSMS as [bridge|] eqn:Hb.
  - destruct (bridge (Date_daysBefore 30 Date_now) Date_now) as [smsJson|] eqn:Hr.
    + destruct (JSON_parse smsJson) as [[items|]|] eqn:Hj.
      * rewrite (loadSmsFromDevice_of_array limit w Hb Hr Hj).
        destruct (mapM_toSmsMessage_run (sliceTo items limit) w) as (r & E & Hlen).
        rewrite E. simpl.
        destruct r as [ms|e].
        -- exists ms, [bridgeCall]. split; [reflexivity|]. split; [auto|].
           intros Hl. rewrite (Hlen ms eq_refl). rewrite (sliceTo_nonneg _ Hl).
           rewrite length_firstn. lia.
        -- exists [], [bridgeCall]. split; [reflexivity|]. split; [auto|].
           intros _. simpl. lia.
      * exists [], [bridgeCall]. split; [|split; [auto|intros _; simpl; lia]].
        unfold loadSmsFromDevice, tryCatch. rewrite Hb.
        unfold readSMS, parseJson, logEvent, modify, bind, ret, throw.
        rewrite Hr, Hj. reflexivity.
      * exists [], [bridgeCall]. split; [|split; [auto|intros _; simpl; lia]].
        unfold loadSmsFromDevice, tryCatch. rewrite Hb.
        unfold readSMS, parseJson, logEvent, modify, bind, ret, throw.
        rewrite Hr, Hj. reflexivity.
    + exists [], [bridgeCall]. split; [|split; [auto|intros _; simpl; lia]].
      unfold loadSmsFromDevice, tryCatch. rewrite Hb.
      unfold readSMS, parseJson, logEvent, modify, bind, ret, throw.
      rewrite Hr. reflexivity.
  - exists [], []. split; [|split; [auto|intros _; simpl; lia]].
    unfold loadSmsFromDevice, tryCatch. rewrite Hb. destruct w; reflexivity.
Qed.

(** C10. The loader gives the scan at most 100 messages: it returns for
    every payload, with no more messages than its limit, 100 by default,
    and what it returns for an array is the image of the first [limit]
    elements of the array and of nothing after them (no message at all if
    one of those cannot be read). *)
Theorem loader_keeps_first_hundred :
  (forall w,
      exists msgs w',
        loadSmsFromDevice defaultLimit w = (Normal msgs, w')
        /\ (List.length msgs <= 100)%nat)
  /\
  (forall limit w,
      0 <= limit ->
      exists msgs w',
        loadSmsFromDevice limit w = (Normal msgs, w')
        /\ (List.length msgs <= Z.to_nat limit)%nat)
  /\
  (forall limit bridge smsJson items w,
      0 <= limit ->
      Android_readSMS = Some bridge ->
      bridge (Date_daysBefore 30 Date_now) Date_now = Some smsJson ->
      JSON_parse smsJson = Some (JsonArray items) ->
      fst (loadSmsFromDevice limit w)
      = match fst (mapM toSmsMessage (firstn (Z.to_nat limit) items) w) with
        | Normal ms => Normal ms
        | Thrown _ => Normal []
        end).
Proof.
  split; [|split].
  - intros w. destruct (loadSmsFromDevice_cases defaultLimit w) as (msgs & calls & E & _ & H).
    exists msgs, (addCalls calls w). split; [exact E|].
    apply (H ltac:(unfold defaultLimit; lia)).
  - intros limit w Hl.
    destruct (loadSmsFromDevice_cases limit w) as (msgs & calls & E & _ & H).
    exists msgs, (addCalls calls w). auto.
  - intros limit bridge smsJson items w Hl Hb Hr Hj.
    rewrite (loadSmsFromDevice_of_array limit w Hb Hr Hj).
    rewrite (sliceTo_nonneg _ Hl). reflexivity.
Qed.

End Loader.

Lemma loader_keeps_first_hundred_witness :
  fst (@loadSmsFromDevice (Sample.sampleHost [] Sample.longPayload) defaultLimit
         Sample.emptyWorld)
  = match fst (mapM
                 (@toSmsMessage (Sample.sampleHost [] Sample.longPayload))
                 (firstn (Z.to_nat defaultLimit) (repeat (Some Sample.raw) 101))
                 Sample.emptyWorld) with
    | Normal ms => Normal ms
    | Thrown _ => Normal []
    end.
Proof.
  destruct (@loader_keeps_first_hundred (Sample.sampleHost [] Sample.longPayload))
    as (_ & _ & H).
  apply (H defaultLimit (fun _ _ => Some Sample.payloadText) Sample.payloadText).
  - unfold defaultLimit. lia.
  - reflexivity.
  - reflexivity.
  - reflexivity.
Defined.

(** The payload has 101 messages; the scan is given the first 100. *)
Lemma loader_sample_length :
  List.length (match fst (@loadSmsFromDevice (Sample.sampleHost [] Sample.longPayload)
                            defaultLimit Sample.emptyWorld) with
               | Normal ms => ms
               | Thrown _ => []
               end) = 100%nat.
Proof. vm_compute. reflexivity. Qed.

(** ** The order of the scan *)

Section ScanOrder.

Context {host : Host}.

(** The range a scan is asked for is never looked at. *)
Lemma scanSms_ignores_requested_range (fromDate toDate fromDate' toDate' : option Z) :
  scanSms fromDate toDate = scanSms fromDate' toDate'.
Proof. reflexivity. Qed.

Lemma tryEach_none_enabled (text sender : string) (rules : list SmsParserRule) (w : World) :
  filter enabled rules = [] -> tryEach text sender rules w = (Normal noMatch, w).
Proof.
  induction rules as [|r rest IH]; simpl; intros H; [reflexivity|].
  destruct (enabled r); [discriminate|]. simpl. apply IH. exact H.
Qed.

Lemma filter_enabled_ofType (t : TransactionType) (rules : list SmsParserRule) :
  filter enabled rules = [] -> filter enabled (filter (ofType t) rules) = [].
Proof.
  induction rules as [|r rest IH]; simpl; intros H; [reflexivity|].
  destruct (enabled r) eqn:E; [discriminate|].
  destruct (ofType t r); simpl; [rewrite E|]; apply IH; exact H.
Qed.

Lemma tryRules_none_enabled (text sender : string) (rules : list SmsParserRule) (w : World) :
  filter enabled rules = [] -> tryRules text sender rules w = (Normal noMatch, w).
Proof.
  intros H. unfold tryRules. destruct (globalSkip text rules); [reflexivity|].
  apply tryEach_none_enabled. exact H.
Qed.

Lemma extractExpenseFromText_none_enabled (text sender : string)
    (rules : list SmsParserRule) (w : World) :
  filter enabled rules = [] ->
  extractExpenseFromText text sender rules w = (Normal noMatch, w).
Proof.
  intros H. unfold extractExpenseFromText.
  rewrite (bind_normal _ _ _
             (tryRules_none_enabled text sender _ w (filter_enabled_ofType expense _ H))).
  simpl.
  rewrite (bind_normal _ _ _
             (tryRules_none_enabled text sender _ w (filter_enabled_ofType income _ H))).
  reflexivity.
Qed.

Lemma scanMessages_none_enabled (rules : list SmsParserRule) (total : Z)
    (messages : list SmsMessage) (f : Frame) :
  filter enabled rules = [] ->
  exists s,
    forOf messages (processMessage rules total) f
    = (Normal tt, {| locals := s; world := world f |})
    /\ transactions s = transactions (locals f).
Proof.
  intros H. revert f. induction messages as [|m rest IH]; intros f; simpl.
  - exists (locals f). destruct f; split; reflexivity.
  - assert (E : processMessage rules total m f
                = (Normal tt, {| locals := countSkipped (locals f); world := world f |})).
    { unfold processMessage, processMessageBody. apply tryCatch_normal.
      rewrite (bind_normal _ _ _
                 (liftW_normal _ f
                    (extractExpenseFromText_none_enabled (body m) (address m) _ (world f) H))).
      reflexivity. }
    rewrite (bind_normal _ _ _ E).
    destruct (IH {| locals := countSkipped (locals f); world := world f |}) as (s & Es & Ht).
    exists s. split; [exact Es|exact Ht].
Qed.

(** C4, as the code has it. With no enabled rule, [scanSms] returns no
    transaction and [scanAndSaveTransactions] persists none: the store is
    as it was. The bridge is read first, by the loader; the rules are read
    after it, and only when the loader has given at least one message. What
    the loader gave decides how the scan ends: with the error
    "No SMS messages found" and without reading the rules when it gave no
    message; otherwise, the rules having been read, with
    "No SMS parser rules found" when the list of rules is empty or missing
    and with "No new transactions found" when there are rules and none is
    enabled. *)
Theorem scan_without_enabled_rules (stored : option (list SmsParserRule))
    (fromDate toDate : option Z) (w : World) :
  getSmsParserRules_result = Some stored ->
  filter enabled (rulesOf stored) = [] ->
  exists messages calls,
    loadSmsFromDevice defaultLimit w = (Normal messages, addCalls calls w)
    /\ (calls = [] \/ calls = [bridgeCall])
    /\ (messages <> [] -> calls = [bridgeCall])
    /\ scanSms fromDate toDate w
       = (Normal [],
          addCalls
            ((if isNil messages then [Toast ToastError "No SMS messages found"]
              else if isNil (rulesOf stored)
                   then [Toast ToastError "No SMS parser rules found"; GetSmsParserRules]
                   else [Toast ToastError "No new transactions found"; GetSmsParserRules])
             ++ calls) w)
    /\ scanAndSaveTransactions fromDate toDate w = scanSms fromDate toDate w
    /\ transactionsDb (snd (scanAndSaveTransactions fromDate toDate w)) = transactionsDb w.
Proof.
  intros Hs Hen.
  assert (Hsave : forall w',
             scanSms fromDate toDate w = (Normal [], w') ->
             scanAndSaveTransactions fromDate toDate w = scanSms fromDate toDate w).
  { intros w' E. rewrite E. unfold scanAndSaveTransactions. apply tryCatch_normal.
    rewrite (bind_normal _ _ _ E). reflexivity. }
  destruct (loadSmsFromDevice_cases defaultLimit w) as (msgs & calls & El & Hcalls & _).
  exists msgs, calls. split; [exact El|].
  assert (Hc : calls = [] \/ calls = [bridgeCall]).
  { destruct Hcalls as [[Hc _]|Hc]; auto. }
  split; [exact Hc|].
  assert (Hm : msgs <> [] -> calls = [bridgeCall]).
  { intros Hne. destruct Hcalls as [[_ Hnil]|Hc']; [contradiction|exact Hc']. }
  split; [exact Hm|].
  assert (Escan : scanSms fromDate toDate w
                  = (Normal [],
                     addCalls
                       ((if isNil msgs then [Toast ToastError "No SMS messages found"]
                         else if isNil (rulesOf stored)
                              then [Toast ToastError "No SMS parser rules found";
                                    GetSmsParserRules]
                              else [Toast ToastError "No new transactions found";
                                    GetSmsParserRules])
                        ++ calls) w)).
  { unfold scanSms. apply tryCatch_normal. rewrite (bind_normal _ _ _ El).
    destruct msgs as [|m msgs]; [reflexivity|].
    change (isNil (m :: msgs)) with false. cbv iota.
    assert (Eg : getSmsParserRules (addCalls calls w)
                 = (Normal stored, addCalls (GetSmsParserRules :: calls) w)).
    { unfold getSmsParserRules, bind, logEvent, modify. rewrite Hs. reflexivity. }
    rewrite (bind_normal _ _ _ Eg).
    destruct stored as [[|r rules]|]; [reflexivity| |reflexivity].
    destruct (scanMessages_none_enabled (r :: rules)
                (Z.of_nat (List.length (m :: msgs))) (m :: msgs)
                {| locals := initialScanState;
                   world := addCalls (GetSmsParserRules :: calls) w |} Hen)
      as (s & Es & Ht).
    assert (Ew : withLocals (scanMessages (r :: rules) (m :: msgs))
                   (addCalls (GetSmsParserRules :: calls) w)
                 = (Normal s, addCalls (GetSmsParserRules :: calls) w)).
    { unfold withLocals, scanMessages. rewrite Es. reflexivity. }
    rewrite (bind_normal _ _ _ Ew). simpl in Ht. rewrite Ht. reflexivity. }
  split; [exact Escan|]. split; [apply (Hsave _ Escan)|].
  rewrite (Hsave _ Escan), Escan. reflexivity.
Qed.

End ScanOrder.

Lemma scan_without_enabled_rules_witness :
  exists messages calls,
    @loadSmsFromDevice (Sample.sampleHost [Sample.disabledRule] (JsonArray [Some Sample.raw]))
      defaultLimit Sample.emptyWorld
    = (Normal messages, addCalls calls Sample.emptyWorld)
    /\ (calls = []
        \/ calls = [@bridgeCall (Sample.sampleHost [Sample.disabledRule]
                                   (JsonArray [Some Sample.raw]))])
    /\ (messages <> [] ->
        calls = [@bridgeCall (Sample.sampleHost [Sample.disabledRule]
                                (JsonArray [Some Sample.raw]))])
    /\ @scanSms (Sample.sampleHost [Sample.disabledRule] (JsonArray [Some Sample.raw]))
         None None Sample.emptyWorld
       = (Normal [],
          addCalls
            ((if isNil messages then [Toast ToastError "No SMS messages found"]
              else if isNil (rulesOf (Some [Sample.disabledRule]))
                   then [Toast ToastError "No SMS parser rules found"; GetSmsParserRules]
                   else [Toast ToastError "No new transactions found"; GetSmsParserRules])
             ++ calls) Sample.emptyWorld)
    /\ @scanAndSaveTransactions
         (Sample.sampleHost [Sample.disabledRule] (JsonArray [Some Sample.raw]))
         None None Sample.emptyWorld
       = @scanSms (Sample.sampleHost [Sample.disabledRule] (JsonArray [Some Sample.raw]))
           None None Sample.emptyWorld
    /\ transactionsDb
         (snd (@scanAndSaveTransactions
                 (Sample.sampleHost [Sample.disabledRule] (JsonArray [Some Sample.raw]))
                 None None Sample.emptyWorld))
       = transactionsDb Sample.emptyWorld.
Proof.
  apply (@scan_without_enabled_rules
           (Sample.sampleHost [Sample.disabledRule] (JsonArray [Some Sample.raw]))
           (Some [Sample.disabledRule]) None None Sample.emptyWorld).
  - reflexivity.
  - reflexivity.
Defined.

(** C4, as the claim has it, fails: with one rule, disabled, and one
    message on the device, the scan reads the bridge first, then the rules,
    and ends with "No new transactions found", not with a condition about
    rules. *)
Lemma scan_reads_messages_before_rules :
  @scanSms (Sample.sampleHost [Sample.disabledRule] (JsonArray [Some Sample.raw]))
    None None Sample.emptyWorld
  = (Normal [],
     {| drawn := 0; transactionsDb := [];
        trace := [Toast ToastError "No new transactions found";
                  GetSmsParserRules;
                  ReadSMS 1704067200000 1706659200000] |}).
Proof. vm_compute. reflexivity. Qed.

(** C7, on the code. Asked for the range from 1000 to 2000, the scan
    queries the bridge for the thirty days before now; with an empty
    payload it ends with "No SMS messages found". *)
Lemma scan_queries_last_thirty_days :
  @scanSms (Sample.sampleHost [Sample.expenseRule] (JsonArray []))
    (Some 1000) (Some 2000) Sample.emptyWorld
  = (Normal [],
     {| drawn := 0; transactionsDb := [];
        trace := [Toast ToastError "No SMS messages found";
                  ReadSMS (Sample.now - 30 * Sample.day) Sample.now] |}).
Proof. vm_compute. reflexivity. Qed.

(** * Further properties of the code *)

(** ** The extraction engine: which rule, which writes *)

Section EngineExtras.

Context {host : Host}.

(** X1. The rule of a result is one of the rules given, is enabled, has a
    sender pattern that matches the sender, and has no skip condition that
    matches the text: a disabled rule never contributes a match. *)
Theorem used_rule_passed_every_gate (text sender : string)
    (rules : list SmsParserRule) (w w' : World) (pr : ParseResult) (r : SmsParserRule) :
  extractExpenseFromText text sender rules w = (Normal pr, w') ->
  usedRule pr = Some r ->
  In r rules /\ enabled r = true /\ senderMatches sender r = true
  /\ ruleSkips text r = false.
Proof.
  intros E Hu.
  destruct (extractExpenseFromText_returns text sender rules w)
    as (pr0 & w0 & E0 & _ & Hcase).
  rewrite E0 in E. inversion E; subst pr0 w0. clear E.
  destruct Hcase as [Hn | (rule & m & Hin & _ & (H1 & H2 & H3 & _) & Hpr)].
  - subst pr. discriminate.
  - subst pr. simpl in Hu. inversion Hu; subst r. auto.
Qed.

Lemma senderMatches_blank (sender : string) (r : SmsParserRule) :
  (forall p, In p (toArray (senderMatch r)) -> blank p = true) ->
  senderMatches sender r = false.
Proof.
  intros H. unfold senderMatches.
  destruct (existsb (senderPatternMatches sender) (toArray (senderMatch r))) eqn:E;
    [|reflexivity].
  apply existsb_exists in E. destruct E as (p & Hin & Hp).
  unfold senderPatternMatches in Hp. rewrite (H p Hin) in Hp. discriminate.
Qed.

(** X2. A rule whose sender patterns are all blank (empty, or white space
    only) matches no sender: whatever the message and the other rules, it
    is never the rule of the result. *)
Theorem rule_with_blank_sender_patterns_is_never_used (r : SmsParserRule) :
  (forall p, In p (toArray (senderMatch r)) -> blank p = true) ->
  forall text sender rules w,
    usedRule_of (fst (extractExpenseFromText text sender rules w)) <> Some r.
Proof.
  intros H text sender rules w Hu.
  destruct (extractExpenseFromText_returns text sender rules w)
    as (pr & w' & E & _ & Hcase).
  rewrite E in Hu. simpl in Hu.
  destruct Hcase as [Hn | (rule & m & _ & _ & (_ & Hs & _) & Hpr)].
  - subst pr. discriminate.
  - subst pr. simpl in Hu. inversion Hu; subst rule.
    rewrite (senderMatches_blank sender r H) in Hs. discriminate.
Qed.

(** X3. The engine never throws, and its result is all or nothing: either
    the no-match result (no amount, the merchant "Unknown Merchant", no rule
    and no type), or a result with an amount that is neither zero nor NaN,
    the rule used, and the type of that rule. *)
Theorem engine_result_is_all_or_nothing (text sender : string)
    (rules : list SmsParserRule) (w : World) :
  exists pr w',
    extractExpenseFromText text sender rules w = (Normal pr, w')
    /\ (pr = noMatch
        \/ exists r a,
             usedRule pr = Some r /\ amount pr = Some a
             /\ PrimFloat.is_zero a = false /\ PrimFloat.is_nan a = false
             /\ resultType pr = Some (transactionType r)).
Proof.
  destruct (extractExpenseFromText_returns text sender rules w)
    as (pr & w' & E & _ & Hcase).
  exists pr, w'. split; [exact E|].
  destruct Hcase as [Hn | (rule & m & _ & _ & (_ & _ & _ & Ht & _) & Hpr)];
    [left; exact Hn|].
  right. subst pr. simpl.
  destruct (extractAmount text (toArray (amountRegex rule)) None) as [a|] eqn:Ea;
    [|discriminate].
  destruct (@truthyAmount_some a Ht) as [Hnan Hzero].
  exists rule, a. auto.
Qed.

(** The rule the second loop returns is the first rule of the list that
    applies. *)
Lemma tryEach_first_applicable (text sender : string) (rules : list SmsParserRule)
    (w w' : World) (pr : ParseResult) (r : SmsParserRule) :
  tryEach text sender rules w = (Normal pr, w') -> usedRule pr = Some r ->
  exists pre post,
    rules = (pre ++ r :: post)%list
    /\ Forall (fun r' => ~ applies text sender r') pre
    /\ applies text sender r.
Proof.
  revert w. induction rules as [|rule rest IH]; intros w E Hu; simpl in E.
  - unfold ret in E. inversion E; subst pr. discriminate.
  - assert (Hrest : forall w0,
               ~ applies text sender rule ->
               tryEach text sender rest w0 = (Normal pr, w') ->
               exists pre post,
                 (rule :: rest) = (pre ++ r :: post)%list
                 /\ Forall (fun r' => ~ applies text sender r') pre
                 /\ applies text sender r).
    { intros w0 Hno E0. destruct (IH w0 E0 Hu) as (pre & post & Hl & Hf & Ha).
      exists (rule :: pre), post. rewrite Hl. split; [reflexivity|].
      split; [constructor; assumption|exact Ha]. }
    destruct (enabled rule) eqn:Een; simpl in E.
    2:{ apply (Hrest w); [|exact E]. intros (m & H1 & _). congruence. }
    destruct (senderMatches sender rule) eqn:Esm; simpl in E.
    2:{ apply (Hrest w); [|exact E]. intros (m & _ & H2 & _). congruence. }
    destruct (ruleSkips text rule) eqn:Esk.
    { apply (Hrest w); [|exact E]. intros (m & _ & _ & H3 & _). congruence. }
    destruct (truthyAmount (extractAmount text (toArray (amountRegex rule)) None)) eqn:Eam;
      simpl in E.
    2:{ apply (Hrest w); [|exact E]. intros (m & _ & _ & _ & H4 & _). congruence. }
    destruct (extractMerchant text rule) as [m|err] eqn:Emer.
    + destruct (tryUpdate_returns (withSuccess rule) w) as (w1 & E1 & _).
      rewrite (bind_normal _ _ _ E1) in E. unfold ret in E. inversion E; subst pr.
      simpl in Hu. inversion Hu; subst r.
      exists [], rest. split; [reflexivity|]. split; [constructor|].
      exists m. unfold ruleApplies. auto.
    + destruct (tryUpdate_returns (withError rule err) w) as (w1 & E1 & _).
      rewrite (bind_normal _ _ _ E1) in E.
      apply (Hrest w1); [|exact E]. intros (m & _ & _ & _ & _ & H5). congruence.
Qed.

(** X4. Within a group the order of the list decides: the rule of a result
    is the first rule of its type, in the order the rules were given, that
    applies to the message; no rule of that type listed before it applies,
    whatever the priorities. *)
Theorem used_rule_is_first_applicable_of_its_group (text sender : string)
    (rules : list SmsParserRule) (w w' : World) (pr : ParseResult) (r : SmsParserRule) :
  extractExpenseFromText text sender rules w = (Normal pr, w') ->
  usedRule pr = Some r ->
  exists pre post,
    filter (ofType (transactionType r)) rules = (pre ++ r :: post)%list
    /\ Forall (fun r' => ~ applies text sender r') pre
    /\ applies text sender r.
Proof.
  intros E Hu. unfold extractExpenseFromText in E.
  assert (Hgroup : forall t rs w0 w1 p,
             rs = filter (ofType t) rules ->
             tryRules text sender rs w0 = (Normal p, w1) -> usedRule p = Some r ->
             exists pre post,
               filter (ofType (transactionType r)) rules = (pre ++ r :: post)%list
               /\ Forall (fun r' => ~ applies text sender r') pre
               /\ applies text sender r).
  { intros t rs w0 w1 p Hrs Et Hp. unfold tryRules in Et.
    destruct (globalSkip text rs).
    - unfold ret in Et. inversion Et; subst p. discriminate.
    - destruct (tryEach_first_applicable _ _ _ _ Et Hp) as (pre & post & Hl & Hf & Ha).
      assert (Ht : transactionType r = t).
      { assert (Hin : In r rs) by (rewrite Hl; apply in_or_app; right; left; reflexivity).
        rewrite Hrs in Hin. apply ofType_filter in Hin. apply Hin. }
      rewrite Ht, <- Hrs. exists pre, post. auto. }
  destruct (tryRules_returns text sender (filter (ofType expense) rules) w)
    as (pe & w1 & E1 & _).
  rewrite (bind_normal _ _ _ E1) in E.
  destruct (truthyAmount (amount pe)).
  - unfold ret in E. inversion E; subst pr. simpl in Hu.
    apply (Hgroup expense _ w w1 pe eq_refl E1 Hu).
  - destruct (tryRules_returns text sender (filter (ofType income) rules) w1)
      as (pi & w2 & E2 & _).
    rewrite (bind_normal _ _ _ E2) in E.
    destruct (truthyAmount (amount pi)).
    + unfold ret in E. inversion E; subst pr. simpl in Hu.
      apply (Hgroup income _ w1 w2 pi eq_refl E2 Hu).
    + unfold ret in E. inversion E; subst pr. discriminate.
Qed.

End EngineExtras.

Lemma used_rule_passed_every_gate_witness :
  In Sample.expenseRule [Sample.disabledRule; Sample.expenseRule]
  /\ enabled Sample.expenseRule = true
  /\ @senderMatches (Sample.sampleHost [] JsonOther) Sample.sender Sample.expenseRule = true
  /\ @ruleSkips (Sample.sampleHost [] JsonOther) Sample.text Sample.expenseRule = false.
Proof.
  eapply (@used_rule_passed_every_gate (Sample.sampleHost [] JsonOther)
            Sample.text Sample.sender [Sample.disabledRule; Sample.expenseRule]
            Sample.emptyWorld).
  - vm_compute. reflexivity.
  - reflexivity.
Defined.

Lemma rule_with_blank_sender_patterns_is_never_used_witness :
  usedRule_of (fst (@extractExpenseFromText (Sample.sampleHost [] JsonOther)
                      Sample.text Sample.sender
                      [Sample.blankSenderRule; Sample.expenseRule] Sample.emptyWorld))
  <> Some Sample.blankSenderRule.
Proof.
  apply (@rule_with_blank_sender_patterns_is_never_used (Sample.sampleHost [] JsonOther)
           Sample.blankSenderRule).
  intros p Hp. simpl in Hp. destruct Hp as [Hp|[Hp|[]]]; subst p; reflexivity.
Defined.

Lemma used_rule_is_first_applicable_of_its_group_witness :
  exists pre post,
    filter (ofType (transactionType Sample.highPriority))
      [Sample.incomeRule; Sample.disabledRule; Sample.highPriority; Sample.lowPriority]
    = (pre ++ Sample.highPriority :: post)%list
    /\ Forall (fun r' => ~ @applies (Sample.sampleHost [] JsonOther)
                             Sample.text Sample.sender r') pre
    /\ @applies (Sample.sampleHost [] JsonOther) Sample.text Sample.sender
         Sample.highPriority.
Proof.
  eapply (@used_rule_is_first_applicable_of_its_group (Sample.sampleHost [] JsonOther)
            Sample.text Sample.sender
            [Sample.incomeRule; Sample.disabledRule; Sample.highPriority; Sample.lowPriority]
            Sample.emptyWorld).
  - vm_compute. reflexivity.
  - reflexivity.
Defined.

Section EngineWrites.

Context {host : Host}.

Lemma errorUpdate_cons (rule : SmsParserRule) (rest : list SmsParserRule) (errs : list Event) :
  Forall (errorUpdate rest) errs -> Forall (errorUpdate (rule :: rest)) errs.
Proof.
  intros H. eapply Forall_impl; [|exact H].
  intros e (r & err & Hin & He). exists r, err. simpl. auto.
Qed.

Lemma errorUpdate_incl (rs rules : list SmsParserRule) (errs : list Event) :
  (forall r, In r rs -> In r rules) ->
  Forall (errorUpdate rs) errs -> Forall (errorUpdate rules) errs.
Proof.
  intros Hi H. eapply Forall_impl; [|exact H].
  intros e (r & err & Hin & He). exists r, err. auto.
Qed.

(** The writes of the second loop: an error on each rule whose merchant
    extraction threw, then the success of the rule returned, if any. *)
Lemma tryEach_writes (text sender : string) (rules : list SmsParserRule)
    (w w' : World) (pr : ParseResult) :
  tryEach text sender rules w = (Normal pr, w') ->
  exists errs,
    Forall (errorUpdate rules) errs
    /\ trace w'
       = (match usedRule pr with
          | Some r => [UpdateSmsParserRule (withSuccess r)]
          | None => []
          end ++ errs ++ trace w)%list.
Proof.
  revert w. induction rules as [|rule rest IH]; intros w E; simpl in E.
  - unfold ret in E. inversion E; subst. exists []. split; [constructor|reflexivity].
  - assert (Hrest : tryEach text sender rest w = (Normal pr, w') ->
               exists errs,
                 Forall (errorUpdate (rule :: rest)) errs
                 /\ trace w'
                    = (match usedRule pr with
                       | Some r => [UpdateSmsParserRule (withSuccess r)]
                       | None => []
                       end ++ errs ++ trace w)%list).
    { intros E0. destruct (IH w E0) as (errs & Hf & Ht).
      exists errs. split; [apply errorUpdate_cons; exact Hf|exact Ht]. }
    destruct (enabled rule); simpl in E; [|exact (Hrest E)].
    destruct (senderMatches sender rule); simpl in E; [|exact (Hrest E)].
    destruct (ruleSkips text rule); [exact (Hrest E)|].
    destruct (truthyAmount (extractAmount text (toArray (amountRegex rule)) None));
      simpl in E; [|exact (Hrest E)].
    destruct (extractMerchant text rule) as [m|err].
    + destruct (tryUpdate_returns (withSuccess rule) w) as (w1 & E1 & _ & Ht1).
      rewrite (bind_normal _ _ _ E1) in E. unfold ret in E. inversion E; subst pr w1.
      exists []. split; [constructor|]. simpl. exact Ht1.
    + destruct (tryUpdate_returns (withError rule err) w) as (w1 & E1 & _ & Ht1).
      rewrite (bind_normal _ _ _ E1) in E.
      destruct (IH w1 E) as (errs & Hf & Ht).
      exists (errs ++ [UpdateSmsParserRule (withError rule err)])%list. split.
      * apply Forall_app. split; [apply errorUpdate_cons; exact Hf|].
        constructor; [|constructor]. exists rule, err. simpl. auto.
      * rewrite Ht, Ht1. rewrite <- !app_assoc. reflexivity.
Qed.

Lemma tryRules_writes (text sender : string) (rules : list SmsParserRule)
    (w w' : World) (pr : ParseResult) :
  tryRules text sender rules w = (Normal pr, w') ->
  exists errs,
    Forall (errorUpdate rules) errs
    /\ trace w'
       = (match usedRule pr with
          | Some r => [UpdateSmsParserRule (withSuccess r)]
          | None => []
          end ++ errs ++ trace w)%list.
Proof.
  unfold tryRules. destruct (globalSkip text rules).
  - intros E. unfold ret in E. inversion E; subst.
    exists []. split; [constructor|reflexivity].
  - apply tryEach_writes.
Qed.

(** X5. What the engine writes. It leaves the transaction store and the
    random source alone; its only calls to the outside are updates of the
    rule store, each for a rule of the list: an error recorded on a rule
    whose merchant extraction threw and, latest of all and only when a rule
    is returned, that rule with its success count raised by one and its
    last error cleared. No match and no exception means no write at all. *)
Theorem engine_writes_back_only_rule_updates (text sender : string)
    (rules : list SmsParserRule) (w : World) :
  exists pr w' errs,
    extractExpenseFromText text sender rules w = (Normal pr, w')
    /\ drawn w' = drawn w /\ transactionsDb w' = transactionsDb w
    /\ Forall (errorUpdate rules) errs
    /\ trace w'
       = (match usedRule pr with
          | Some r => [UpdateSmsParserRule (withSuccess r)]
          | None => []
          end ++ errs ++ trace w)%list
    /\ (forall r, successCount (withSuccess r)
                  = Some (match successCount r with Some n => n | None => 0 end + 1)
                  /\ lastError (withSuccess r) = None).
Proof.
  destruct (extractExpenseFromText_returns text sender rules w)
    as (pr & w' & E & [Hd Hs] & _).
  assert (Hin : forall t r, In r (filter (ofType t) rules) -> In r rules).
  { intros t r Hr. apply ofType_filter in Hr. apply Hr. }
  assert (Hw : exists errs,
             Forall (errorUpdate rules) errs
             /\ trace w'
                = (match usedRule pr with
                   | Some r => [UpdateSmsParserRule (withSuccess r)]
                   | None => []
                   end ++ errs ++ trace w)%list).
  { unfold extractExpenseFromText in E.
    destruct (tryRules_returns text sender (filter (ofType expense) rules) w)
      as (pe & w1 & E1 & _ & Hc1).
    rewrite (bind_normal _ _ _ E1) in E.
    destruct (tryRules_writes _ _ _ _ E1) as (errs1 & Hf1 & Ht1).
    apply (@errorUpdate_incl _ rules _ (Hin expense)) in Hf1.
    destruct (truthyAmount (amount pe)) eqn:Hte.
    - unfold ret in E. inversion E; subst pr w'. simpl.
      exists errs1. auto.
    - assert (Hne : usedRule pe = None).
      { destruct Hc1 as [Hn | (r & m & _ & _ & (_ & _ & _ & Ht & _) & Hp)].
        - subst pe. reflexivity.
        - subst pe. simpl in Hte. congruence. }
      rewrite Hne in Ht1. simpl in Ht1.
      destruct (tryRules_returns text sender (filter (ofType income) rules) w1)
        as (pi & w2 & E2 & _ & Hc2).
      rewrite (bind_normal _ _ _ E2) in E.
      destruct (tryRules_writes _ _ _ _ E2) as (errs2 & Hf2 & Ht2).
      apply (@errorUpdate_incl _ rules _ (Hin income)) in Hf2.
      destruct (truthyAmount (amount pi)) eqn:Hti.
      + unfold ret in E. inversion E; subst pr w'. simpl.
        exists (errs2 ++ errs1)%list. split; [apply Forall_app; auto|].
        rewrite Ht2, Ht1. rewrite <- !app_assoc. reflexivity.
      + assert (Hni : usedRule pi = None).
        { destruct Hc2 as [Hn | (r & m & _ & _ & (_ & _ & _ & Ht & _) & Hp)].
          - subst pi. reflexivity.
          - subst pi. simpl in Hti. congruence. }
        rewrite Hni in Ht2. simpl in Ht2.
        unfold ret in E. inversion E; subst pr w'. simpl.
        exists (errs2 ++ errs1)%list. split; [apply Forall_app; auto|].
        rewrite Ht2, Ht1. rewrite <- !app_assoc. reflexivity. }
  destruct Hw as (errs & Hf & Ht).
  exists pr, w', errs. repeat split; auto.
Qed.

End EngineWrites.

(** ** The loop of the scan: counts and accepted transactions *)

Section LoopExtras.

Context {host : Host}.

Lemma createTransactionFromSms_fields (smsData : ProcessedSmsMessage)
    (bankName : string) (type : TransactionType) (w w' : World) (t : Transaction) :
  createTransactionFromSms smsData bankName type w = (Normal t, w') ->
  w' = afterDraw w /\ id t = nextUuid w /\ txAmount t = smsAmount smsData
  /\ txDate t = smsDate smsData /\ txMerchantName t = smsMerchantName smsData
  /\ paymentMethod t = bankName /\ source t = "sms" /\ txType t = type
  /\ Str.truthy (category t) = true.
Proof.
  unfold createTransactionFromSms, tryCatch.
  rewrite (bind_normal _ _ _ (generateDeterministicTransactionId_draws smsData w)).
  unfold bind, previousTransactionData. simpl.
  destruct (getPreviousTransactionData (smsMerchantName smsData) (transactionsDb w));
    intros E; inversion E; subst; simpl.
  repeat split; auto.
  unfold Str.orElse. destruct (Str.truthy (orEmpty (enrichedCategory e))) eqn:Ec;
    [exact Ec|reflexivity].
Qed.

Lemma truthy_amount_positive (text : string) (patterns : list string) (a : float) :
  extractAmount text patterns None = Some a -> truthyAmount (Some a) = true ->
  PrimFloat.ltb 0 a = true.
Proof.
  intros Ha Ht. destruct (@truthyAmount_some a Ht) as [Hnan Hzero].
  destruct (@extractAmount_first _ text patterns None a Ha Hnan)
    as [Hacc | (pre & p & post & g & _ & _ & _ & Hval)]; [discriminate|].
  subst a. apply abs_positive; assumption.
Qed.

Lemma orElse_truthy (a b : string) : Str.truthy b = true -> Str.truthy (Str.orElse a b) = true.
Proof. intros H. unfold Str.orElse. destruct (Str.truthy a) eqn:E; [exact E|exact H]. Qed.

Lemma tryCatch_bind_liftW {A B : Type} (m : M World A) (k : A -> M Frame B)
    (h : string -> M Frame B) (f : Frame) (a : A) (w : World) :
  m (world f) = (Normal a, w) ->
  tryCatch (bind (liftW m) k) h f = tryCatch (k a) h {| locals := locals f; world := w |}.
Proof.
  intros E. unfold tryCatch. rewrite (bind_normal _ _ _ (liftW_normal _ f E)). reflexivity.
Qed.

(** One turn of the loop returns, with one of the three outcomes. *)
Lemma processMessage_turn (rules : list SmsParserRule) (total : Z)
    (message : SmsMessage) (f : Frame) :
  exists f', processMessage rules total message f = (Normal tt, f')
             /\ TurnOutcome rules message f f'.
Proof.
  unfold processMessage, processMessageBody.
  destruct (extractExpenseFromText_returns (body message) (address message) rules (world f))
    as (pr & w1 & E1 & [_ Hdb1] & Hcase).
  rewrite (@tryCatch_bind_liftW _ _ _ _ _ f pr w1 E1).
  assert (Hskip : exists f',
             tryCatch (modifyLocals countSkipped) (fun _ => modifyLocals countSkipped)
               {| locals := locals f; world := w1 |} = (Normal tt, f')
             /\ TurnOutcome rules message f f').
  { exists {| locals := countSkipped (locals f); world := w1 |}.
    split; [reflexivity|]. apply TurnSkipped. exact Hdb1. }
  destruct Hcase as [Hn | (rule & m & Hin & _ & (Hen & Hsm & _ & Ht & _) & Hpr)].
  { subst pr. exact Hskip. }
  subst pr. simpl amount. simpl resultType. simpl merchantName.
  destruct (extractAmount (body message) (toArray (amountRegex rule)) None) as [a|] eqn:Ea;
    [|discriminate].
  rewrite Ht. change (negb true) with false. cbv iota.
  pose proof (@truthy_amount_positive _ _ _ Ea Ht) as Hpos.
  match goal with
  | |- context [createTransactionFromSms ?d ?b ?t] =>
      destruct (createTransactionFromSms_cases d b t w1) as [(t0 & Ec & Hid) | (e & Ec)]
  end.
  - pose proof (@createTransactionFromSms_fields _ _ _ _ _ _ Ec)
      as (_ & _ & Hamt & Hdate & _ & Hpay & Hsrc & Hty & Hcat).
    simpl in Hamt, Hdate, Hpay.
    assert (Hcreated : createdFor rules message t0).
    { unfold createdFor. rewrite Hsrc, Hdate, Hamt, Hcat, Hid, Hty, Hpay.
      split; [reflexivity|]. split; [reflexivity|]. split; [exact Hpos|].
      split; [apply nextUuid_truthy|]. split; [reflexivity|].
      exists rule. repeat split; auto. }
    unfold tryCatch.
    rewrite (bind_normal _ _ _
               (liftW_normal _ {| locals := locals f; world := w1 |} Ec)).
    assert (Htr : Str.truthy (id t0) = true) by (rewrite Hid; apply nextUuid_truthy).
    match goal with
    | |- context [isTransactionDuplicate ?d] =>
        pose proof (@isTransactionDuplicate_with_id host d (id t0) (afterDraw w1)
                      eq_refl Htr) as Ed
    end.
    rewrite (bind_normal _ _ _
               (liftW_normal _ {| locals := locals f; world := afterDraw w1 |} Ed)).
    destruct (hasId (id t0) (visibleTransactions (afterDraw w1))) eqn:Edup.
    + exists {| locals := countSkipped (locals f); world := afterDraw w1 |}.
      split; [reflexivity|]. apply TurnSkipped. exact Hdb1.
    + assert (Hnew : hasId (id t0) (visibleTransactions (world f)) = false).
      { unfold visibleTransactions in *. simpl in Edup. rewrite <- Hdb1. exact Edup. }
      rewrite (bind_normal _ _ _ (modifyLocals_run _ _)). simpl locals. simpl world.
      unfold emitProgress, bind, gets, liftW, logEvent, modify, ret, throw. simpl.
      destruct (emit_ok total
                  (processedCount (locals f) + 1 + skippedCount (locals f))
                  (processedCount (locals f) + 1) (skippedCount (locals f))) eqn:Eemit.
      * eexists. split; [reflexivity|]. apply TurnAccepted; auto.
      * eexists. split; [reflexivity|].
        eapply TurnAcceptedThenSkipped; eauto.
  - unfold tryCatch.
    rewrite (bind_thrown _ _ _
               (liftW_thrown _ {| locals := locals f; world := w1 |} Ec)).
    exists {| locals := countSkipped (locals f); world := afterDraw w1 |}.
    split; [reflexivity|]. apply TurnSkipped. exact Hdb1.
Qed.

End LoopExtras.

Section ScanExtras.

Context {host : Host}.

Lemma visibleTransactions_same (w w' : World) :
  transactionsDb w' = transactionsDb w -> visibleTransactions w' = visibleTransactions w.
Proof. intros H. unfold visibleTransactions. rewrite H. reflexivity. Qed.

(** What a run of the loop adds up to. *)
Lemma loop_summary (rules : list SmsParserRule) (total : Z)
    (messages : list SmsMessage) (f : Frame) :
  exists s w' added,
    forOf messages (processMessage rules total) f
    = (Normal tt, {| locals := s; world := w' |})
    /\ transactionsDb w' = transactionsDb (world f)
    /\ transactions s = (transactions (locals f) ++ added)%list
    /\ processedCount s = processedCount (locals f) + Z.of_nat (List.length added)
    /\ Forall (fun t => (exists message, In message messages /\ createdFor rules message t)
                        /\ hasId (id t) (visibleTransactions (world f)) = false) added
    /\ (List.length added <= List.length messages)%nat
    /\ Z.of_nat (List.length messages)
       <= skippedCount s - skippedCount (locals f) + Z.of_nat (List.length added)
       <= 2 * Z.of_nat (List.length messages)
    /\ ((forall a b c d, emit_ok a b c d = true) ->
        skippedCount s - skippedCount (locals f) + Z.of_nat (List.length added)
        = Z.of_nat (List.length messages)).
Proof.
  revert f. induction messages as [|m rest IH]; intros f.
  - exists (locals f), (world f), []. simpl. destruct f as [l w]. simpl.
    rewrite app_nil_r. repeat split; auto; try lia.
  - simpl forOf.
    destruct (processMessage_turn rules total m f) as (f1 & E1 & Hturn).
    rewrite (bind_normal _ _ _ E1).
    destruct (IH f1) as (s & w' & added & E & Hdb & Htx & Hpc & Hall & Hlen & Hcnt & Hex).
    assert (Hall' : forall w1, transactionsDb w1 = transactionsDb (world f) ->
               world f1 = w1 ->
               Forall (fun t => (exists message, In message (m :: rest)
                                                 /\ createdFor rules message t)
                                /\ hasId (id t) (visibleTransactions (world f)) = false)
                      added).
    { intros w1 Hw1 Hf1. eapply Forall_impl; [|exact Hall].
      intros t [(msg & Hin & Hc) Hid]. split; [exists msg; simpl; auto|].
      rewrite Hf1 in Hid. rewrite (@visibleTransactions_same (world f) w1 Hw1) in Hid. exact Hid. }
    change (List.length (m :: rest)) with (S (List.length rest)).
    destruct Hturn as [w1 Hw1 | t w1 Hw1 Hc Hid | t w1 a b c d Hw1 Hc Hid Hemit];
      cbn [locals world countSkipped accept skippedCount processedCount transactions] in *.
    + exists s, w', added. split; [exact E|]. split; [congruence|].
      split; [exact Htx|]. split; [exact Hpc|]. split; [apply (Hall' w1); auto|].
      split; [lia|]. split; [lia|]. intros Hok. specialize (Hex Hok). lia.
    + exists s, w', (t :: added). split; [exact E|]. split; [congruence|].
      split; [rewrite Htx, <- app_assoc; reflexivity|].
      change (List.length (t :: added)) with (S (List.length added)).
      split; [lia|].
      split; [constructor; [split; [exists m; simpl; auto|exact Hid]|apply (Hall' w1); auto]|].
      split; [lia|]. split; [lia|]. intros Hok. specialize (Hex Hok). lia.
    + exists s, w', (t :: added). split; [exact E|]. split; [congruence|].
      split; [rewrite Htx, <- app_assoc; reflexivity|].
      change (List.length (t :: added)) with (S (List.length added)).
      split; [lia|].
      split; [constructor; [split; [exists m; simpl; auto|exact Hid]|apply (Hall' w1); auto]|].
      split; [lia|]. split; [lia|]. intros Hok. rewrite Hok in Hemit. discriminate.
Qed.

(** X6. The counts of the loop. Started as the scan starts it, the loop
    ends with as many accepted transactions as its count of processed
    messages, never more than there are messages; every message is counted
    at least once and at most twice (twice when a progress listener throws
    after the transaction was accepted), so the two counts add up to
    between once and twice the number of messages. *)
Theorem scan_counts_are_consistent (rules : list SmsParserRule)
    (messages : list SmsMessage) (w : World) :
  exists s w',
    scanMessages rules messages {| locals := initialScanState; world := w |}
    = (Normal tt, {| locals := s; world := w' |})
    /\ processedCount s = Z.of_nat (List.length (transactions s))
    /\ (List.length (transactions s) <= List.length messages)%nat
    /\ Z.of_nat (List.length messages) <= processedCount s + skippedCount s
       <= 2 * Z.of_nat (List.length messages).
Proof.
  destruct (loop_summary rules (Z.of_nat (List.length messages)) messages
              {| locals := initialScanState; world := w |})
    as (s & w' & added & E & _ & Htx & Hpc & _ & Hlen & Hcnt & _).
  cbn [initialScanState locals world transactions processedCount skippedCount app] in *.
  exists s, w'. rewrite Htx, Hpc. repeat split; auto; lia.
Qed.

(** X7. When no progress listener throws, every message is counted exactly
    once: at the end of the loop the processed and the skipped messages add
    up to the number of messages. *)
Theorem scan_counts_every_message_once (rules : list SmsParserRule)
    (messages : list SmsMessage) (w : World) :
  (forall a b c d, emit_ok a b c d = true) ->
  exists s w',
    scanMessages rules messages {| locals := initialScanState; world := w |}
    = (Normal tt, {| locals := s; world := w' |})
    /\ processedCount s + skippedCount s = Z.of_nat (List.length messages).
Proof.
  intros Hok.
  destruct (loop_summary rules (Z.of_nat (List.length messages)) messages
              {| locals := initialScanState; world := w |})
    as (s & w' & added & E & _ & _ & Hpc & _ & _ & _ & Hex).
  specialize (Hex Hok).
  cbn [initialScanState locals world transactions processedCount skippedCount app] in *.
  exists s, w'. split; [exact E|]. lia.
Qed.

(** X8. What the loop accepts. Every transaction on the accepted list was
    created for one of the messages: its source is "sms", its date is the
    date of that message, its amount is greater than zero, its identifier
    and category are not empty, and its type and payment method come from
    a rule of the list that is enabled and matches the sender of that
    message ("Other Bank" when the rule names no bank). *)
Theorem accepted_transactions_come_from_messages (rules : list SmsParserRule)
    (messages : list SmsMessage) (w : World) :
  exists s w',
    scanMessages rules messages {| locals := initialScanState; world := w |}
    = (Normal tt, {| locals := s; world := w' |})
    /\ Forall (fun t => exists message,
                   In message messages /\ createdFor rules message t)
         (transactions s).
Proof.
  destruct (loop_summary rules (Z.of_nat (List.length messages)) messages
              {| locals := initialScanState; world := w |})
    as (s & w' & added & E & _ & Htx & _ & Hall & _).
  cbn [initialScanState locals world transactions app] in *.
  exists s, w'. split; [exact E|]. rewrite Htx.
  eapply Forall_impl; [|exact Hall]. intros t [H _]. exact H.
Qed.

Lemma createdFor_wellFormed (rules : list SmsParserRule) (message : SmsMessage)
    (t : Transaction) (w : World) :
  createdFor rules message t -> hasId (id t) (visibleTransactions w) = false ->
  wellFormed w t.
Proof.
  intros (H1 & _ & H3 & H4 & H5 & rule & _ & _ & _ & _ & Hpay) Hid.
  unfold wellFormed. repeat split; auto.
  rewrite Hpay. apply orElse_truthy. reflexivity.
Qed.

(** The whole scan: it returns, leaves the store as it was, and gives
    either no transaction or the accepted list of a run of the loop over at
    most 100 messages. *)
Lemma scanSms_shape (fromDate toDate : option Z) (w : World) :
  exists ts w',
    scanSms fromDate toDate w = (Normal ts, w')
    /\ transactionsDb w' = transactionsDb w
    /\ (ts = []
        \/ exists rules messages w1 s w2,
             (List.length messages <= 100)%nat
             /\ transactionsDb w1 = transactionsDb w
             /\ scanMessages rules messages {| locals := initialScanState; world := w1 |}
                = (Normal tt, {| locals := s; world := w2 |})
             /\ ts = transactions s).
Proof.
  unfold scanSms.
  destruct (loadSmsFromDevice_cases defaultLimit w) as (msgs & calls & El & _ & Hlen).
  assert (Hlen' : (List.length msgs <= 100)%nat)
    by (apply (Hlen ltac:(unfold defaultLimit; lia))).
  destruct msgs as [|m msgs].
  { exists [], (addCalls (Toast ToastError "No SMS messages found" :: calls) w).
    split; [|split; [reflexivity|left; reflexivity]].
    apply tryCatch_normal. rewrite (bind_normal _ _ _ El). reflexivity. }
  destruct getSmsParserRules_result as [stored|] eqn:Hs.
  - assert (Eg : getSmsParserRules (addCalls calls w)
                 = (Normal stored, addCalls (GetSmsParserRules :: calls) w)).
    { unfold getSmsParserRules, bind, logEvent, modify. rewrite Hs. reflexivity. }
    destruct stored as [[|r rules]|].
    + exists [], (addCalls (Toast ToastError "No SMS parser rules found"
                             :: GetSmsParserRules :: calls) w).
      split; [|split; [reflexivity|left; reflexivity]].
      apply tryCatch_normal. rewrite (bind_normal _ _ _ El).
      change (isNil (m :: msgs)) with false. cbv iota.
      rewrite (bind_normal _ _ _ Eg). reflexivity.
    + destruct (loop_summary (r :: rules) (Z.of_nat (List.length (m :: msgs))) (m :: msgs)
                  {| locals := initialScanState;
                     world := addCalls (GetSmsParserRules :: calls) w |})
        as (s & w2 & added & E & Hdb & _).
      simpl world in Hdb.
      assert (Ew : withLocals (scanMessages (r :: rules) (m :: msgs))
                     (addCalls (GetSmsParserRules :: calls) w) = (Normal s, w2)).
      { unfold withLocals, scanMessages. rewrite E. reflexivity. }
      exists (transactions s),
        (addCalls [Toast (if isNil (transactions s) then ToastError else ToastPlain)
                     (if isNil (transactions s) then "No new transactions found"
                      else "SMS Scan Complete")] w2).
      split; [|split].
      * apply tryCatch_normal. rewrite (bind_normal _ _ _ El).
        change (isNil (m :: msgs)) with false. cbv iota.
        rewrite (bind_normal _ _ _ Eg). rewrite (bind_normal _ _ _ Ew).
        unfold toast, logEvent, modify, bind, ret.
        destruct (isNil (transactions s)); reflexivity.
      * simpl. exact Hdb.
      * right. exists (r :: rules), (m :: msgs), (addCalls (GetSmsParserRules :: calls) w),
          s, w2. split; [exact Hlen'|]. split; [reflexivity|]. split; [exact E|reflexivity].
    + exists [], (addCalls (Toast ToastError "No SMS parser rules found"
                             :: GetSmsParserRules :: calls) w).
      split; [|split; [reflexivity|left; reflexivity]].
      apply tryCatch_normal. rewrite (bind_normal _ _ _ El).
      change (isNil (m :: msgs)) with false. cbv iota.
      rewrite (bind_normal _ _ _ Eg). reflexivity.
  - exists [], (addCalls (Toast ToastError "Error scanning SMS"
                           :: GetSmsParserRules :: calls) w).
    split; [|split; [reflexivity|left; reflexivity]].
    unfold tryCatch. rewrite (bind_normal _ _ _ El).
    change (isNil (m :: msgs)) with false. cbv iota.
    unfold getSmsParserRules, bind, logEvent, modify, toast, throw, ret. rewrite Hs.
    reflexivity.
Qed.

(** X9. What a scan returns. [scanSms] returns for every state of the
    device, the stores and the listeners; it never writes the transaction
    store; it returns at most 100 transactions; and each of them has the
    source "sms", an amount greater than zero, a non-empty identifier,
    category and payment method, and an identifier that no transaction
    [getTransactions] returns from the store has. *)
Theorem scan_returns_well_formed_transactions (fromDate toDate : option Z) (w : World) :
  exists ts w',
    scanSms fromDate toDate w = (Normal ts, w')
    /\ transactionsDb w' = transactionsDb w
    /\ (List.length ts <= 100)%nat
    /\ Forall (wellFormed w) ts.
Proof.
  destruct (scanSms_shape fromDate toDate w)
    as (ts & w' & E & Hdb & [Hnil | (rules & msgs & w1 & s & w2 & Hlen & Hdb1 & El & Hts)]).
  - exists ts, w'. subst ts. repeat split; auto. simpl. lia.
  - exists ts, w'. split; [exact E|]. split; [exact Hdb|].
    destruct (loop_summary rules (Z.of_nat (List.length msgs)) msgs
                {| locals := initialScanState; world := w1 |})
      as (s' & w2' & added & E' & _ & Htx & _ & Hall & Hlen2 & _).
    unfold scanMessages in El. rewrite El in E'. inversion E'; subst s' w2'.
    simpl in Htx, Hall. rewrite Hts, Htx. split; [lia|].
    eapply Forall_impl; [|exact Hall].
    intros t [(msg & _ & Hc) Hid]. apply (@createdFor_wellFormed rules msg t w Hc).
    rewrite <- (@visibleTransactions_same w w1 Hdb1). exact Hid.
Qed.

End ScanExtras.

Lemma scan_counts_every_message_once_witness :
  exists s w',
    @scanMessages (Sample.sampleHost [] JsonOther) [Sample.expenseRule]
      [Sample.message; Sample.message]
      {| locals := initialScanState; world := Sample.emptyWorld |}
    = (Normal tt, {| locals := s; world := w' |})
    /\ processedCount s + skippedCount s
       = Z.of_nat (List.length [Sample.message; Sample.message]).
Proof.
  apply (@scan_counts_every_message_once (Sample.sampleHost [] JsonOther)).
  intros a b c d. reflexivity.
Defined.

(** ** The loader: all or nothing *)

Section LoaderExtras.

Context {host : Host}.

Lemma mapM_toSmsMessage_readable (xs : list (option RawSms)) (w : World) :
  forallb readable xs = true ->
  mapM toSmsMessage xs w = (Normal (map messageOf xs), w).
Proof.
  induction xs as [|x xs IH]; simpl; intros H; [reflexivity|].
  apply andb_true_iff in H. destruct H as [Hx Hxs].
  assert (Ex : toSmsMessage x w = (Normal (messageOf x), w)).
  { unfold toSmsMessage, toISOString, messageOf, readable, bind, ret in *.
    destruct x as [raw|]; [|discriminate].
    destruct (rawDate raw) as [t|]; [|discriminate]. rewrite Hx. reflexivity. }
  rewrite (bind_normal _ _ _ Ex). rewrite (bind_normal _ _ _ (IH Hxs)). reflexivity.
Qed.

Lemma mapM_toSmsMessage_unreadable (xs : list (option RawSms)) (w : World) :
  forallb readable xs = false ->
  exists e, mapM toSmsMessage xs w = (Thrown e, w).
Proof.
  induction xs as [|x xs IH]; simpl; intros H; [discriminate|].
  destruct (readable x) eqn:Hx; simpl in H.
  - assert (Ex : toSmsMessage x w = (Normal (messageOf x), w)).
    { unfold toSmsMessage, toISOString, messageOf, readable, bind, ret in *.
      destruct x as [raw|]; [|discriminate].
      destruct (rawDate raw) as [t|]; [|discriminate]. rewrite Hx. reflexivity. }
    rewrite (bind_normal _ _ _ Ex). destruct (IH H) as (e & E).
    exists e. apply (bind_thrown _ _ _ E).
  - unfold toSmsMessage, toISOString, readable, bind, ret, throw in *.
    destruct x as [raw|]; [|eexists; reflexivity].
    destruct (rawDate raw) as [t|]; [|eexists; reflexivity].
    rewrite Hx. eexists. reflexivity.
Qed.

(** X10. When every one of the first [limit] elements of the payload can
    be read, the loader returns their messages, one for one and in the
    order of the payload: the address and the body as they are, the empty
    string for a missing one, and the date as an ISO text. *)
Theorem loader_maps_messages_in_order (limit : Z) (bridge : Z -> Z -> option string)
    (smsJson : string) (items : list (option RawSms)) (w : World) :
  Android_readSMS = Some bridge ->
  bridge (Date_daysBefore 30 Date_now) Date_now = Some smsJson ->
  JSON_parse smsJson = Some (JsonArray items) ->
  forallb readable (sliceTo items limit) = true ->
  loadSmsFromDevice limit w
  = (Normal (map messageOf (sliceTo items limit)), addCalls [bridgeCall] w).
Proof.
  intros Hb Hr Hj Hall.
  rewrite (@loadSmsFromDevice_of_array _ limit bridge smsJson items w Hb Hr Hj).
  rewrite (mapM_toSmsMessage_readable _ w Hall). reflexivity.
Qed.

(** X11. One element among the first [limit] that cannot be read ([null],
    or a date that is not valid) makes the loader drop the whole batch: it
    returns no message at all, and the scan then ends with
    "No SMS messages found" without reading the rules. *)
Theorem loader_drops_batch_on_unreadable_message (bridge : Z -> Z -> option string)
    (smsJson : string) (items : list (option RawSms)) (w : World) :
  Android_readSMS = Some bridge ->
  bridge (Date_daysBefore 30 Date_now) Date_now = Some smsJson ->
  JSON_parse smsJson = Some (JsonArray items) ->
  forallb readable (sliceTo items defaultLimit) = false ->
  loadSmsFromDevice defaultLimit w = (Normal [], addCalls [bridgeCall] w)
  /\ forall fromDate toDate,
       scanSms fromDate toDate w
       = (Normal [], addCalls [Toast ToastError "No SMS messages found"; bridgeCall] w).
Proof.
  intros Hb Hr Hj Hbad.
  assert (El : loadSmsFromDevice defaultLimit w = (Normal [], addCalls [bridgeCall] w)).
  { rewrite (@loadSmsFromDevice_of_array _ defaultLimit bridge smsJson items w Hb Hr Hj).
    destruct (mapM_toSmsMessage_unreadable _ w Hbad) as (e & E). rewrite E. reflexivity. }
  split; [exact El|]. intros fromDate toDate. unfold scanSms.
  apply tryCatch_normal. rewrite (bind_normal _ _ _ El). reflexivity.
Qed.

(** X12. Without a bridge the loader makes no call and returns no message;
    a bridge that rejects, a payload that is not JSON and a payload that is
    not an array give no message either, after the one call. None of these
    is an error for the scan: it ends with "No SMS messages found", returns
    no transaction and does not read the rules. *)
Theorem loader_returns_nothing_without_an_array (limit : Z) (w : World) :
  (Android_readSMS = None ->
   loadSmsFromDevice limit w = (Normal [], w)
   /\ forall fromDate toDate,
        scanSms fromDate toDate w
        = (Normal [], addCalls [Toast ToastError "No SMS messages found"] w))
  /\ (forall bridge,
        Android_readSMS = Some bridge ->
        match bridge (Date_daysBefore 30 Date_now) Date_now with
        | None => True
        | Some smsJson =>
            match JSON_parse smsJson with
            | Some (JsonArray _) => False
            | _ => True
            end
        end ->
        loadSmsFromDevice limit w = (Normal [], addCalls [bridgeCall] w)
        /\ forall fromDate toDate,
             scanSms fromDate toDate w
             = (Normal [],
                addCalls [Toast ToastError "No SMS messages found"; bridgeCall] w)).
Proof.
  assert (Hload : forall l,
             (Android_readSMS = None -> loadSmsFromDevice l w = (Normal [], w))
             /\ (forall bridge,
                   Android_readSMS = Some bridge ->
                   match bridge (Date_daysBefore 30 Date_now) Date_now with
                   | None => True
                   | Some smsJson =>
                       match JSON_parse smsJson with
                       | Some (JsonArray _) => False
                       | _ => True
                       end
                   end ->
                   loadSmsFromDevice l w = (Normal [], addCalls [bridgeCall] w))).
  { intros l. split.
    - intros Hb. unfold loadSmsFromDevice, tryCatch. rewrite Hb. reflexivity.
    - intros bridge Hb Hcase. unfold loadSmsFromDevice, tryCatch. rewrite Hb.
      unfold readSMS, parseJson, logEvent, modify, bind, ret, throw.
      destruct (bridge (Date_daysBefore 30 Date_now) Date_now) as [smsJson|];
        [|reflexivity].
      destruct (JSON_parse smsJson) as [[items|]|];
        [destruct Hcase|reflexivity|reflexivity]. }
  split.
  - intros Hb. split; [apply (Hload limit); exact Hb|].
    intros fromDate toDate. unfold scanSms. apply tryCatch_normal.
    rewrite (bind_normal _ _ _ (proj1 (Hload defaultLimit) Hb)).
    destruct w; reflexivity.
  - intros bridge Hb Hcase. split; [apply (proj2 (Hload limit) bridge); assumption|].
    intros fromDate toDate. unfold scanSms. apply tryCatch_normal.
    rewrite (bind_normal _ _ _ (proj2 (Hload defaultLimit) bridge Hb Hcase)).
    reflexivity.
Qed.

End LoaderExtras.

Lemma loader_maps_messages_in_order_witness :
  @loadSmsFromDevice (Sample.sampleHost [] Sample.mixedPayload) 2 Sample.emptyWorld
  = (Normal (map (@messageOf (Sample.sampleHost [] Sample.mixedPayload))
               (sliceTo [Some Sample.raw; Some Sample.bareRaw; None] 2)),
     addCalls [@bridgeCall (Sample.sampleHost [] Sample.mixedPayload)] Sample.emptyWorld).
Proof.
  apply (@loader_maps_messages_in_order (Sample.sampleHost [] Sample.mixedPayload) 2
           (fun _ _ => Some Sample.payloadText) Sample.payloadText).
  - reflexivity.
  - reflexivity.
  - reflexivity.
  - reflexivity.
Defined.

Lemma loader_drops_batch_on_unreadable_message_witness :
  @loadSmsFromDevice (Sample.sampleHost [] Sample.mixedPayload) defaultLimit
    Sample.emptyWorld
  = (Normal [],
     addCalls [@bridgeCall (Sample.sampleHost [] Sample.mixedPayload)] Sample.emptyWorld)
  /\ forall fromDate toDate,
       @scanSms (Sample.sampleHost [] Sample.mixedPayload) fromDate toDate
         Sample.emptyWorld
       = (Normal [],
          addCalls [Toast ToastError "No SMS messages found";
                    @bridgeCall (Sample.sampleHost [] Sample.mixedPayload)]
            Sample.emptyWorld).
Proof.
  apply (@loader_drops_batch_on_unreadable_message
           (Sample.sampleHost [] Sample.mixedPayload)
           (fun _ _ => Some Sample.payloadText) Sample.payloadText
           [Some Sample.raw; Some Sample.bareRaw; None]).
  - reflexivity.
  - reflexivity.
  - reflexivity.
  - reflexivity.
Defined.

Lemma loader_returns_nothing_without_an_array_witness :
  @loadSmsFromDevice (Sample.sampleHost [] JsonOther) defaultLimit Sample.emptyWorld
  = (Normal [],
     addCalls [@bridgeCall (Sample.sampleHost [] JsonOther)] Sample.emptyWorld)
  /\ forall fromDate toDate,
       @scanSms (Sample.sampleHost [] JsonOther) fromDate toDate Sample.emptyWorld
       = (Normal [],
          addCalls [Toast ToastError "No SMS messages found";
                    @bridgeCall (Sample.sampleHost [] JsonOther)] Sample.emptyWorld).
Proof.
  destruct (@loader_returns_nothing_without_an_array (Sample.sampleHost [] JsonOther)
              defaultLimit Sample.emptyWorld) as [_ H].
  apply (H (fun _ _ => Some Sample.payloadText)).
  - reflexivity.
  - exact I.
Defined.

(** ** The store: saving and finding again *)

Section StoreExtras.

Context {host : Host}.

Lemma addTransaction_cases (t : Transaction) (w : World) :
  (idb_ok = true /\ hasId (id t) (transactionsDb w) = false
   /\ addTransaction t w
      = (if broadcast_ok (Some t) then Normal tt else Thrown "listener",
         {| drawn := drawn w;
            transactionsDb := insertByKey t (transactionsDb w);
            trace := Broadcast :: AddTransaction t :: trace w |}))
  \/ (exists e,
        (idb_ok = false \/ hasId (id t) (transactionsDb w) = true)
        /\ addTransaction t w = (Thrown e, addCalls [AddTransaction t] w)).
Proof.
  unfold addTransaction, broadcast, tryCatch, bind, logEvent, modify, gets, throw, ret.
  simpl. destruct idb_ok; simpl.
  - destruct (hasId (id t) (transactionsDb w)) eqn:Eh.
    + right. eexists. split; [right; reflexivity|reflexivity].
    + left. split; [reflexivity|]. split; [reflexivity|].
      destruct (broadcast_ok (Some t)); reflexivity.
  - right. eexists. split; [left; reflexivity|reflexivity].
Qed.

(** The new record goes between the records before it and those after it,
    which stay as they were. *)
Lemma insertByKey_split (t : Transaction) (db : list Transaction) :
  exists before after,
    db = (before ++ after)%list /\ insertByKey t db = (before ++ t :: after)%list.
Proof.
  induction db as [|x xs IH]; simpl.
  - exists [], []. split; reflexivity.
  - destruct (String.ltb (id t) (id x)).
    + exists [], (x :: xs). split; reflexivity.
    + destruct IH as (before & after & Hdb & Hins).
      exists (x :: before), after. rewrite Hins, Hdb at 1. split; reflexivity.
Qed.

Lemma hasId_insertByKey (i : string) (t : Transaction) (db : list Transaction) :
  hasId i (insertByKey t db) = String.eqb (id t) i || hasId i db.
Proof.
  unfold hasId. induction db as [|x xs IH]; simpl; [reflexivity|].
  destruct (String.ltb (id t) (id x)); simpl; [reflexivity|].
  rewrite IH. destruct (String.eqb (id x) i), (String.eqb (id t) i); reflexivity.
Qed.

Lemma insertByKey_Permutation (t : Transaction) (db : list Transaction) :
  Permutation (insertByKey t db) (t :: db).
Proof.
  induction db as [|x xs IH]; simpl; [apply Permutation_refl|].
  destruct (String.ltb (id t) (id x)); [apply Permutation_refl|].
  eapply Permutation_trans; [apply perm_skip; exact IH|apply perm_swap].
Qed.

(** A key that is not less than another and differs from it is greater. *)
Lemma ltb_of_not_ltb (a b : string) :
  String.ltb a b = false -> String.eqb b a = false -> String.ltb b a = true.
Proof.
  unfold String.ltb. rewrite (String.compare_antisym b a).
  destruct (String.compare a b) eqn:E; simpl; intros H1 H2; try discriminate.
  - apply String.compare_eq_iff in E. subst b. rewrite String.eqb_refl in H2. discriminate.
  - reflexivity.
Qed.

(** A record with a new key goes to the place of its key. *)
Lemma insertByKey_ordered (t : Transaction) (db : list Transaction) :
  keyOrdered db -> hasId (id t) db = false -> keyOrdered (insertByKey t db).
Proof.
  induction db as [|x xs IH]; intros Hord Hnew.
  - simpl. auto.
  - simpl insertByKey. destruct (String.ltb (id t) (id x)) eqn:Elt.
    + split; [exact Elt|exact Hord].
    + unfold hasId in Hnew. simpl in Hnew. apply orb_false_iff in Hnew.
      destruct Hnew as [Hx Hxs]. destruct Hord as [Hhead Htail].
      specialize (IH Htail Hxs).
      split; [|exact IH].
      destruct xs as [|y ys]; simpl.
      * apply ltb_of_not_ltb; assumption.
      * destruct (String.ltb (id t) (id y)); [apply ltb_of_not_ltb; assumption|exact Hhead].
Qed.

(** X13. Saving and finding again. When [addTransaction] returns, the
    store holds the transaction at the place of its key, between the
    records it held before, which stay as they were, and a store in key
    order stays in key order; from then on the duplicate check finds the
    transaction under its identifier, and saving a transaction with the same
    identifier a second time is rejected with the store left as it was. *)
Theorem saved_transaction_is_found_and_not_saved_twice (t : Transaction) (w w' : World) :
  Str.truthy (id t) = true ->
  addTransaction t w = (Normal tt, w') ->
  (exists before after,
      transactionsDb w = (before ++ after)%list
      /\ transactionsDb w' = (before ++ t :: after)%list
      /\ (keyOrdered (transactionsDb w) -> keyOrdered (transactionsDb w')))
  /\ (forall smsData,
        smsId smsData = Some (id t) ->
        isTransactionDuplicate smsData w' = (Normal true, w'))
  /\ (forall t2,
        id t2 = id t ->
        exists e w'',
          addTransaction t2 w' = (Thrown e, w'')
          /\ transactionsDb w'' = transactionsDb w').
Proof.
  intros Htr E.
  destruct (addTransaction_cases t w) as [(Hok & Hnew & E1) | (e & _ & E1)];
    rewrite E1 in E; [|discriminate].
  destruct (broadcast_ok (Some t)); [|discriminate].
  inversion E; subst w'. clear E. cbn [transactionsDb].
  split; [|split].
  - destruct (insertByKey_split t (transactionsDb w)) as (before & after & Hdb & Hins).
    exists before, after. split; [exact Hdb|]. split; [exact Hins|].
    intros Hord. apply insertByKey_ordered; assumption.
  - intros smsData Hid.
    rewrite (isTransactionDuplicate_with_id smsData _ Hid Htr).
    unfold visibleTransactions. rewrite Hok. cbn [transactionsDb].
    rewrite hasId_insertByKey, String.eqb_refl. reflexivity.
  - intros t2 Hid2.
    match goal with |- context [addTransaction t2 ?w1] =>
      destruct (addTransaction_cases t2 w1) as [(_ & Hnew2 & _) | (e & _ & E2)]
    end.
    + cbn [transactionsDb] in Hnew2.
      rewrite Hid2, hasId_insertByKey, String.eqb_refl in Hnew2. discriminate.
    + eexists _, _. split; [exact E2|reflexivity].
Qed.

(** Saving a list stops at the first failure and keeps what was saved. *)
Lemma forOf_addTransaction (ts : list Transaction) (w : World) :
  exists r w' saved rest,
    forOf ts addTransaction w = (r, w')
    /\ ts = (saved ++ rest)%list
    /\ Permutation (transactionsDb w') (saved ++ transactionsDb w)
    /\ (keyOrdered (transactionsDb w) -> keyOrdered (transactionsDb w'))
    /\ ((r = Normal tt /\ rest = [])
        \/ (exists e, r = Thrown e
                      /\ (rest <> [] \/ exists payload, broadcast_ok payload = false))).
Proof.
  revert w. induction ts as [|t ts IH]; intros w; simpl.
  - exists (Normal tt), w, [], []. split; [reflexivity|]. split; [reflexivity|].
    split; [apply Permutation_refl|]. split; [auto|]. left. auto.
  - destruct (addTransaction_cases t w) as [(_ & Hnew & E1) | (e & _ & E1)].
    + destruct (broadcast_ok (Some t)) eqn:Eb.
      * rewrite (bind_normal _ _ _ E1).
        match goal with |- context [forOf ts addTransaction ?w1] =>
          destruct (IH w1) as (r & w' & saved & rest & E & Hts & Hperm & Hord & Hr)
        end.
        cbn [transactionsDb] in Hperm, Hord.
        exists r, w', (t :: saved), rest. split; [exact E|].
        split; [rewrite Hts; reflexivity|]. split; [|split; [|exact Hr]].
        -- eapply Permutation_trans; [exact Hperm|].
           eapply Permutation_trans;
             [apply Permutation_app_head; apply insertByKey_Permutation|].
           apply Permutation_sym. apply Permutation_middle.
        -- intros H0. apply Hord. apply insertByKey_ordered; assumption.
      * rewrite (bind_thrown _ _ _ E1).
        eexists (Thrown _), _, [t], ts. split; [reflexivity|]. split; [reflexivity|].
        cbn [transactionsDb]. split; [apply insertByKey_Permutation|].
        split; [intros H0; apply insertByKey_ordered; assumption|].
        right. eexists. split; [reflexivity|]. right. exists (Some t). exact Eb.
    + rewrite (bind_thrown _ _ _ E1).
      exists (Thrown e), (addCalls [AddTransaction t] w), [], (t :: ts).
      split; [reflexivity|]. split; [reflexivity|]. simpl.
      split; [apply Permutation_refl|]. split; [auto|].
      right. exists e. split; [reflexivity|]. left. discriminate.
Qed.

(** X14. What the service persists. [scanAndSaveTransactions] only ever
    adds to the store: after it, the store holds the records it held before
    and, each at the place of its key, a prefix of the transactions the scan
    accepted; a store in key order stays in key order. When it returns, it
    returns the accepted transactions and all of them are saved; when it
    throws, the transactions saved so far stay saved (nothing is rolled
    back), and either the rest of the accepted transactions are not saved
    or a listener of a broadcast threw. *)
Theorem service_saves_a_prefix_of_the_accepted_transactions
    (fromDate toDate : option Z) (w : World) :
  exists accepted w1 r w' saved rest,
    scanSms fromDate toDate w = (Normal accepted, w1)
    /\ scanAndSaveTransactions fromDate toDate w = (r, w')
    /\ accepted = (saved ++ rest)%list
    /\ Permutation (transactionsDb w') (saved ++ transactionsDb w)
    /\ (keyOrdered (transactionsDb w) -> keyOrdered (transactionsDb w'))
    /\ ((r = Normal accepted /\ rest = [])
        \/ (exists e, r = Thrown e
                      /\ (rest <> [] \/ exists payload, broadcast_ok payload = false))).
Proof.
  destruct (scanSms_shape fromDate toDate w) as (ts & w1 & E & Hdb & _).
  destruct (forOf_addTransaction ts w1)
    as (r & w2 & saved & rest & Ef & Hts & Hperm & Hord & Hr).
  rewrite Hdb in Hperm, Hord.
  destruct Hr as [[Hr Hrest] | (e & Hr & Hrest)]; subst r.
  - destruct (isNil ts) eqn:Enil.
    + exists ts, w1, (Normal ts), w2, saved, rest.
      split; [exact E|]. split; [|split; [exact Hts|split; [exact Hperm|split; [exact Hord|]]]].
      * unfold scanAndSaveTransactions. apply tryCatch_normal.
        rewrite (bind_normal _ _ _ E). rewrite (bind_normal _ _ _ Ef).
        rewrite Enil. reflexivity.
      * left. auto.
    + destruct (broadcast_ok None) eqn:Eb.
      * exists ts, w1, (Normal ts), (addCalls [Broadcast] w2), saved, rest.
        split; [exact E|].
        split; [|split; [exact Hts|split; [exact Hperm|split; [exact Hord|]]]].
        -- unfold scanAndSaveTransactions. apply tryCatch_normal.
           rewrite (bind_normal _ _ _ E). rewrite (bind_normal _ _ _ Ef).
           rewrite Enil. unfold broadcast, bind, logEvent, modify, ret. rewrite Eb.
           reflexivity.
        -- left. auto.
      * exists ts, w1, (Thrown "listener"), (addCalls [Broadcast] w2), saved, rest.
        split; [exact E|].
        split; [|split; [exact Hts|split; [exact Hperm|split; [exact Hord|]]]].
        -- unfold scanAndSaveTransactions, tryCatch.
           rewrite (bind_normal _ _ _ E). rewrite (bind_normal _ _ _ Ef).
           rewrite Enil. unfold broadcast, bind, logEvent, modify, ret, throw. rewrite Eb.
           reflexivity.
        -- right. eexists. split; [reflexivity|]. right. exists None. exact Eb.
  - exists ts, w1, (Thrown e), w2, saved, rest.
    split; [exact E|].
    split; [|split; [exact Hts|split; [exact Hperm|split; [exact Hord|]]]].
    + unfold scanAndSaveTransactions.
      assert (Eb : bind (scanSms fromDate toDate)
                     (fun transactions =>
                        bind (forOf transactions addTransaction)
                          (fun _ => bind (if isNil transactions then ret tt
                                          else broadcast None)
                                      (fun _ => ret transactions))) w
                   = (Thrown e, w2)).
      { rewrite (bind_normal _ _ _ E). apply (bind_thrown _ _ _ Ef). }
      rewrite (tryCatch_thrown _ _ _ Eb). reflexivity.
    + right. exists e. auto.
Qed.

End StoreExtras.

Lemma saved_transaction_is_found_and_not_saved_twice_witness :
  (exists before after,
      transactionsDb (world Sample.stockedFrame) = (before ++ after)%list
      /\ transactionsDb
           (snd (@addTransaction (Sample.sampleHost [] JsonOther) Sample.earlier
                   (world Sample.stockedFrame)))
         = (before ++ Sample.earlier :: after)%list
      /\ (keyOrdered (transactionsDb (world Sample.stockedFrame)) ->
          keyOrdered
            (transactionsDb
               (snd (@addTransaction (Sample.sampleHost [] JsonOther) Sample.earlier
                       (world Sample.stockedFrame))))))
  /\ (forall smsData,
        smsId smsData = Some (id Sample.earlier) ->
        @isTransactionDuplicate (Sample.sampleHost [] JsonOther) smsData
          (snd (@addTransaction (Sample.sampleHost [] JsonOther) Sample.earlier
                  (world Sample.stockedFrame)))
        = (Normal true,
           snd (@addTransaction (Sample.sampleHost [] JsonOther) Sample.earlier
                  (world Sample.stockedFrame))))
  /\ (forall t2,
        id t2 = id Sample.earlier ->
        exists e w'',
          @addTransaction (Sample.sampleHost [] JsonOther) t2
            (snd (@addTransaction (Sample.sampleHost [] JsonOther) Sample.earlier
                    (world Sample.stockedFrame)))
          = (Thrown e, w'')
          /\ transactionsDb w''
             = transactionsDb (snd (@addTransaction (Sample.sampleHost [] JsonOther)
                                      Sample.earlier (world Sample.stockedFrame)))).
Proof.
  apply (@saved_transaction_is_found_and_not_saved_twice (Sample.sampleHost [] JsonOther)
           Sample.earlier (world Sample.stockedFrame)).
  - reflexivity.
  - reflexivity.
Defined.

(** The store is read in the order of the keys, not in the order of the
    additions: a transaction added after another, with a smaller key, is
    read before it. *)
Lemma store_is_read_in_key_order :
  map id (transactionsDb
            (snd (@addTransaction (Sample.sampleHost [] JsonOther) Sample.earlier
                    (snd (@addTransaction (Sample.sampleHost [] JsonOther) Sample.stored
                            Sample.emptyWorld)))))
  = [id Sample.earlier; id Sample.stored].
Proof. vm_compute. reflexivity. Qed.

(** ** The older processor: identifiers that find their transaction *)

Section HexFacts.

Lemma byteOfHex_ofByte (b : Z) : isByte b -> byteOfHex (Hex.ofByte b) = b.
Proof.
  intros [Hlo Hhi].
  assert (Hall : forallb (fun n => byteOfHex (Hex.ofByte (Z.of_nat n)) =? Z.of_nat n)
                   (seq 0 256) = true) by (vm_compute; reflexivity).
  rewrite forallb_forall in Hall.
  specialize (Hall (Z.to_nat b)).
  rewrite Z2Nat.id in Hall by lia.
  apply Z.eqb_eq. apply Hall. apply in_seq. lia.
Qed.

Lemma ofBytes_cons (b : Z) (bs : list Z) :
  Hex.ofBytes (b :: bs)
  = String (Hex.digit (Z.shiftr (Z.land b 255) 4))
      (String (Hex.digit (Z.land b 15)) (Hex.ofBytes bs)).
Proof. reflexivity. Qed.

Lemma ofBytes_length (bs : list Z) :
  String.length (Hex.ofBytes bs) = (2 * List.length bs)%nat.
Proof.
  induction bs as [|b bs IH]; [reflexivity|].
  rewrite ofBytes_cons. simpl String.length. rewrite IH. simpl List.length. lia.
Qed.

Lemma ofBytes_injective (bs bs' : list Z) :
  Forall isByte bs -> Forall isByte bs' ->
  Hex.ofBytes bs = Hex.ofBytes bs' -> bs = bs'.
Proof.
  intros Hb. revert bs'. induction Hb as [|b bs Hbyte Hb IH]; intros bs' Hb' E.
  - destruct bs' as [|b' bs']; [reflexivity|]. rewrite ofBytes_cons in E. discriminate.
  - destruct Hb' as [|b' bs' Hbyte' Hb']; [rewrite ofBytes_cons in E; discriminate|].
    rewrite !ofBytes_cons in E. inversion E as [[E1 E2 E3]].
    f_equal; [|apply IH; assumption].
    rewrite <- (byteOfHex_ofByte Hbyte), <- (byteOfHex_ofByte Hbyte').
    unfold Hex.ofByte. rewrite E1, E2. reflexivity.
Qed.

End HexFacts.

Section LegacyFacts.

Variable digest : string -> option (list Z).
Context {host : Host}.

(** X15. The hexadecimal text of the older generator has two digits for
    every byte of the digest and adds no collision of its own: two sets of
    fields get the same identifier only when their digests are the same
    bytes. *)
Theorem legacy_identifier_spells_the_digest (f1 f2 : ProcessedSmsMessage)
    (h1 h2 : list Z) (w1 w2 : World) :
  digest (legacyIdData f1) = Some h1 -> digest (legacyIdData f2) = Some h2 ->
  Forall isByte h1 -> Forall isByte h2 ->
  exists i1 i2,
    legacyGenerateDeterministicTransactionId digest f1 w1 = (Normal i1, w1)
    /\ legacyGenerateDeterministicTransactionId digest f2 w2 = (Normal i2, w2)
    /\ String.length i1 = (2 * List.length h1)%nat
    /\ (i1 = i2 -> h1 = h2).
Proof.
  intros H1 H2 Hb1 Hb2. unfold legacyGenerateDeterministicTransactionId.
  rewrite H1, H2. exists (Hex.ofBytes h1), (Hex.ofBytes h2).
  split; [reflexivity|]. split; [reflexivity|]. split; [apply ofBytes_length|].
  apply ofBytes_injective; assumption.
Qed.

Lemma legacyFields_idData (smsData : ProcessedSmsMessage) :
  legacyIdData (legacyFields (smsDate smsData) smsData) = legacyIdData smsData.
Proof. reflexivity. Qed.

(** X16. In the older processor a transaction finds itself again: when the
    message has a date, the identifier [createTransactionFromSms] gives the
    transaction is the one [isTransactionDuplicate] looks up for the same
    message, whatever the bank, the type and the state, so once a
    transaction with that identifier is in the store the message is
    reported as a duplicate. *)
Theorem legacy_created_transaction_is_found_again (smsData : ProcessedSmsMessage)
    (bankName : string) (type : TransactionType) (w w1 : World) (t : LegacyTransaction) :
  Str.truthy (smsDate smsData) = true ->
  legacyCreateTransactionFromSms digest smsData bankName type w = (Normal t, w1) ->
  (forall bankName' type' w' w1' t',
      legacyCreateTransactionFromSms digest smsData bankName' type' w' = (Normal t', w1') ->
      legacyId t' = legacyId t)
  /\ (forall w2,
        legacyIsTransactionDuplicate digest smsData w2
        = (Normal (hasId (legacyId t) (visibleTransactions w2)), w2)).
Proof.
  intros Hdate E.
  assert (Hcreate : forall b ty w0 w0' t0,
             legacyCreateTransactionFromSms digest smsData b ty w0 = (Normal t0, w0') ->
             exists h, digest (legacyIdData smsData) = Some h
                       /\ legacyId t0 = Hex.ofBytes h).
  { intros b ty w0 w0' t0 E0. unfold legacyCreateTransactionFromSms in E0.
    unfold Str.orElse in E0. rewrite Hdate in E0.
    unfold bind, previousTransactionData in E0.
    destruct (getPreviousTransactionData (smsMerchantName smsData) (transactionsDb w0));
      [|discriminate].
    unfold legacyGenerateDeterministicTransactionId in E0.
    rewrite legacyFields_idData in E0.
    destruct (digest (legacyIdData smsData)) as [h|]; [|discriminate].
    unfold ret in E0. inversion E0; subst. simpl.
    exists h. auto. }
  destruct (Hcreate _ _ _ _ _ E) as (h & Hh & Hid).
  split.
  - intros b ty w' w1' t' E'. destruct (Hcreate _ _ _ _ _ E') as (h' & Hh' & Hid').
    rewrite Hid, Hid'. congruence.
  - intros w2. unfold legacyIsTransactionDuplicate, tryCatch.
    rewrite (bind_normal _ _ _ (getTransactions_visible w2)).
    unfold legacyGenerateDeterministicTransactionId. rewrite legacyFields_idData, Hh.
    unfold bind, ret. rewrite Hid. reflexivity.
Qed.

End LegacyFacts.

Lemma legacy_identifier_spells_the_digest_witness :
  exists i1 i2,
    @legacyGenerateDeterministicTransactionId sampleDigest
      (Sample.sampleHost [] JsonOther) Sample.fields Sample.emptyWorld
    = (Normal i1, Sample.emptyWorld)
    /\ @legacyGenerateDeterministicTransactionId sampleDigest
         (Sample.sampleHost [] JsonOther) Sample.otherFields (world Sample.stockedFrame)
       = (Normal i2, world Sample.stockedFrame)
    /\ String.length i1 = (2 * List.length [77; 50])%nat
    /\ (i1 = i2 -> [77; 50] = [33; 80]).
Proof.
  apply (@legacy_identifier_spells_the_digest sampleDigest
           (Sample.sampleHost [] JsonOther) Sample.fields Sample.otherFields
           [77; 50] [33; 80] Sample.emptyWorld (world Sample.stockedFrame)).
  - vm_compute. reflexivity.
  - vm_compute. reflexivity.
  - repeat constructor; unfold isByte; lia.
  - repeat constructor; unfold isByte; lia.
Defined.

Lemma legacy_created_transaction_is_found_again_witness :
  (forall bankName' type' w' w1' t',
      @legacyCreateTransactionFromSms sampleDigest (Sample.sampleHost [] JsonOther)
        Sample.fields bankName' type' w' = (Normal t', w1') ->
      legacyId t' = "4d32")
  /\ (forall w2,
        @legacyIsTransactionDuplicate sampleDigest (Sample.sampleHost [] JsonOther)
          Sample.fields w2
        = (Normal (hasId "4d32" (@visibleTransactions (Sample.sampleHost [] JsonOther) w2)),
           w2)).
Proof.
  apply (@legacy_created_transaction_is_found_again sampleDigest
           (Sample.sampleHost [] JsonOther) Sample.fields "HDFC Bank" expense
           Sample.emptyWorld Sample.emptyWorld
           {| legacyId := "4d32"; legacyMerchantName := unknownMerchant;
              legacyAmount := 500%float; legacyCurrency := "INR";
              legacyDate := "2024-01-15T10:00:00.000Z"; legacyCategory := "other";
              legacyNotes := EmptyString; legacyPaymentMethod := "HDFC Bank";
              legacyType := expense; legacySender := Some Sample.sender;
              legacySource := "sms" |}).
  - reflexivity.
  - vm_compute. reflexivity.
Defined.

(** ** The rule tester: priority decides *)

Section SortFacts.

Lemma insertByPriority_In (r x : TestedRule) (l : list TestedRule) :
  In x (insertByPriority r l) <-> x = r \/ In x l.
Proof.
  induction l as [|y ys IH]; simpl.
  - split; [intros [H|[]]; auto | intros [H|[]]; auto].
  - destruct (priority (base y) <=? priority (base r)); simpl.
    + split; [intros [H|[H|H]]; auto | intros [H|[H|H]]; auto].
    + rewrite IH. split; [intros [H|[H|H]]; auto | intros [H|[H|H]]; auto].
Qed.

Lemma sortByPriority_In (x : TestedRule) (l : list TestedRule) :
  In x (sortByPriority l) <-> In x l.
Proof.
  induction l as [|y ys IH]; simpl; [reflexivity|].
  rewrite insertByPriority_In, IH. split; [intros [H|H]; auto | intros [H|H]; auto].
Qed.

Lemma insertByPriority_descending (r : TestedRule) (l : list TestedRule) :
  descending l -> descending (insertByPriority r l).
Proof.
  induction l as [|y ys IH]; simpl; intros H.
  - split; [constructor|exact I].
  - destruct H as [Hy Hys].
    destruct (Z.leb_spec (priority (base y)) (priority (base r))) as [Hle|Hgt]; simpl.
    + split; [|split; assumption].
      constructor; [exact Hle|].
      eapply Forall_impl; [|exact Hy]. intros z Hz. simpl in Hz. lia.
    + split; [|apply IH; exact Hys].
      apply Forall_forall. intros z Hz. apply insertByPriority_In in Hz.
      destruct Hz as [Hz|Hz]; [subst z; lia|].
      rewrite Forall_forall in Hy. apply Hy. exact Hz.
Qed.

Lemma sortByPriority_descending (l : list TestedRule) : descending (sortByPriority l).
Proof.
  induction l as [|y ys IH]; simpl; [exact I|].
  apply insertByPriority_descending. exact IH.
Qed.

Lemma descending_after (pre post : list TestedRule) (r y : TestedRule) :
  descending (pre ++ r :: post) -> In y post ->
  priority (base y) <= priority (base r).
Proof.
  induction pre as [|x pre IH]; simpl; intros [Hx Hd] Hin.
  - rewrite Forall_forall in Hx. apply Hx. exact Hin.
  - apply IH; assumption.
Qed.

End SortFacts.

Section TesterFacts.

Variable extractMerchantName :
  string -> option string -> option string -> Z -> Completion string.
Context {host : Host}.

Lemma createTransactionFromSms_outcome (smsData : ProcessedSmsMessage)
    (bankName : string) (type : TransactionType) (w : World) :
  match getPreviousTransactionData (smsMerchantName smsData) (transactionsDb w) with
  | Some _ => exists t, createTransactionFromSms smsData bankName type w
                        = (Normal t, afterDraw w)
  | None => exists e, createTransactionFromSms smsData bankName type w
                      = (Thrown e, afterDraw w)
  end.
Proof.
  unfold createTransactionFromSms, tryCatch.
  rewrite (bind_normal _ _ _ (generateDeterministicTransactionId_draws smsData w)).
  unfold bind, previousTransactionData. simpl.
  destruct (getPreviousTransactionData (smsMerchantName smsData) (transactionsDb w));
    eexists; reflexivity.
Qed.

(** One rule of the tester's loop: it never throws, never writes the store,
    and gives a result exactly when the rule passes. *)
Lemma testRule_step (smsText sender : string) (fromDate toDate : option Z)
    (type : TransactionType) (r : TestedRule) (w : World) :
  enabled (base r) = true ->
  exists found w',
    tryCatch (testRuleBody extractMerchantName smsText sender fromDate toDate type r)
             (fun _ => ret None) w = (Normal found, w')
    /\ transactionsDb w' = transactionsDb w
    /\ match found with
       | Some result =>
           matchedRule result = r /\ testedType result = type
           /\ testerPasses extractMerchantName (transactionsDb w) smsText sender
                fromDate toDate r
       | None =>
           ~ testerPasses extractMerchantName (transactionsDb w) smsText sender
               fromDate toDate r
       end.
Proof.
  intros Hen. unfold tryCatch, testRuleBody, testerPasses.
  destruct (senderMatches sender (base r)) eqn:Esm.
  2:{ exists None, w. split; [reflexivity|]. split; [reflexivity|].
      intros (_ & H & _). discriminate. }
  change (negb true) with false. cbv iota.
  destruct (ruleSkips smsText (base r)) eqn:Esk.
  { exists None, w. split; [reflexivity|]. split; [reflexivity|].
    intros (_ & _ & H & _). discriminate. }
  destruct (extractAmount smsText (toArray (amountRegex (base r))) None) as [a|] eqn:Ea.
  2:{ exists None, w. split; [reflexivity|]. split; [reflexivity|].
      intros (_ & _ & _ & H & _). discriminate. }
  destruct (truthyAmount (Some a)) eqn:Et.
  2:{ exists None, w. split; [reflexivity|]. split; [reflexivity|].
      intros (_ & _ & _ & H & _). congruence. }
  change (negb true) with false. cbv iota.
  destruct (testerMerchant extractMerchantName smsText r) as [m|err] eqn:Em.
  2:{ exists None, w. split; [reflexivity|]. split; [reflexivity|].
      intros (_ & _ & _ & _ & _ & m & H & _). discriminate. }
  unfold toISOString.
  destruct ((- maxTimeValue <=? testerDate fromDate toDate)
            && (testerDate fromDate toDate <=? maxTimeValue)) eqn:Ed.
  2:{ exists None, w. split; [reflexivity|]. split; [reflexivity|].
      intros (_ & _ & _ & _ & H & _). discriminate. }
  unfold bind at 1. unfold ret at 1.
  match goal with
  | |- context [createTransactionFromSms ?d ?b ?t] =>
      pose proof (createTransactionFromSms_outcome d b t w) as Hc
  end.
  simpl smsMerchantName in Hc.
  destruct (getPreviousTransactionData m (transactionsDb w)) as [prev|] eqn:Ep.
  - destruct Hc as (t & Ec). rewrite (bind_normal _ _ _ Ec).
    eexists (Some _), (afterDraw w). split; [reflexivity|]. split; [reflexivity|].
    simpl. split; [reflexivity|]. split; [reflexivity|].
    repeat split; auto. exists m. split; [reflexivity|]. congruence.
  - destruct Hc as (e & Ec). rewrite (bind_thrown _ _ _ Ec).
    exists None, (afterDraw w). split; [reflexivity|]. split; [reflexivity|].
    intros (_ & _ & _ & _ & _ & m' & Hm' & Hp). inversion Hm'; subst m'. congruence.
Qed.

(** The tester's loop: it returns the first rule of its list that passes. *)
Lemma testerTryRules_first (smsText sender : string) (fromDate toDate : option Z)
    (type : TransactionType) (rules : list TestedRule) (w : World) :
  exists found w',
    testerTryRules extractMerchantName smsText sender rules fromDate toDate type w
    = (Normal found, w')
    /\ transactionsDb w' = transactionsDb w
    /\ match found with
       | Some result =>
           testedType result = type
           /\ exists pre post,
                rules = (pre ++ matchedRule result :: post)%list
                /\ Forall (fun r' => ~ testerPasses extractMerchantName (transactionsDb w)
                                         smsText sender fromDate toDate r') pre
                /\ testerPasses extractMerchantName (transactionsDb w) smsText sender
                     fromDate toDate (matchedRule result)
       | None =>
           Forall (fun r' => ~ testerPasses extractMerchantName (transactionsDb w)
                               smsText sender fromDate toDate r') rules
       end.
Proof.
  revert w. induction rules as [|r rest IH]; intros w; simpl.
  - exists None, w. split; [reflexivity|]. split; [reflexivity|]. constructor.
  - assert (Hrest : forall w1,
               transactionsDb w1 = transactionsDb w ->
               ~ testerPasses extractMerchantName (transactionsDb w) smsText sender
                   fromDate toDate r ->
               exists found w',
                 testerTryRules extractMerchantName smsText sender rest fromDate toDate
                   type w1 = (Normal found, w')
                 /\ transactionsDb w' = transactionsDb w
                 /\ match found with
                    | Some result =>
                        testedType result = type
                        /\ exists pre post,
                             (r :: rest) = (pre ++ matchedRule result :: post)%list
                             /\ Forall (fun r' => ~ testerPasses extractMerchantName
                                                      (transactionsDb w) smsText sender
                                                      fromDate toDate r') pre
                             /\ testerPasses extractMerchantName (transactionsDb w)
                                  smsText sender fromDate toDate (matchedRule result)
                    | None =>
                        Forall (fun r' => ~ testerPasses extractMerchantName
                                            (transactionsDb w) smsText sender
                                            fromDate toDate r') (r :: rest)
                    end).
    { intros w1 Hdb Hno. destruct (IH w1) as (found & w' & E & Hdb' & Hf).
      exists found, w'. split; [exact E|]. split; [congruence|].
      rewrite Hdb in Hf. destruct found as [result|].
      - destruct Hf as (Hty & pre & post & Hl & Hpre & Hp). split; [exact Hty|].
        exists (r :: pre), post. rewrite Hl. split; [reflexivity|].
        split; [constructor; assumption|exact Hp].
      - constructor; assumption. }
    destruct (enabled (base r)) eqn:Hen; simpl.
    2:{ apply Hrest; [reflexivity|]. intros (H & _). congruence. }
    destruct (testRule_step smsText sender fromDate toDate type r w Hen)
      as (found & w1 & E1 & Hdb1 & Hf).
    rewrite (bind_normal _ _ _ E1). destruct found as [result|].
    + destruct Hf as (Hm & Hty & Hp).
      exists (Some result), w1. split; [reflexivity|]. split; [exact Hdb1|].
      split; [exact Hty|]. exists [], rest. rewrite Hm.
      split; [reflexivity|]. split; [constructor|exact Hp].
    + apply Hrest; assumption.
Qed.

End TesterFacts.

Section TesterClaims.

Variable extractMerchantName :
  string -> option string -> option string -> Z -> Completion string.
Variable storedRules : option (option (list TestedRule)).
Context {host : Host}.

Lemma ofTestedType_filter (t : TransactionType) (rules : list TestedRule) (r : TestedRule) :
  In r (filter (ofTestedType t) rules) <-> In r rules /\ transactionType (base r) = t.
Proof.
  rewrite filter_In. unfold ofTestedType, ofType.
  split; intros [Hin Ht]; split; auto;
    destruct (transactionType (base r)), t; simpl in *; congruence.
Qed.

(** What the tester does once it has its rules. *)
Lemma testSmsWithRules_groups (smsText sender : string) (fromDate toDate : option Z)
    (rules : list TestedRule) (w : World) :
  exists found w',
    testSmsWithRules extractMerchantName storedRules smsText sender fromDate toDate
      (Some rules) w = (Normal found, w')
    /\ transactionsDb w' = transactionsDb w
    /\ exists expenseFound w1,
         testerTryRules extractMerchantName smsText sender
           (sortByPriority (filter (ofTestedType expense) rules)) fromDate toDate expense w
         = (Normal expenseFound, w1)
         /\ transactionsDb w1 = transactionsDb w
         /\ match expenseFound with
            | Some result => found = Some result /\ w' = w1
            | None =>
                testerTryRules extractMerchantName smsText sender
                  (sortByPriority (filter (ofTestedType income) rules)) fromDate toDate
                  income w1 = (Normal found, w')
            end.
Proof.
  unfold testSmsWithRules.
  destruct (testerTryRules_first extractMerchantName smsText sender fromDate toDate expense
              (sortByPriority (filter (ofTestedType expense) rules)) w)
    as (ef & w1 & E1 & Hdb1 & _).
  destruct ef as [result|].
  - exists (Some result), w1. split.
    + apply tryCatch_normal. unfold bind at 1. unfold ret at 1.
      rewrite (bind_normal _ _ _ E1). reflexivity.
    + split; [exact Hdb1|]. exists (Some result), w1. auto.
  - destruct (testerTryRules_first extractMerchantName smsText sender fromDate toDate income
                (sortByPriority (filter (ofTestedType income) rules)) w1)
      as (inf & w2 & E2 & Hdb2 & _).
    exists inf, w2. split.
    + apply tryCatch_normal. unfold bind at 1. unfold ret at 1.
      rewrite (bind_normal _ _ _ E1). rewrite (bind_normal _ _ _ E2).
      destruct inf; reflexivity.
    + split; [congruence|]. exists None, w1. auto.
Qed.

(** The first rule that passes in a sorted group has the highest priority
    of the rules of the group that pass. *)
Lemma first_passing_is_highest (db : list Transaction) (smsText sender : string)
    (fromDate toDate : option Z) (t : TransactionType) (rules pre post : list TestedRule)
    (r : TestedRule) :
  sortByPriority (filter (ofTestedType t) rules) = (pre ++ r :: post)%list ->
  Forall (fun r' => ~ testerPasses extractMerchantName db smsText sender
                        fromDate toDate r') pre ->
  In r rules /\ transactionType (base r) = t
  /\ forall r', In r' rules -> transactionType (base r') = t ->
                testerPasses extractMerchantName db smsText sender fromDate toDate r' ->
                priority (base r') <= priority (base r).
Proof.
  intros Hl Hpre.
  assert (Hr : In r (sortByPriority (filter (ofTestedType t) rules)))
    by (rewrite Hl; apply in_or_app; right; left; reflexivity).
  apply sortByPriority_In, ofTestedType_filter in Hr. destruct Hr as [Hin Ht].
  split; [exact Hin|]. split; [exact Ht|].
  intros r' Hin' Ht' Hp'.
  assert (Hs : In r' (pre ++ r :: post)).
  { rewrite <- Hl. apply sortByPriority_In, ofTestedType_filter. auto. }
  apply in_app_or in Hs. destruct Hs as [Hs|[Hs|Hs]].
  - rewrite Forall_forall in Hpre. exfalso. apply (Hpre r' Hs). exact Hp'.
  - subst r'. lia.
  - apply (@descending_after pre post r r'); [|exact Hs].
    rewrite <- Hl. apply sortByPriority_descending.
Qed.

(** X17. Priority decides in the rule tester. The rule the tester matches
    is one of the rules it was given, of the type it reports, and passes
    (enabled, sender matched, no skip condition matched, an amount found,
    the transaction created); no rule of that type that passes has a
    higher priority; and a result of type income means that no expense rule
    passes. *)
Theorem tester_matches_highest_priority_rule (smsText sender : string)
    (fromDate toDate : option Z) (rules : list TestedRule) (w w' : World)
    (result : RuleTestResult) :
  testSmsWithRules extractMerchantName storedRules smsText sender fromDate toDate
    (Some rules) w = (Normal (Some result), w') ->
  In (matchedRule result) rules
  /\ transactionType (base (matchedRule result)) = testedType result
  /\ testerPasses extractMerchantName (transactionsDb w) smsText sender fromDate toDate
       (matchedRule result)
  /\ (forall r',
        In r' rules -> transactionType (base r') = testedType result ->
        testerPasses extractMerchantName (transactionsDb w) smsText sender
          fromDate toDate r' ->
        priority (base r') <= priority (base (matchedRule result)))
  /\ (testedType result = income ->
      forall r',
        In r' rules -> transactionType (base r') = expense ->
        ~ testerPasses extractMerchantName (transactionsDb w) smsText sender
            fromDate toDate r').
Proof.
  intros E.
  destruct (testSmsWithRules_groups smsText sender fromDate toDate rules w)
    as (found & w0 & E0 & _ & ef & w1 & E1 & Hdb1 & Hcase).
  rewrite E0 in E. inversion E; subst found w0. clear E.
  destruct (testerTryRules_first extractMerchantName smsText sender fromDate toDate expense
              (sortByPriority (filter (ofTestedType expense) rules)) w)
    as (ef' & w1' & E1' & _ & Hf1).
  rewrite E1 in E1'. inversion E1'; subst ef' w1'. clear E1'.
  destruct ef as [res|].
  - destruct Hcase as [Heq _]. inversion Heq; subst res.
    destruct Hf1 as (Hty & pre & post & Hl & Hpre & Hp).
    destruct (@first_passing_is_highest _ _ _ _ _ _ _ _ _ _ Hl Hpre) as (Hin & Ht & Hmax).
    rewrite Hty. split; [exact Hin|]. split; [exact Ht|]. split; [exact Hp|].
    split; [exact Hmax|]. intros Hinc. discriminate.
  - destruct (testerTryRules_first extractMerchantName smsText sender fromDate toDate income
                (sortByPriority (filter (ofTestedType income) rules)) w1)
      as (inf & w2 & E2 & _ & Hf2).
    rewrite Hcase in E2. inversion E2; subst inf w2. clear E2.
    rewrite Hdb1 in Hf2.
    destruct Hf2 as (Hty & pre & post & Hl & Hpre & Hp).
    destruct (@first_passing_is_highest _ _ _ _ _ _ _ _ _ _ Hl Hpre) as (Hin & Ht & Hmax).
    rewrite Hty. split; [exact Hin|]. split; [exact Ht|]. split; [exact Hp|].
    split; [exact Hmax|]. intros _ r' Hin' Ht' Hp'.
    rewrite Forall_forall in Hf1. apply (Hf1 r'); [|exact Hp'].
    apply sortByPriority_In, ofTestedType_filter. auto.
Qed.

(** Without custom rules the tester reads the rule store once and goes on
    as if it had been given the stored rules; when the store rejects or
    holds nothing it gives no result. *)
Lemma testSmsWithRules_stored (smsText sender : string)
    (fromDate toDate : option Z) (w : World) :
  match storedRules with
  | Some (Some rules) =>
      testSmsWithRules extractMerchantName storedRules smsText sender fromDate toDate
        None w
      = testSmsWithRules extractMerchantName storedRules smsText sender fromDate toDate
          (Some rules) (addCalls [GetSmsParserRules] w)
  | _ =>
      testSmsWithRules extractMerchantName storedRules smsText sender fromDate toDate
        None w
      = (Normal None, addCalls [GetSmsParserRules] w)
  end.
Proof.
  unfold testSmsWithRules, tryCatch, getTestedRules, logEvent, modify.
  destruct storedRules as [[rules|]|]; reflexivity.
Qed.

(** With rules at hand, the tester gives no result exactly when none of them
    passes. *)
Lemma testSmsWithRules_none_iff (smsText sender : string)
    (fromDate toDate : option Z) (rules : list TestedRule) (w : World) :
  exists found w',
    testSmsWithRules extractMerchantName storedRules smsText sender fromDate toDate
      (Some rules) w = (Normal found, w')
    /\ transactionsDb w' = transactionsDb w
    /\ (found = None <->
        forall r, In r rules ->
                  ~ testerPasses extractMerchantName (transactionsDb w) smsText sender
                      fromDate toDate r).
Proof.
  destruct (testSmsWithRules_groups smsText sender fromDate toDate rules w)
    as (found & w' & E & Hdb & ef & w1 & E1 & Hdb1 & Hcase).
  exists found, w'. split; [exact E|]. split; [exact Hdb|].
  destruct (testerTryRules_first extractMerchantName smsText sender fromDate toDate expense
              (sortByPriority (filter (ofTestedType expense) rules)) w)
    as (ef' & w1' & E1' & _ & Hf1).
  rewrite E1 in E1'. inversion E1'; subst ef' w1'. clear E1'.
  destruct ef as [res|].
  - destruct Hcase as [Heq _]. subst found.
    destruct Hf1 as (_ & pre & post & Hl & _ & Hp).
    split; [discriminate|]. intros Hnone. exfalso.
    apply (Hnone (matchedRule res)); [|exact Hp].
    assert (Hr : In (matchedRule res) (sortByPriority (filter (ofTestedType expense) rules)))
      by (rewrite Hl; apply in_or_app; right; left; reflexivity).
    apply sortByPriority_In, ofTestedType_filter in Hr. apply Hr.
  - destruct (testerTryRules_first extractMerchantName smsText sender fromDate toDate income
                (sortByPriority (filter (ofTestedType income) rules)) w1)
      as (inf & w2 & E2 & _ & Hf2).
    rewrite Hcase in E2. inversion E2; subst inf w2. clear E2.
    rewrite Hdb1 in Hf2. destruct found as [res|].
    + destruct Hf2 as (_ & pre & post & Hl & _ & Hp).
      split; [discriminate|]. intros Hnone. exfalso.
      apply (Hnone (matchedRule res)); [|exact Hp].
      assert (Hr : In (matchedRule res)
                     (sortByPriority (filter (ofTestedType income) rules)))
        by (rewrite Hl; apply in_or_app; right; left; reflexivity).
      apply sortByPriority_In, ofTestedType_filter in Hr. apply Hr.
    + split; [|reflexivity]. intros _ r Hin.
      rewrite Forall_forall in Hf1, Hf2.
      destruct (transactionType (base r)) eqn:Ht.
      * apply Hf1. apply sortByPriority_In, ofTestedType_filter. auto.
      * apply Hf2. apply sortByPriority_In, ofTestedType_filter. auto.
Qed.

(** X18. The tester never throws and never writes the transaction store.
    The rules it tries are the custom rules when there are any, else the
    rules of the rule store; it returns no result exactly when it has no
    rules to try (the rule store rejects or holds nothing) or none of the
    rules it tries passes. *)
Theorem tester_finds_a_rule_when_one_passes (smsText sender : string)
    (fromDate toDate : option Z) (customRules : option (list TestedRule)) (w : World) :
  exists found w',
    testSmsWithRules extractMerchantName storedRules smsText sender fromDate toDate
      customRules w = (Normal found, w')
    /\ transactionsDb w' = transactionsDb w
    /\ (found = None <->
        match testerRules storedRules customRules with
        | Some rules =>
            forall r, In r rules ->
                      ~ testerPasses extractMerchantName (transactionsDb w) smsText sender
                          fromDate toDate r
        | None => True
        end).
Proof.
  destruct customRules as [rules|]; simpl testerRules.
  - apply testSmsWithRules_none_iff.
  - pose proof (testSmsWithRules_stored smsText sender fromDate toDate w) as Hs.
    destruct storedRules as [[rules|]|].
    + destruct (testSmsWithRules_none_iff smsText sender fromDate toDate rules
                  (addCalls [GetSmsParserRules] w)) as (found & w' & E & Hdb & Hiff).
      exists found, w'. rewrite Hs. split; [exact E|]. split; [exact Hdb|exact Hiff].
    + exists None, (addCalls [GetSmsParserRules] w). rewrite Hs.
      split; [reflexivity|]. split; [reflexivity|]. split; auto.
    + exists None, (addCalls [GetSmsParserRules] w). rewrite Hs.
      split; [reflexivity|]. split; [reflexivity|]. split; auto.
Qed.

End TesterClaims.

Lemma tester_matches_highest_priority_rule_witness :
  In (Sample.tested Sample.highPriority)
    [Sample.tested Sample.lowPriority; Sample.tested Sample.highPriority]
  /\ transactionType Sample.highPriority = expense
  /\ @testerPasses Sample.noMerchantName (Sample.sampleHost [] JsonOther) []
       Sample.text Sample.sender None None (Sample.tested Sample.highPriority)
  /\ (forall r',
        In r' [Sample.tested Sample.lowPriority; Sample.tested Sample.highPriority] ->
        transactionType (base r') = expense ->
        @testerPasses Sample.noMerchantName (Sample.sampleHost [] JsonOther) []
          Sample.text Sample.sender None None r' ->
        priority (base r') <= priority Sample.highPriority)
  /\ (expense = income ->
      forall r',
        In r' [Sample.tested Sample.lowPriority; Sample.tested Sample.highPriority] ->
        transactionType (base r') = expense ->
        ~ @testerPasses Sample.noMerchantName (Sample.sampleHost [] JsonOther) []
            Sample.text Sample.sender None None r').
Proof.
  apply (@tester_matches_highest_priority_rule Sample.noMerchantName None
           (Sample.sampleHost [] JsonOther) Sample.text Sample.sender None None
           [Sample.tested Sample.lowPriority; Sample.tested Sample.highPriority]
           Sample.emptyWorld
           (@afterDraw Sample.emptyWorld)
           {| createdTransaction := Sample.stored;
              matchedRule := Sample.tested Sample.highPriority;
              testedType := expense |}).
  vm_compute. reflexivity.
Defined.

Lemma tester_finds_a_rule_when_one_passes_witness :
  exists found w',
    @testSmsWithRules Sample.noMerchantName (Some (Some [Sample.tested Sample.disabledRule]))
      (Sample.sampleHost [] JsonOther) Sample.text Sample.sender None None
      None Sample.emptyWorld = (Normal found, w')
    /\ transactionsDb w' = transactionsDb Sample.emptyWorld
    /\ (found = None <->
        match testerRules (Some (Some [Sample.tested Sample.disabledRule])) None with
        | Some rules =>
            forall r, In r rules ->
                      ~ @testerPasses Sample.noMerchantName (Sample.sampleHost [] JsonOther)
                          (transactionsDb Sample.emptyWorld) Sample.text Sample.sender
                          None None r
        | None => True
        end).
Proof.
  apply (@tester_finds_a_rule_when_one_passes Sample.noMerchantName
           (Some (Some [Sample.tested Sample.disabledRule]))
           (Sample.sampleHost [] JsonOther)).
Defined.

(** ** The duplicate check when the store cannot be read *)

Section FailOpen.

Context {host : Host}.

(** X19. The duplicate check fails open. When the database cannot be
    opened or read, [getTransactions] gives the empty list, so
    [isTransactionDuplicate] answers "no duplicate" for every message, with
    or without an identifier, and [addTransaction] rejects every
    transaction, leaving the store as it was. *)
Theorem duplicate_check_fails_open (smsData : ProcessedSmsMessage) (t : Transaction)
    (w : World) :
  idb_ok = false ->
  (exists w', isTransactionDuplicate smsData w = (Normal false, w')
              /\ transactionsDb w' = transactionsDb w)
  /\ (exists e w', addTransaction t w = (Thrown e, w')
                   /\ transactionsDb w' = transactionsDb w).
Proof.
  intros Hoff. split.
  - unfold isTransactionDuplicate, tryCatch.
    assert (Eg : getTransactions w = (Normal [], w)).
    { rewrite getTransactions_visible. unfold visibleTransactions. rewrite Hoff.
      reflexivity. }
    rewrite (bind_normal _ _ _ Eg).
    destruct (Str.truthy (orEmpty (smsId smsData))).
    + exists w. split; reflexivity.
    + rewrite (bind_normal _ _ _ (generateDeterministicTransactionId_draws smsData w)).
      exists (afterDraw w). split; reflexivity.
  - destruct (addTransaction_cases t w) as [(Hok & _) | (e & _ & E)]; [congruence|].
    exists e, (addCalls [AddTransaction t] w). split; [exact E|reflexivity].
Qed.

End FailOpen.

Lemma duplicate_check_fails_open_witness :
  (exists w',
      @isTransactionDuplicate (Sample.offlineHost [] JsonOther) Sample.fields
        (world Sample.stockedFrame) = (Normal false, w')
      /\ transactionsDb w' = transactionsDb (world Sample.stockedFrame))
  /\ (exists e w',
        @addTransaction (Sample.offlineHost [] JsonOther) Sample.stored
          (world Sample.stockedFrame) = (Thrown e, w')
        /\ transactionsDb w' = transactionsDb (world Sample.stockedFrame)).
Proof.
  apply (@duplicate_check_fails_open (Sample.offlineHost [] JsonOther)).
  reflexivity.
Defined.

(** ** The rule tester: ties *)

Section TesterTies.

Variable extractMerchantName :
  string -> option string -> option string -> Z -> Completion string.
Variable storedRules : option (option (list TestedRule)).
Context {host : Host}.

(** Sorting keeps the rules of one priority in the order they had. *)
Lemma insertByPriority_stable (p : Z) (r : TestedRule) (l : list TestedRule) :
  filter (hasPriority p) (insertByPriority r l)
  = if hasPriority p r then r :: filter (hasPriority p) l else filter (hasPriority p) l.
Proof.
  induction l as [|x xs IH]; simpl.
  - destruct (hasPriority p r); reflexivity.
  - destruct (Z.leb_spec (priority (base x)) (priority (base r))) as [Hle|Hgt]; simpl.
    + destruct (hasPriority p r); reflexivity.
    + rewrite IH. unfold hasPriority in *.
      destruct (Z.eqb_spec (priority (base r)) p) as [Hr|Hr];
        destruct (Z.eqb_spec (priority (base x)) p) as [Hx|Hx]; try reflexivity.
      lia.
Qed.

Lemma sortByPriority_stable (p : Z) (l : list TestedRule) :
  filter (hasPriority p) (sortByPriority l) = filter (hasPriority p) l.
Proof.
  induction l as [|x xs IH]; simpl; [reflexivity|].
  rewrite insertByPriority_stable, IH. reflexivity.
Qed.

(** X20. Ties in the rule tester go to the rule listed first: among the
    rules of the type and of the priority of the matched rule, taken in the
    order they were given, the matched rule is the first that passes. *)
Theorem tester_breaks_ties_by_input_order (smsText sender : string)
    (fromDate toDate : option Z) (rules : list TestedRule) (w w' : World)
    (result : RuleTestResult) :
  testSmsWithRules extractMerchantName storedRules smsText sender fromDate toDate
    (Some rules) w = (Normal (Some result), w') ->
  exists pre post,
    filter (hasPriority (priority (base (matchedRule result))))
      (filter (ofTestedType (testedType result)) rules)
    = (pre ++ matchedRule result :: post)%list
    /\ Forall (fun r' => ~ testerPasses extractMerchantName (transactionsDb w)
                            smsText sender fromDate toDate r') pre.
Proof.
  intros E.
  assert (Hgroup : forall t pre post,
             sortByPriority (filter (ofTestedType t) rules)
             = (pre ++ matchedRule result :: post)%list ->
             Forall (fun r' => ~ testerPasses extractMerchantName (transactionsDb w)
                                   smsText sender fromDate toDate r') pre ->
             exists pre' post',
               filter (hasPriority (priority (base (matchedRule result))))
                 (filter (ofTestedType t) rules)
               = (pre' ++ matchedRule result :: post')%list
               /\ Forall (fun r' => ~ testerPasses extractMerchantName (transactionsDb w)
                                       smsText sender fromDate toDate r') pre').
  { intros t pre post Hl Hpre.
    rewrite <- (sortByPriority_stable _ (filter (ofTestedType t) rules)), Hl.
    rewrite filter_app. simpl. unfold hasPriority at 2. rewrite Z.eqb_refl.
    eexists _, _. split; [reflexivity|].
    apply Forall_forall. intros r' Hr'. apply filter_In in Hr'.
    rewrite Forall_forall in Hpre. apply Hpre. apply Hr'. }
  destruct (@testSmsWithRules_groups extractMerchantName storedRules _ smsText sender
              fromDate toDate rules w)
    as (found & w0 & E0 & _ & ef & w1 & E1 & Hdb1 & Hcase).
  rewrite E0 in E. inversion E; subst found w0. clear E.
  destruct (testerTryRules_first extractMerchantName smsText sender fromDate toDate expense
              (sortByPriority (filter (ofTestedType expense) rules)) w)
    as (ef' & w1' & E1' & _ & Hf1).
  rewrite E1 in E1'. inversion E1'; subst ef' w1'. clear E1'.
  destruct ef as [res|].
  - destruct Hcase as [Heq _]. inversion Heq; subst res.
    destruct Hf1 as (Hty & pre & post & Hl & Hpre & _).
    rewrite Hty. apply (Hgroup expense pre post Hl Hpre).
  - destruct (testerTryRules_first extractMerchantName smsText sender fromDate toDate income
                (sortByPriority (filter (ofTestedType income) rules)) w1)
      as (inf & w2 & E2 & _ & Hf2).
    rewrite Hcase in E2. inversion E2; subst inf w2. clear E2.
    rewrite Hdb1 in Hf2.
    destruct Hf2 as (Hty & pre & post & Hl & Hpre & _).
    rewrite Hty. apply (Hgroup income pre post Hl Hpre).
Qed.

End TesterTies.

Lemma tester_breaks_ties_by_input_order_witness :
  exists pre post,
    filter (hasPriority (priority Sample.expenseRule))
      (filter (ofTestedType expense)
         [Sample.tested Sample.disabledRule; Sample.tested Sample.expenseRule;
          Sample.tested Sample.skipRule])
    = (pre ++ Sample.tested Sample.expenseRule :: post)%list
    /\ Forall (fun r' => ~ @testerPasses Sample.noMerchantName
                             (Sample.sampleHost [] JsonOther) []
                             Sample.text Sample.sender None None r') pre.
Proof.
  apply (@tester_breaks_ties_by_input_order Sample.noMerchantName None
           (Sample.sampleHost [] JsonOther) Sample.text Sample.sender None None
           [Sample.tested Sample.disabledRule; Sample.tested Sample.expenseRule;
            Sample.tested Sample.skipRule]
           Sample.emptyWorld (@afterDraw Sample.emptyWorld)
           {| createdTransaction := Sample.stored;
              matchedRule := Sample.tested Sample.expenseRule;
              testedType := expense |}).
  vm_compute. reflexivity.
Defined.
